(** * python-ring-doorbell: the session, query and device layer

    A shallow embedding of [ring_doorbell/__init__.py]: the [Ring] session
    (login handshake, retrying query engine, device directory) and the
    device handles [RingGeneric], [RingChime] and [RingDoorBell].

    Python objects become records, the mutable session and the network
    become an explicit state threaded by a state-and-exception monad, and
    the HTTP server is a function from the requests seen so far and the
    request at hand to a reply.  A [while loop <= attempts] loop is a
    fixpoint on the number of passes left.  Calls to the logger change
    nothing and are left out.  What the module imports from
    [ring_doorbell.const], [str], [datetime] and [pytz] comes in through
    the classes [Const] and [Lib]. *)

From Stdlib Require Import ZArith QArith.
From stdpp Require Import base gmap strings list fin_maps pretty.

Local Set Warnings "-register-all".
Local Open Scope Z_scope.

(** ** Python values *)

(** The values that travel through the library: what [req.json()] yields
    (dicts keep their items in the order of the document), the timezone-aware
    [datetime] objects that [history] writes into its entries, and [None].
    A float is kept by its exact value, a rational number: a JSON document
    has neither NaN nor the infinities. *)
Inductive value : Type :=
| VNone
| VBool (b : bool)
| VInt (n : Z)
| VFloat (q : Q)
| VStr (s : string)
| VList (l : list value)
| VDict (d : list (string * value))
| VDateTime (stamp : string) (zone : string).

Inductive exn : Type :=
| ConnectionError
| HTTPError (status : Z)
| AttributeError
| TypeError
| KeyError
| ValueError
| IndexError
| UnboundLocalError
| UnknownTimeZoneError
| OverflowError.

Inductive outcome (A : Type) : Type :=
| Return (a : A)
| Raise (e : exn).
Arguments Return {A} a.
Arguments Raise {A} e.

Definition is_return {A} (o : outcome A) : bool :=
  match o with Return _ => true | Raise _ => false end.

#[global] Instance outcome_ret : MRet outcome := λ A a, Return a.
#[global] Instance outcome_bind : MBind outcome := λ A B f o,
  match o with
  | Return a => f a
  | Raise e => Raise e
  end.

(** Lookup of a key among the items of a dict. *)
Fixpoint assoc (k : string) (d : list (string * value)) : option value :=
  match d with
  | [] => None
  | (k', v) :: d' => if decide (k = k') then Some v else assoc k d'
  end.

(** [d[k] = v] on a dict: an existing key keeps its place. *)
Fixpoint assoc_set (k : string) (v : value) (d : list (string * value))
  : list (string * value) :=
  match d with
  | [] => [(k, v)]
  | (k', v') :: d' =>
      if decide (k = k') then (k, v) :: d' else (k', v') :: assoc_set k v d'
  end.

(** [obj.get(key)]: only dicts have the method; a missing key gives [None]. *)
Definition py_get (obj : value) (key : string) : outcome value :=
  match obj with
  | VDict d => Return (default VNone (assoc key d))
  | _ => Raise AttributeError
  end.

(** [obj[key]] with a string key. *)
Definition py_getitem (obj : value) (key : string) : outcome value :=
  match obj with
  | VDict d => match assoc key d with Some v => Return v | None => Raise KeyError end
  | _ => Raise TypeError
  end.

(** [obj[index]] with an integer index; a negative index counts from the
    end of a list. *)
Definition py_index (obj : value) (index : Z) : outcome value :=
  match obj with
  | VList l =>
      let i := if 0 <=? index then index else Z.of_nat (length l) + index in
      if i <? 0 then Raise IndexError
      else match l !! Z.to_nat i with
           | Some v => Return v
           | None => Raise IndexError
           end
  | VStr s =>
      let l := String.list_ascii_of_string s in
      let i := if 0 <=? index then index else Z.of_nat (length l) + index in
      if i <? 0 then Raise IndexError
      else match l !! Z.to_nat i with
           | Some c => Return (VStr (String c EmptyString))
           | None => Raise IndexError
           end
  | VDict _ => Raise KeyError
  | _ => Raise TypeError
  end.

(** The items a [for] loop over [obj] visits. *)
Definition py_iter (obj : value) : outcome (list value) :=
  match obj with
  | VList l => Return l
  | VDict d => Return (VStr <$> d.*1)
  | VStr s => Return ((λ c, VStr (String c EmptyString)) <$> String.list_ascii_of_string s)
  | _ => Raise TypeError
  end.

(** [isinstance(v, int)]: [bool] is a subclass of [int]. *)
Definition isinstance_int (v : value) : bool :=
  match v with VInt _ | VBool _ => true | _ => false end.

(** The integer an [int] instance compares as. *)
Definition int_of (v : value) : Z :=
  match v with VInt n => n | VBool b => Z.b2z b | _ => 0 end.

(** [str(v)] on an [int] instance. *)
Definition py_str (v : value) : string :=
  match v with
  | VInt n => pretty n
  | VBool true => "True"
  | VBool false => "False"
  | VStr s => s
  | _ => "None"
  end.

(** The items of [d1] are in [d2]: under each key of [d1] that is not among
    [seen], [d2] has a value equal to the one of [d1].  An item behind an
    earlier one of the same key is not part of the dict. *)
Definition covered (eq : value → value → bool) :=
  fix covered (d1 : list (string * value)) (seen : list string)
      (d2 : list (string * value)) {struct d1} : bool :=
    match d1 with
    | [] => true
    | (k, x) :: d1' =>
        (if bool_decide (k ∈ seen) then true
         else match assoc k d2 with
              | Some y => eq x y
              | None => false
              end)
        && covered d1' (k :: seen) d2
    end.

(** [a == b].  Numbers compare by value across [bool], [int] and [float];
    lists compare item by item; dicts are equal when they have the same
    keys and equal values under each key, whatever the order of the
    items. *)
Fixpoint py_eq (a b : value) {struct a} : bool :=
  let fix list_eq (l1 l2 : list value) {struct l1} : bool :=
    match l1, l2 with
    | [], [] => true
    | x :: l1', y :: l2' => py_eq x y && list_eq l1' l2'
    | _, _ => false
    end in
  match a, b with
  | VNone, VNone => true
  | VBool x, VBool y => bool_decide (x = y)
  | VBool x, VInt n | VInt n, VBool x => Z.b2z x =? n
  | VInt n, VInt m => n =? m
  | VFloat q, VFloat q' => Qeq_bool q q'
  | VFloat q, VInt n | VInt n, VFloat q => Qeq_bool q (inject_Z n)
  | VFloat q, VBool x | VBool x, VFloat q => Qeq_bool q (inject_Z (Z.b2z x))
  | VStr s, VStr s' => bool_decide (s = s')
  | VList l1, VList l2 => list_eq l1 l2
  | VDict d1, VDict d2 =>
      covered py_eq d1 [] d2
      && forallb (λ kv, bool_decide (is_Some (assoc kv.1 d1))) d2
  | VDateTime s z, VDateTime s' z' => bool_decide (s = s') && bool_decide (z = z')
  | _, _ => false
  end.

(** ** Constants and library functions the module imports *)

(** [ring_doorbell.const] is imported, not defined, by the module: its
    constants are parameters of the development.  [RETRY_TOKEN] is a retry
    count, [NOT_FOUND] the "no such entry" marker. *)
Class Const : Type := {
  API_VERSION : value;
  API_URI : string;
  NEW_SESSION_ENDPOINT : string;
  DEVICES_ENDPOINT : string;
  CHIMES_ENDPOINT : string;
  DOORBELLS_ENDPOINT : string;
  URL_DOORBELL_HISTORY : string;
  CHIME_VOL_MIN : Z;
  CHIME_VOL_MAX : Z;
  DOORBELL_VOL_MIN : Z;
  DOORBELL_VOL_MAX : Z;
  NOT_FOUND : Z;
  RETRY_TOKEN : nat
}.

(** What the module uses of [str], [datetime] and [pytz]: [template.format(v)],
    whether a string parses under ['%Y-%m-%dT%H:%M:%S.000Z'], whether
    [pytz.timezone] knows a zone name, and whether the datetime of a stamp
    can be moved to a zone: [astimezone] raises [OverflowError] when the
    local time falls outside the years 1 to 9999. *)
Class Lib : Type := {
  format : string → value → string;
  strptime_ok : string → bool;
  timezone_ok : string → bool;
  astimezone_ok : string → string → bool
}.

(** More of [ring_doorbell.const]: the endpoints of the activity feed, of
    the linked devices and of live streaming, and the dict
    [DOORBELL_EXISTING_TYPE], whose keys are integers. *)
Class MoreConst : Type := {
  DINGS_ENDPOINT : string;
  LINKED_CHIMES_ENDPOINT : string;
  LIVE_STREAMING_ENDPOINT : string;
  DOORBELL_EXISTING_TYPE : list (Z * value)
}.

(** What the module uses of [int] on a string: the integer it denotes,
    [None] when [int(s)] raises [ValueError]. *)
Class Builtins : Type := {
  int_of_str : string → option Z
}.

(** The integer part of a float, towards zero. *)
Definition truncate (q : Q) : Z := Z.quot (Qnum q) (Z.pos (Qden q)).

(** [int(v)]. *)
Definition py_int `{Builtins} (v : value) : outcome Z :=
  match v with
  | VInt n => Return n
  | VBool b => Return (Z.b2z b)
  | VStr s =>
      match int_of_str s with
      | Some n => Return n
      | None => Raise ValueError
      end
  | VFloat q => Return (truncate q)
  | _ => Raise TypeError
  end.

(** [v is None]. *)
Definition is_none (v : value) : bool :=
  match v with VNone => true | _ => false end.

(** [isinstance(v, bool)]. *)
Definition isinstance_bool (v : value) : bool :=
  match v with VBool _ => true | _ => false end.

(** The integer key a value stands for in a dict with integer keys: a
    number is looked up by its value, a list or a dict cannot be hashed,
    and anything else is equal to no integer. *)
Definition int_key (v : value) : outcome (option Z) :=
  match v with
  | VInt n => Return (Some n)
  | VBool b => Return (Some (Z.b2z b))
  | VFloat q =>
      Return (if Qeq_bool q (inject_Z (truncate q)) then Some (truncate q)
              else None)
  | VList _ | VDict _ => Raise TypeError
  | _ => Return None
  end.

(** Lookup in a dict with integer keys. *)
Fixpoint int_assoc (k : Z) (d : list (Z * value)) : option value :=
  match d with
  | [] => None
  | (k', v) :: d' => if k =? k' then Some v else int_assoc k d'
  end.

(** [v in d.keys()]. *)
Definition py_in_keys (v : value) (d : list (Z * value)) : outcome bool :=
  k ← int_key v;
  Return (match k with
          | Some k => bool_decide (is_Some (int_assoc k d))
          | None => false
          end).

(** [d[v]]. *)
Definition py_int_dict_get (d : list (Z * value)) (v : value)
  : outcome value :=
  k ← int_key v;
  match k ≫= λ k, int_assoc k d with
  | Some x => Return x
  | None => Raise KeyError
  end.

(** ** HTTP *)

(** A [requests.Response]: the status and what [req.json()] gives ([None]
    here when the body is not a JSON document). *)
Record response : Type := Response {
  status_code : Z;
  json : option value
}.

(** The two shapes of request the module sends: the login
    [session.post(url, data=POST_DATA, headers=HEADERS)] and the call
    [session.get/put/post(url, params=urlencode(params))].  Both carry
    [session.auth]. *)
Inductive request : Type :=
| Login (url : string) (auth : string * string)
| Call (method : string) (url : string) (auth : string * string)
       (params : gmap string value).

Definition is_login (rq : request) : bool :=
  match rq with Login _ _ => true | Call _ _ _ _ => false end.

(** A request is answered, or [requests] raises. *)
Inductive reply : Type :=
| Answer (r : response)
| Broken.

(** The server: its reply may depend on everything sent before. *)
Definition transport : Type := list request → request → reply.

(** [req.raise_for_status()]: raises for the 4xx and 5xx statuses only. *)
Definition raise_for_status (req : response) : outcome unit :=
  if (400 <=? status_code req) && (status_code req <? 600)
  then Raise (HTTPError (status_code req))
  else Return tt.

(** [req.json()]. *)
Definition response_json (req : response) : outcome value :=
  match json req with
  | Some v => Return v
  | None => Raise ValueError
  end.

(** [urlencode(params)]: a dict is encoded, [None] is refused. *)
Definition urlencode (params : option (gmap string value))
  : outcome (gmap string value) :=
  match params with
  | Some p => Return p
  | None => Raise TypeError
  end.

(** ** State *)

(** The attributes of a [Ring] object. [is_connected] is [None], [True] or
    [False]; [params] is [None] or a dict. *)
Record RingState : Type := mkRing {
  features : value;
  is_connected : option bool;
  _id : value;
  token : value;
  params : option (gmap string value);
  debug : bool;
  username : string;
  password : string
}.

Definition set_features (v : value) (r : RingState) : RingState :=
  mkRing v (is_connected r) (_id r) (token r) (params r) (debug r)
         (username r) (password r).
Definition set_is_connected (b : option bool) (r : RingState) : RingState :=
  mkRing (features r) b (_id r) (token r) (params r) (debug r)
         (username r) (password r).
Definition set_id (v : value) (r : RingState) : RingState :=
  mkRing (features r) (is_connected r) v (token r) (params r) (debug r)
         (username r) (password r).
Definition set_token (v : value) (r : RingState) : RingState :=
  mkRing (features r) (is_connected r) (_id r) v (params r) (debug r)
         (username r) (password r).
Definition set_params (p : option (gmap string value)) (r : RingState)
  : RingState :=
  mkRing (features r) (is_connected r) (_id r) (token r) p (debug r)
         (username r) (password r).

(** One entry of the network log: the request, and (for use in statements
    only, the server never sees it) the token the session stored when the
    request left. *)
Record event : Type := Event {
  sent : request;
  held : value
}.

(** The session and the log of everything sent so far, oldest first. *)
Record state : Type := State {
  ring : RingState;
  net : list event
}.

(** ** The monad: state that survives exceptions *)

Definition M (A : Type) : Type := state → outcome A * state.

#[global] Instance M_ret : MRet M := λ A a st, (Return a, st).
#[global] Instance M_bind : MBind M := λ A B f m st,
  match m st with
  | (Return a, st') => f a st'
  | (Raise e, st') => (Raise e, st')
  end.

Definition raise {A} (e : exn) : M A := λ st, (Raise e, st).

Definition lift {A} (o : outcome A) : M A := λ st, (o, st).

Definition get_ring : M RingState := λ st, (Return (ring st), st).

Definition modify_ring (f : RingState → RingState) : M unit :=
  λ st, (Return tt, State (f (ring st)) (net st)).

(** [try: body except AttributeError: handler]. *)
Definition except_AttributeError {A} (body handler : M A) : M A := λ st,
  match body st with
  | (Raise AttributeError, st') => handler st'
  | r => r
  end.

Section Network.
Context (server : transport).

(** Hand a request to [requests]: it is logged, then answered or not. *)
Definition send (rq : request) : M response := λ st,
  let st' := State (ring st) (net st ++ [Event rq (token (ring st))]) in
  match server (sent <$> net st) rq with
  | Answer r => (Return r, st')
  | Broken => (Raise ConnectionError, st')
  end.
End Network.

(** ** class Ring: login and the query engine *)

Module Ring.
Section Ring.
Context `{Const} (server : transport).

(** The attributes [__init__] sets before it logs in. *)
Definition fresh (username password : string) (debug : bool) : RingState :=
  mkRing VNone None VNone VNone None debug username password.

(** [self.session.post(url, data=POST_DATA, headers=HEADERS)]. *)
Definition post_login : M response :=
  r ← get_ring;
  send server (Login (API_URI +:+ NEW_SESSION_ENDPOINT) (username r, password r)).

(** The [while loop <= attempts] loop of [_authenticate], by the number
    of passes left ([attempts + 1 - loop]); [req] is the last response
    bound, if any.  Leaving the loop marks the session disconnected and
    calls [req.raise_for_status()]. *)
Fixpoint authenticate_loop (left : nat) (req : option response) : M value :=
  match left with
  | O =>
      modify_ring (set_is_connected (Some false));;
      match req with
      | None => raise UnboundLocalError
      | Some r => lift (raise_for_status r);; mret VNone
      end
  | S left' =>
      req ← post_login;
      if status_code req =? 201 then
        body ← lift (response_json req);
        data ← lift (py_get body "profile");
        v ← lift (py_get data "features");
        modify_ring (set_features v);;
        v ← lift (py_get data "id");
        modify_ring (set_id v);;
        modify_ring (set_is_connected (Some true));;
        v ← lift (py_get data "authentication_token");
        modify_ring (set_token v);;
        r ← get_ring;
        modify_ring (set_params
          (Some {[ "api_version" := API_VERSION; "auth_token" := token r ]}));;
        mret (VBool true)
      else authenticate_loop left' (Some req)
  end.

Definition _authenticate (attempts : nat) : M value :=
  authenticate_loop (S attempts) None.

Definition __init__ (username password : string) (debug : bool) : M unit :=
  modify_ring (λ _, fresh username password debug);;
  _authenticate RETRY_TOKEN;;
  mret tt.

(** What [query] returns: a Python value ([None] included) or, for
    [raw=True], the response object. *)
Inductive result : Type :=
| Val (v : value)
| Raw (r : response).

(** [extra_params] in a condition: [None] and the empty dict are false. *)
Definition given (extra_params : option (gmap string value)) : bool :=
  match extra_params with
  | Some e => negb (bool_decide (e = ∅))
  | None => false
  end.

(** [params = self.params; params.update(extra_params)]: the session's own
    dict is changed. *)
Definition merge_params (extra_params : option (gmap string value))
  : M (option (gmap string value)) :=
  r ← get_ring;
  match params r with
  | None => raise AttributeError
  | Some p =>
      modify_ring (set_params (Some (default ∅ extra_params ∪ p)));;
      r ← get_ring;
      mret (params r)
  end.

(** [self.session.get/put/post(url, params=urlencode(params))]. *)
Definition call (method url : string) (params : option (gmap string value))
  : M (option response) :=
  q ← lift (urlencode params);
  r ← get_ring;
  req ← send server (Call method url (username r, password r) q);
  mret (Some req).

(** The request of one pass; a method other than GET, PUT and POST sends
    nothing and leaves [req] as it was. *)
Definition dispatch (method url : string) (params : option (gmap string value))
    (req : option response) : M (option response) :=
  if bool_decide (method = "GET") then call method url params
  else if bool_decide (method = "PUT") then call method url params
  else if bool_decide (method = "POST") then call method url params
  else mret req.

(** The [while loop <= attempts] loop of [query], by the number of passes
    left. *)
Fixpoint query_loop (left : nat) (req : option response)
    (url method : string) (raw : bool)
    (extra_params : option (gmap string value)) : M result :=
  match left with
  | O => mret (Val VNone)
  | S left' =>
      params ← (if given extra_params then merge_params extra_params
                else r ← get_ring; mret (params r));
      req ← dispatch method url params req;
      match req with
      | None => raise UnboundLocalError
      | Some r =>
          if status_code r =? 401 then
            modify_ring (set_is_connected (Some false));;
            _authenticate RETRY_TOKEN;;
            query_loop left' req url method raw extra_params
          else if (status_code r =? 200) || (status_code r =? 204) then
            if raw then mret (Raw r)
            else if bool_decide (method = "GET") then
              v ← lift (response_json r); mret (Val v)
            else mret (Val VNone)
          else query_loop left' req url method raw extra_params
      end
  end.

Definition query (url : string) (attempts : nat) (method : string)
    (raw : bool) (extra_params : option (gmap string value)) : M result :=
  r ← get_ring;
  (if debug r && negb (default false (is_connected r))
   then _authenticate RETRY_TOKEN;; mret tt
   else mret tt);;
  query_loop (S attempts) None url method raw extra_params.

(** [query(url)] with every default. *)
Definition query_default (url : string) : M result :=
  query url RETRY_TOKEN "GET" false None.

Definition has_subscription : M value :=
  r ← get_ring;
  except_AttributeError
    (lift (py_get (features r) "subscriptions_enabled"))
    (mret (VInt NOT_FOUND)).
End Ring.
End Ring.

(** ** ring_doorbell.utils *)

Section Utils.
Context `{Const}.

(** The scan behind [_locator], from position [index] on. *)
Fixpoint locate (items : list value) (key : string) (v : value)
    (index : Z) : outcome Z :=
  match items with
  | [] => Return NOT_FOUND
  | d :: items' =>
      x ← py_getitem d key;
      if py_eq x v then Return index else locate items' key v (index + 1)
  end.

(** Modelled from the spec: [ring_doorbell.utils._locator], which the
    module imports and whose source is not at hand.  It "locates the
    entry whose [description] equals this handle's name within the
    family's sub-list (first match; linear scan)": the position of the
    first item [d] with [d[key] == value], and [NOT_FOUND] when the scan
    ends without one.  Scanning what is not iterable, or an item without
    the key, fails as Python does. *)
Definition _locator (lst : value) (key : string) (v : value) : outcome Z :=
  items ← py_iter lst;
  locate items key v 0.
End Utils.

(** ** class RingGeneric *)

Module RingGeneric.
(** The attributes of a device handle; [_ring] is the session of the
    state. *)
Record Handle : Type := mkHandle {
  _attrs : value;
  debug : bool;
  family : string;
  name : value
}.

Definition set_attrs (v : value) (h : Handle) : Handle :=
  mkHandle v (debug h) (family h) (name h).

Section RingGeneric.
Context `{Const} (server : transport).

(** [result.get(key)]: a response object has no such method. *)
Definition result_get (r : Ring.result) (key : string) : outcome value :=
  match r with
  | Ring.Val v => py_get v key
  | Ring.Raw _ => Raise AttributeError
  end.

(** [_get_attrs]: the [try] block yields the list and the position, or
    nothing when it returns [None] itself or [AttributeError] is caught;
    the assignment after the block is not guarded. *)
Definition _get_attrs (self : Handle) : M (Handle * value) :=
  let url := API_URI +:+ DEVICES_ENDPOINT in
  found ← except_AttributeError
    (r ← Ring.query_default server url;
     lst ← lift (result_get r (family self));
     index ← lift (_locator lst "description" (name self));
     if index =? NOT_FOUND then mret None else mret (Some (lst, index)))
    (mret None);
  match found with
  | None => mret (self, VNone)
  | Some (lst, index) =>
      v ← lift (py_index lst index);
      mret (set_attrs v self, VBool true)
  end.

Definition update (self : Handle) : M Handle :=
  '(self, _) ← _get_attrs self;
  mret self.

Definition account_id (self : Handle) : outcome value :=
  py_get (_attrs self) "id".
Definition address (self : Handle) : outcome value :=
  py_get (_attrs self) "address".
Definition firmware (self : Handle) : outcome value :=
  py_get (_attrs self) "firmware_version".
Definition id (self : Handle) : outcome value :=
  py_get (_attrs self) "device_id".
Definition latitude (self : Handle) : outcome value :=
  py_get (_attrs self) "latitude".
Definition longitude (self : Handle) : outcome value :=
  py_get (_attrs self) "longitude".
Definition kind (self : Handle) : outcome value :=
  py_get (_attrs self) "kind".
Definition timezone (self : Handle) : outcome value :=
  py_get (_attrs self) "time_zone".
End RingGeneric.
End RingGeneric.

(** ** class RingChime *)

Module RingChime.
Section RingChime.
Context `{Const} `{Lib} (server : transport).

Definition __init__ (name : value) : M RingGeneric.Handle :=
  ring ← get_ring;
  RingGeneric.update server (RingGeneric.mkHandle VNone (debug ring) "chimes" name).

(** The [volume] setter. *)
Definition volume_setter (self : RingGeneric.Handle) (v : value) : M (RingGeneric.Handle * value) :=
  if negb (isinstance_int v
           && ((CHIME_VOL_MIN <=? int_of v) && (int_of v <=? CHIME_VOL_MAX)))
  then mret (self, VBool false)
  else
    let params : gmap string value :=
      {[ "chime[description]" := RingGeneric.name self;
         "chime[settings][volume]" := VStr (py_str v) ]} in
    aid ← lift (RingGeneric.account_id self);
    let url := API_URI +:+ format CHIMES_ENDPOINT aid in
    Ring.query server url RETRY_TOKEN "PUT" false (Some params);;
    self ← RingGeneric.update server self;
    mret (self, VBool true).
End RingChime.
Section RingChimeMore.
Context `{Const} `{Lib} `{MoreConst} (server : transport).

(** The [volume] getter. *)
Definition volume (self : RingGeneric.Handle) : outcome value :=
  settings ← py_get (RingGeneric._attrs self) "settings";
  py_get settings "volume".

Definition subscribed (self : RingGeneric.Handle) : outcome value :=
  result ← py_get (RingGeneric._attrs self) "firmware_version";
  if is_none result then Return (VBool false) else Return (VBool true).

Definition subscribed_motions (self : RingGeneric.Handle) : outcome value :=
  result ← py_get (RingGeneric._attrs self) "subscribed_motions";
  if is_none result then Return (VBool false) else Return (VBool true).

Definition linked_tree (self : RingGeneric.Handle) : M Ring.result :=
  aid ← lift (RingGeneric.account_id self);
  let url := API_URI +:+ format LINKED_CHIMES_ENDPOINT aid in
  Ring.query_default server url.
End RingChimeMore.
End RingChime.

(** ** class RingDoorBell *)

Module RingDoorBell.
Section RingDoorBell.
Context `{Const} `{Lib} (server : transport).

Definition __init__ (name : value) : M RingGeneric.Handle :=
  ring ← get_ring;
  RingGeneric.update server (RingGeneric.mkHandle VNone (debug ring) "doorbots" name).

(** One pass of the loop of [history]: [created_at] is parsed and replaced,
    in the entry itself, by the datetime in UTC or, when a zone name [tz]
    is given, by [utc_dt.astimezone(mytz)], which can overflow. *)
Definition convert (tz : string) (entry : value) : outcome value :=
  created_at ← py_getitem entry "created_at";
  match created_at, entry with
  | VStr stamp, VDict d =>
      if strptime_ok stamp then
        if bool_decide (tz = "")
        then Return (VDict (assoc_set "created_at" (VDateTime stamp "UTC") d))
        else if astimezone_ok stamp tz
        then Return (VDict (assoc_set "created_at" (VDateTime stamp tz) d))
        else Raise OverflowError
      else Raise ValueError
  | _, _ => Raise TypeError
  end.

(** [history(limit, timezone)]; [limit] is an integer, [timezone] a zone
    name or [None]. *)
Definition history (self : RingGeneric.Handle) (limit : Z) (timezone : option string)
  : M Ring.result :=
  let params : gmap string value := {[ "limit" := VStr (pretty limit) ]} in
  aid ← lift (RingGeneric.account_id self);
  let url := API_URI +:+ format URL_DOORBELL_HISTORY aid in
  response ← Ring.query server url RETRY_TOKEN "GET" false (Some params);
  let tz := default "" timezone in
  (if bool_decide (tz = "") then mret tt
   else if timezone_ok tz then mret tt else raise UnknownTimeZoneError);;
  match response with
  | Ring.Val v =>
      entries ← lift (py_iter v);
      entries ← lift (mapM (convert tz) entries);
      mret (Ring.Val (match v with VList _ => VList entries | _ => v end))
  | Ring.Raw _ =>
      (* a response object comes back for [raw=True] only *)
      raise TypeError
  end.

(** The [volume] setter. *)
Definition volume_setter (self : RingGeneric.Handle) (v : value) : M (RingGeneric.Handle * value) :=
  if negb (isinstance_int v
           && ((DOORBELL_VOL_MIN <=? int_of v)
               && (int_of v <=? DOORBELL_VOL_MAX)))
  then mret (self, VBool false)
  else
    let params : gmap string value :=
      {[ "doorbot[description]" := RingGeneric.name self;
         "doorbot[settings][doorbell_volume]" := VStr (py_str v) ]} in
    aid ← lift (RingGeneric.account_id self);
    let url := API_URI +:+ format DOORBELLS_ENDPOINT aid in
    Ring.query server url RETRY_TOKEN "PUT" false (Some params);;
    self ← RingGeneric.update server self;
    mret (self, VBool true).
End RingDoorBell.
Section RingDoorBellMore.
Context `{Const} `{Lib} `{MoreConst} `{Builtins} (server : transport).

Definition battery_life (self : RingGeneric.Handle) : outcome value :=
  raw ← py_get (RingGeneric._attrs self) "battery_life";
  v ← py_int raw;
  Return (VInt (if 100 <? v then 100 else v)).

Definition check_activity : M Ring.result :=
  let url := API_URI +:+ DINGS_ENDPOINT in
  Ring.query_default server url.

(** [self._attrs.get('settings').get('chime_settings').get(key)]. *)
Definition chime_setting (self : RingGeneric.Handle) (key : string)
  : outcome value :=
  settings ← py_get (RingGeneric._attrs self) "settings";
  chime_settings ← py_get settings "chime_settings";
  py_get chime_settings key.

(** The [existing_doorbell_type] getter. *)
Definition existing_doorbell_type (self : RingGeneric.Handle) : outcome value :=
  t ← chime_setting self "type";
  py_int_dict_get DOORBELL_EXISTING_TYPE t.

(** The [existing_doorbell_type] setter. *)
Definition existing_doorbell_type_setter (self : RingGeneric.Handle) (v : value)
  : M (RingGeneric.Handle * value) :=
  known ← lift (py_in_keys v DOORBELL_EXISTING_TYPE);
  if negb known then mret (self, VBool false)
  else
    let params : gmap string value :=
      {[ "doorbot[description]" := RingGeneric.name self;
         "doorbot[settings][chime_settings][type]" := v ]} in
    aid ← lift (RingGeneric.account_id self);
    let url := API_URI +:+ format DOORBELLS_ENDPOINT aid in
    Ring.query server url RETRY_TOKEN "PUT" false (Some params);;
    self ← RingGeneric.update server self;
    mret (self, VBool true).

(** The [existing_doorbell_type_enabled] getter. *)
Definition existing_doorbell_type_enabled (self : RingGeneric.Handle)
  : outcome value :=
  t ← chime_setting self "type";
  if py_eq t (VInt 2) then Return (VBool false)
  else chime_setting self "enable".

(** The [existing_doorbell_type_enabled] setter. *)
Definition existing_doorbell_type_enabled_setter (self : RingGeneric.Handle)
    (v : value) : M (RingGeneric.Handle * value) :=
  t ← lift (chime_setting self "type");
  if py_eq t (VInt 2) then mret (self, VBool false)
  else if negb (isinstance_bool v) then mret (self, VBool false)
  else
    let params : gmap string value :=
      {[ "doorbot[description]" := RingGeneric.name self;
         "doorbot[settings][chime_settings][enable]" := v ]} in
    aid ← lift (RingGeneric.account_id self);
    let url := API_URI +:+ format DOORBELLS_ENDPOINT aid in
    Ring.query server url RETRY_TOKEN "PUT" false (Some params);;
    self ← RingGeneric.update server self;
    mret (self, VBool true).

(** The [existing_doorbell_type_duration] getter. *)
Definition existing_doorbell_type_duration (self : RingGeneric.Handle)
  : outcome value :=
  t ← chime_setting self "type";
  if py_eq t (VInt 1) then chime_setting self "duration"
  else Return VNone.

(** The [existing_doorbell_type_duration] setter; the bounds are those of
    the doorbell volume. *)
Definition existing_doorbell_type_duration_setter (self : RingGeneric.Handle)
    (v : value) : M (RingGeneric.Handle * value) :=
  if negb (isinstance_int v
           && ((DOORBELL_VOL_MIN <=? int_of v)
               && (int_of v <=? DOORBELL_VOL_MAX)))
  then mret (self, VBool false)
  else
    t ← lift (chime_setting self "type");
    if negb (py_eq t (VInt 1)) then mret (self, VNone)
    else
      let params : gmap string value :=
        {[ "doorbot[description]" := RingGeneric.name self;
           "doorbot[settings][chime_settings][duration]" := v ]} in
      aid ← lift (RingGeneric.account_id self);
      let url := API_URI +:+ format DOORBELLS_ENDPOINT aid in
      Ring.query server url RETRY_TOKEN "PUT" false (Some params);;
      self ← RingGeneric.update server self;
      mret (self, VBool true).

(** [result[index]]: a response object cannot be subscripted. *)
Definition result_index (r : Ring.result) (index : Z) : outcome value :=
  match r with
  | Ring.Val v => py_index v index
  | Ring.Raw _ => Raise TypeError
  end.

(** [self.history(limit=1)[0]['id']]. *)
Definition last_recording_id (self : RingGeneric.Handle) : M value :=
  response ← history server self 1 None;
  entry ← lift (result_index response 0);
  lift (py_getitem entry "id").

(** [req.status_code]: only a response object has the attribute. *)
Definition result_status (r : Ring.result) : outcome Z :=
  match r with
  | Ring.Raw req => Return (status_code req)
  | Ring.Val _ => Raise AttributeError
  end.

Definition live_streaming_json (self : RingGeneric.Handle) : M value :=
  aid ← lift (RingGeneric.account_id self);
  let url := API_URI +:+ format LIVE_STREAMING_ENDPOINT aid in
  req ← Ring.query server url RETRY_TOKEN "POST" true None;
  status ← lift (result_status req);
  if status =? 204 then
    let url := API_URI +:+ DINGS_ENDPOINT in
    dings ← Ring.query_default server url;
    lift (result_index dings 0)
  else mret VNone.
End RingDoorBellMore.
End RingDoorBell.

(** ** class Ring: the device directory *)

Module RingDevices.
Section RingDevices.
Context `{Const} `{Lib} (server : transport).

(** [list((obj['description'] for obj in req))]. *)
Definition descriptions (req : value) : outcome (list value) :=
  items ← py_iter req;
  mapM (λ obj, py_getitem obj "description") items.

(** [for member in ...: lst.append(new(self, member))] under the
    [except AttributeError: pass] of [__devices]: a caught exception ends
    the loop with what [lst] holds by then. *)
Fixpoint construct (new : value → M RingGeneric.Handle) (members : list value)
    (lst : list RingGeneric.Handle) : M (list RingGeneric.Handle) :=
  match members with
  | [] => mret lst
  | member :: members' =>
      made ← except_AttributeError
               (h ← new member; mret (Some h)) (mret None);
      match made with
      | Some h => construct new members' (lst ++ [h])
      | None => mret lst
      end
  end.

(** One [if device_type == ...] block of [__devices], with the same
    [except AttributeError: pass] around the query and the scan. *)
Definition listing (key : string) (new : value → M RingGeneric.Handle)
    (lst : list RingGeneric.Handle) : M (list RingGeneric.Handle) :=
  let url := API_URI +:+ DEVICES_ENDPOINT in
  members ← except_AttributeError
    (r ← Ring.query_default server url;
     req ← lift (RingGeneric.result_get r key);
     members ← lift (descriptions req);
     mret (Some members))
    (mret None);
  match members with
  | Some members => construct new members lst
  | None => mret lst
  end.

(** [__devices]: the two blocks test [device_type] against different
    strings, so at most one of them runs. *)
Definition __devices (device_type : string) : M (list RingGeneric.Handle) :=
  lst ← (if bool_decide (device_type = "chime")
         then listing "chimes" (RingChime.__init__ server) []
         else mret []);
  if bool_decide (device_type = "doorbell")
  then listing "doorbots" (RingDoorBell.__init__ server) lst
  else mret lst.

Definition chimes : M (list RingGeneric.Handle) := __devices "chime".
Definition doorbells : M (list RingGeneric.Handle) := __devices "doorbell".

(** [devices]: the dict with the keys ['chimes'] and ['doorbells']. *)
Definition devices : M (list RingGeneric.Handle * list RingGeneric.Handle) :=
  c ← chimes;
  d ← doorbells;
  mret (c, d).
End RingDevices.
End RingDevices.

(** * Vocabulary of the statements

    The definitions the properties below are stated with: the requests and
    events of a session, the parameter merge of a pass, the invariant, and
    the kinds of server the statements quantify over. *)

Section Vocabulary.
Context `{Const} `{Lib} (server : transport).

(** The login request of a session. *)
Definition login_request (r : RingState) : request :=
  Login (API_URI +:+ NEW_SESSION_ENDPOINT) (username r, password r).

(** The state once a request has left. *)
Definition after_send (rq : request) (st : state) : state :=
  State (ring st) (net st ++ [Event rq (token (ring st))]).

(** The profile dict of a login answer, as [req.json().get('profile')]
    followed by a [.get] on it requires. *)
Definition profile_of (req : response) : outcome (list (string * value)) :=
  match json req with
  | None => Raise ValueError
  | Some (VDict d) =>
      match assoc "profile" d with
      | Some (VDict p) => Return p
      | _ => Raise AttributeError
      end
  | Some _ => Raise AttributeError
  end.

(** The session after the assignments of the 201 branch. *)
Definition logged_in (p : list (string * value)) (r : RingState) : RingState :=
  let tk := default VNone (assoc "authentication_token" p) in
  mkRing (default VNone (assoc "features" p)) (Some true)
         (default VNone (assoc "id" p)) tk
         (Some {[ "api_version" := API_VERSION; "auth_token" := tk ]})
         (debug r) (username r) (password r).

(** The methods for which a pass sends a request. *)
Definition sends (method : string) : bool :=
  bool_decide (method = "GET") || bool_decide (method = "PUT")
  || bool_decide (method = "POST").

(** The parameter set of a pass, from the session's [p]. *)
Definition merged (extra_params : option (gmap string value))
    (p : gmap string value) : gmap string value :=
  if Ring.given extra_params then default ∅ extra_params ∪ p else p.

Definition with_params (q : gmap string value) (st : state) : state :=
  State (set_params (Some q) (ring st)) (net st).

Definition call_request (method url : string) (q : gmap string value)
    (r : RingState) : request :=
  Call method url (username r, password r) q.

Definition disconnected (st : state) : state :=
  State (set_is_connected (Some false) (ring st)) (net st).

(** What a pass does with the response [r] it got. *)
Definition follow (left : nat) (r : response) (url method : string)
    (raw : bool) (extra_params : option (gmap string value)) : M Ring.result :=
  λ st,
  if status_code r =? 401 then
    match Ring._authenticate server RETRY_TOKEN (disconnected st) with
    | (Return _, st') =>
        Ring.query_loop server left (Some r) url method raw extra_params st'
    | (Raise e, st') => (Raise e, st')
    end
  else if (status_code r =? 200) || (status_code r =? 204) then
    if raw then (Return (Ring.Raw r), st)
    else if bool_decide (method = "GET") then
      match json r with
      | Some v => (Return (Ring.Val v), st)
      | None => (Raise ValueError, st)
      end
    else (Return (Ring.Val VNone), st)
  else Ring.query_loop server left (Some r) url method raw extra_params st.

(** The parameter set a successful login builds. *)
Definition fresh_params (tk : value) : gmap string value :=
  {[ "api_version" := API_VERSION; "auth_token" := tk ]}.

(** A parameter set, when there is one, names the stored token. *)
Definition in_sync (r : RingState) : Prop :=
  ∀ p, params r = Some p → p !! "auth_token" = Some (token r).

(** A call left with the token that was stored at that moment. *)
Definition carries_token (e : event) : Prop :=
  match sent e with
  | Login _ _ => True
  | Call _ _ _ q => q !! "auth_token" = Some (held e)
  end.

Definition consistent (st : state) : Prop :=
  in_sync (ring st) ∧ Forall carries_token (net st).

(** An operation keeps the invariant, however it ends. *)
Definition keeps {A} (m : M A) : Prop :=
  ∀ st, consistent st → consistent (m st).2.

(** The extra parameters do not name the token. *)
Definition spares_token (extra_params : option (gmap string value)) : Prop :=
  default ∅ extra_params !! "auth_token" = None.

Definition error_status (code : Z) : Prop := 400 ≤ code < 600.

(** The event a login of the session leaves in the log. *)
Definition login_event (r : RingState) : event :=
  Event (login_request r) (token r).

(** Every login is answered, never with 201 and never with an error
    status. *)
Definition shrugs : Prop :=
  ∀ h rq, is_login rq = true →
    ∃ r, server h rq = Answer r
         ∧ status_code r ≠ 201 ∧ ¬ error_status (status_code r).

(** Every login is answered: with 201 and a profile that holds a token,
    or with an error status. *)
Definition decides : Prop :=
  ∀ h rq, is_login rq = true →
    ∃ r, server h rq = Answer r
         ∧ ((status_code r = 201
             ∧ (∃ p tk, profile_of r = Return p
                        ∧ assoc "authentication_token" p = Some tk
                        ∧ tk ≠ VNone))
            ∨ error_status (status_code r)).

(** The event a call of the session leaves in the log. *)
Definition call_event (method url : string) (q : gmap string value)
    (r : RingState) : event :=
  Event (call_request method url q r) (token r).

(** Every request is answered, never with 200, 204 or 401. *)
Definition stonewalls : Prop :=
  ∀ h rq, ∃ r, server h rq = Answer r
               ∧ status_code r ≠ 200 ∧ status_code r ≠ 204
               ∧ status_code r ≠ 401.

(** No login before the first pass: the session is not at once in debug
    mode and not marked connected. *)
Definition settled (r : RingState) : Prop :=
  debug r = true → is_connected r = Some true.

(** The log of [st'] extends the log of [st]. *)
Definition grows (st st' : state) : Prop := ∃ evs, net st' = net st ++ evs.

(** No login among the events. *)
Definition no_login (evs : list event) : Prop :=
  Forall (λ e, is_login (sent e) = false) evs.

(** The event is a call with the parameters [q]. *)
Definition carries (q : gmap string value) (e : event) : Prop :=
  ∃ method url auth, sent e = Call method url auth q.

Definition devices_url : string := API_URI +:+ DEVICES_ENDPOINT.

(** No item of the list has the description [v]. *)
Definition absent (v : value) (items : list value) : Prop :=
  Forall (λ d, ∃ x, py_getitem d "description" = Return x ∧ py_eq x v = false)
         items.
End Vocabulary.

(** ** Further vocabulary *)

Section MoreVocabulary.
Context `{Const} `{Lib} (server : transport).

(** From the log [h] on, the first [k] requests [rq] sent in a row are
    answered, none of them with 201. *)
Definition put_off (h : list request) (rq : request) (k : nat) : Prop :=
  ∀ i, (i < k)%nat →
    ∃ r, server (h ++ replicate i rq) rq = Answer r ∧ status_code r ≠ 201.

(** Every login is answered with an error status. *)
Definition refuses : Prop :=
  ∀ h rq, is_login rq = true →
    ∃ r, server h rq = Answer r ∧ error_status (status_code r).

(** Every call is answered with [r], whatever was sent before. *)
Definition steady (r : response) : Prop :=
  ∀ h rq, is_login rq = false → server h rq = Answer r.

(** From the log [h] on, the first [k] calls [rq] sent in a row are
    answered, none of them with 200, 204 or 401. *)
Definition stalled (h : list request) (rq : request) (k : nat) : Prop :=
  ∀ i, (i < k)%nat →
    ∃ r, server (h ++ replicate i rq) rq = Answer r
         ∧ status_code r ≠ 200 ∧ status_code r ≠ 204 ∧ status_code r ≠ 401.

(** [r] is what the server answered to the last request in the log of
    [st], and that request is a call with [method] to [url]. *)
Definition last_answer (st : state) (method url : string) (r : response)
  : Prop :=
  ∃ pre auth q tk,
    net st = pre ++ [Event (Call method url auth q) tk]
    ∧ server (sent <$> pre) (Call method url auth q) = Answer r.

(** The events that are calls. *)
Definition calls (evs : list event) : list event :=
  filter (λ e, is_login (sent e) = false) evs.

(** The events that are logins. *)
Definition logins (evs : list event) : list event :=
  filter (λ e, is_login (sent e) = true) evs.

(** What a successful pass of [query] returns for the answer [r]. *)
Definition delivered (method : string) (raw : bool) (r : response)
  : outcome Ring.result :=
  if raw then Return (Ring.Raw r)
  else if bool_decide (method = "GET") then
    match json r with
    | Some v => Return (Ring.Val v)
    | None => Raise ValueError
    end
  else Return (Ring.Val VNone).

(** The handle a refresh yields when the device list is [v]: the first
    entry of the family's list whose description is the handle's name
    becomes the descriptor; without one, or when [v] is no dict, the handle
    stays as it is. *)
Definition refreshed (v : value) (self : RingGeneric.Handle)
  : outcome RingGeneric.Handle :=
  match py_get v (RingGeneric.family self) with
  | Return lst =>
      match _locator lst "description" (RingGeneric.name self) with
      | Return index =>
          if index =? NOT_FOUND then Return self
          else match py_index lst index with
               | Return d => Return (RingGeneric.set_attrs d self)
               | Raise e => Raise e
               end
      | Raise AttributeError => Return self
      | Raise e => Raise e
      end
  | Raise AttributeError => Return self
  | Raise e => Raise e
  end.
(** The entry has the description [name]. *)
Definition matching (name : value) (d : value) : bool :=
  match py_getitem d "description" with
  | Return x => py_eq x name
  | Raise _ => false
  end.

(** The entry is a dict with a description. *)
Definition described (d : value) : Prop :=
  ∃ x, py_getitem d "description" = Return x.



(** What a setter leaves behind under a server that answers no call with
    200, 204 or 401: every pass of the write and of the refresh is spent,
    the handle is as before, the result [True] all the same. *)
Definition unwritten (self : RingGeneric.Handle)
    (em p : gmap string value) (url : string) (st : state)
  : outcome (RingGeneric.Handle * value) * state :=
  (Return (self, VBool true),
   State (set_params (Some (em ∪ p)) (ring st))
         (net st
          ++ replicate (S RETRY_TOKEN) (call_event "PUT" url (em ∪ p) (ring st))
          ++ replicate (S RETRY_TOKEN)
               (call_event "GET" devices_url (em ∪ p) (ring st)))).

(** The entry is a dict whose [created_at] is a string in the format of
    [history]. *)
Definition timestamped (entry : value) : Prop :=
  ∃ d stamp, entry = VDict d ∧ assoc "created_at" d = Some (VStr stamp)
             ∧ strptime_ok stamp = true.

(** The entry is a dict whose [created_at] is a string in the format of
    [history] that can be moved to the zone [tz], when one is given. *)
Definition convertible (tz : string) (entry : value) : Prop :=
  ∃ d stamp, entry = VDict d ∧ assoc "created_at" d = Some (VStr stamp)
             ∧ strptime_ok stamp = true
             ∧ (tz ≠ "" → astimezone_ok stamp tz = true).

(** The entry with its [created_at] replaced by the datetime in [zone]. *)
Definition stamped (zone : string) (entry : value) : value :=
  match entry with
  | VDict d =>
      match assoc "created_at" d with
      | Some (VStr stamp) =>
          VDict (assoc_set "created_at" (VDateTime stamp zone) d)
      | _ => entry
      end
  | _ => entry
  end.

(** The zone [history] converts to: UTC unless a zone name is given. *)
Definition zone_of (timezone : option string) : string :=
  match timezone with
  | Some tz => if bool_decide (tz = "") then "UTC" else tz
  | None => "UTC"
  end.
End MoreVocabulary.

(** ** Sample constants, servers and sessions *)

(** Values in the shape of [ring_doorbell.const], for the closed examples. *)
Definition sample_const : Const := {|
  API_VERSION := VStr "9";
  API_URI := "https://api.ring.com";
  NEW_SESSION_ENDPOINT := "/clients_api/session";
  DEVICES_ENDPOINT := "/clients_api/ring_devices";
  CHIMES_ENDPOINT := "/clients_api/chimes/";
  DOORBELLS_ENDPOINT := "/clients_api/doorbots/";
  URL_DOORBELL_HISTORY := "/clients_api/doorbots/history/";
  CHIME_VOL_MIN := 0;
  CHIME_VOL_MAX := 10;
  DOORBELL_VOL_MIN := 0;
  DOORBELL_VOL_MAX := 11;
  NOT_FOUND := -1;
  RETRY_TOKEN := 3
|}.

Definition sample_lib : Lib := {|
  format := λ template v, template +:+ py_str v;
  strptime_ok := λ s, bool_decide (String.length s = 24%nat);
  timezone_ok := λ z, bool_decide (z = "America/New_York");
  astimezone_ok := λ s z,
    negb (bool_decide (s = "0001-01-01T00:00:00.000Z")
          && bool_decide (z = "America/New_York"))
|}.

Section Samples.
#[local] Existing Instance sample_const.
#[local] Existing Instance sample_lib.

(** A server that answers everything with one status and no body. *)
Definition always (code : Z) : transport := λ _ _, Answer (Response code None).

(** A server that cannot be reached. *)
Definition unplugged : transport := λ _ _, Broken.

(** A login answer with the given profile. *)
Definition created (profile : list (string * value)) : response :=
  Response 201 (Some (VDict [("profile", VDict profile)])).

Definition sample_profile : list (string * value) :=
  [("id", VInt 7); ("features", VDict [("subscriptions_enabled", VBool true)]);
   ("authentication_token", VStr "t0k3n")].

(** The device list of the account: one chime, one doorbell. *)
Definition sample_devices : value :=
  VDict [("chimes", VList [VDict [("description", VStr "Hall"); ("id", VInt 11)]]);
         ("doorbots", VList [VDict [("description", VStr "Front"); ("id", VInt 12)]])].

(** A server that works: logins get a token, calls get the device list. *)
Definition welcoming : transport := λ _ rq,
  match rq with
  | Login _ _ => Answer (created sample_profile)
  | Call _ _ _ _ => Answer (Response 200 (Some sample_devices))
  end.

(** A server whose 201 carries a profile without a token. *)
Definition tokenless : transport := λ _ _, Answer (created [("id", VInt 7)]).

(** A server that lets the first login in, answers the calls with 401 and
    refuses the later logins. *)
Definition expiring : transport := λ h rq,
  match rq with
  | Login _ _ =>
      if bool_decide (h = []) then Answer (created sample_profile)
      else Answer (Response 500 None)
  | Call _ _ _ _ => Answer (Response 401 None)
  end.

(** A server whose token expires once: the first call gets 401, the
    later ones the device list. *)
Definition renewing : transport := λ h rq,
  match rq with
  | Login _ _ => Answer (created sample_profile)
  | Call _ _ _ _ =>
      if bool_decide (filter (λ r, is_login r = false) h = [])
      then Answer (Response 401 None)
      else Answer (Response 200 (Some sample_devices))
  end.

(** A server whose device list has doorbells only. *)
Definition chimeless : transport := λ _ rq,
  match rq with
  | Login _ _ => Answer (created sample_profile)
  | Call _ _ _ _ =>
      Answer (Response 200 (Some (VDict [("doorbots", VList [])])))
  end.

(** Before anything: no session yet, nothing sent. *)
Definition offline : state := State (Ring.fresh "" "" false) [].

(** A session right after a successful construction. *)
Definition connected : state :=
  (Ring.__init__ welcoming "user" "secret" false offline).2.

(** A debug session whose token expired and whose new login was refused:
    the state after [Ring(..., debug=True)] and one [query] under
    [expiring]. *)
Definition stranded : state :=
  ((Ring.__init__ expiring "user" "secret" true;;
    Ring.query_default expiring "https://api.ring.com/clients_api/dings/active")
     offline).2.

(** A chime handle made for a name the account does not have. *)
Definition nameless : RingGeneric.Handle :=
  match (RingChime.__init__ welcoming (VStr "Kitchen") connected).1 with
  | Return h => h
  | Raise _ => RingGeneric.mkHandle VNone false "" VNone
  end.

(** The handle of the doorbell "Front". *)
Definition front : RingGeneric.Handle :=
  match (RingDoorBell.__init__ welcoming (VStr "Front") connected).1 with
  | Return h => h
  | Raise _ => RingGeneric.mkHandle VNone false "" VNone
  end.

(** A session built under a server that answers 202 to everything: the
    constructor has returned, the session has no parameter set. *)
Definition unready : state :=
  (Ring.__init__ (always 202) "user" "secret" false offline).2.

(** A debug session built under the same server: the constructor has
    returned, the session is marked disconnected. *)
Definition wary : state :=
  (Ring.__init__ (always 202) "user" "secret" true offline).2.

(** Extra parameters that name the token. *)
Definition forged : gmap string value := {[ "auth_token" := VStr "forged" ]}.

(** C1 as the specification words it: the constructor ends connected with
    a token, or raises after exactly [RETRY_TOKEN + 1] logins with the
    session marked disconnected. *)
Definition construction_claim (server : transport)
    (username password : string) (debug : bool) (st : state) : Prop :=
  let out := Ring.__init__ server username password debug st in
  (out.1 = Return tt ∧ is_connected (ring out.2) = Some true
   ∧ token (ring out.2) ≠ VNone)
  ∨ ((∃ e, out.1 = Raise e)
     ∧ length (net out.2) = (length (net st) + S RETRY_TOKEN)%nat
     ∧ is_connected (ring out.2) = Some false).

(** C2 as the specification words it: under a server that never answers
    200, 204 or 401, [query(url)] returns [None] after exactly
    [RETRY_TOKEN + 1] requests. *)
Definition exhaustion_claim (server : transport) (url : string) (st : state)
  : Prop :=
  stonewalls server →
  (Ring.query_default server url st).1 = Return (Ring.Val VNone)
  ∧ length (net (Ring.query_default server url st).2)
    = (length (net st) + S RETRY_TOKEN)%nat.

(** C3 as the specification words it: [query] returns a result after
    exactly one login, and the session is connected afterwards. *)
Definition retry_claim (server : transport) (url : string) (st : state)
  : Prop :=
  let out := Ring.query_default server url st in
  is_return out.1 = true
  ∧ length (logins (drop (length (net st)) (net out.2))) = 1%nat
  ∧ is_connected (ring out.2) = Some true.

(** C4 as the specification words it, for [query]: the operation keeps
    token and parameter set in sync. *)
Definition sync_claim (server : transport) (url : string)
    (extra_params : option (gmap string value)) (st : state) : Prop :=
  in_sync (ring st) →
  in_sync (ring (Ring.query server url RETRY_TOKEN "GET" false
                            extra_params st).2).

(** C5 as the specification words it, for one [query] with the extra
    parameters [em]: they end up in the session's parameter set. *)
Definition merge_claim (server : transport) (url : string)
    (em : gmap string value) (st : state) : Prop :=
  em ≠ ∅ →
  ∃ q, params (ring (Ring.query server url RETRY_TOKEN "GET" false (Some em)
                                st).2) = Some q
       ∧ ∀ k v, em !! k = Some v → q !! k = Some v.

(** C8 as the specification words it: the read accessors of a handle whose
    descriptor is unset report missing data, they do not raise. *)
Definition accessors_claim (self : RingGeneric.Handle) : Prop :=
  RingGeneric._attrs self = VNone →
  is_return (RingGeneric.account_id self) = true
  ∧ is_return (RingGeneric.address self) = true
  ∧ is_return (RingGeneric.firmware self) = true
  ∧ is_return (RingGeneric.id self) = true
  ∧ is_return (RingGeneric.latitude self) = true
  ∧ is_return (RingGeneric.longitude self) = true
  ∧ is_return (RingGeneric.kind self) = true
  ∧ is_return (RingGeneric.timezone self) = true.
End Samples.

(** ** Further samples *)

(** More values in the shape of [ring_doorbell.const]. *)
Definition sample_more : MoreConst := {|
  DINGS_ENDPOINT := "/clients_api/dings/active";
  LINKED_CHIMES_ENDPOINT := "/clients_api/chimes/linked/";
  LIVE_STREAMING_ENDPOINT := "/clients_api/doorbots/vod/";
  DOORBELL_EXISTING_TYPE :=
    [(0, VStr "Mechanical"); (1, VStr "Digital"); (2, VStr "Not Present")]
|}.

(** [int] on the few strings the examples use. *)
Definition sample_builtins : Builtins := {|
  int_of_str := λ s,
    if bool_decide (s = "150") then Some 150
    else if bool_decide (s = "42") then Some 42 else None
|}.

Section MoreSamples.
#[local] Existing Instance sample_const.
#[local] Existing Instance sample_lib.
#[local] Existing Instance sample_more.
#[local] Existing Instance sample_builtins.

(** A server that answers the first login with 503 and lets the later
    ones in. *)
Definition slow : transport := λ h rq,
  match rq with
  | Login _ _ =>
      if bool_decide (h = []) then Answer (Response 503 None)
      else Answer (created sample_profile)
  | Call _ _ _ _ => Answer (Response 200 (Some sample_devices))
  end.

(** A server that lets logins in and drops every call. *)
Definition cut_off : transport := λ _ rq,
  match rq with
  | Login _ _ => Answer (created sample_profile)
  | Call _ _ _ _ => Broken
  end.

(** A server that refuses the logins and answers the first call with 500
    and the later ones with 401. *)
Definition faltering : transport := λ h rq,
  match rq with
  | Login _ _ => Answer (Response 500 None)
  | Call _ _ _ _ =>
      if bool_decide (filter (λ r, is_login r = false) h = [])
      then Answer (Response 500 None)
      else Answer (Response 401 None)
  end.

(** A server that lets every login in and answers every call with 401. *)
Definition revolving : transport := λ _ rq,
  match rq with
  | Login _ _ => Answer (created sample_profile)
  | Call _ _ _ _ => Answer (Response 401 None)
  end.

(** A session that has not logged in yet. *)
Definition newcomer : state := State (Ring.fresh "user" "secret" false) [].

(** A doorbell handle before its first refresh. *)
Definition blank : RingGeneric.Handle :=
  RingGeneric.mkHandle VNone false "doorbots" (VStr "Front").

(** A doorbell handle whose descriptor has chime settings and a battery
    level. *)
Definition digital : RingGeneric.Handle :=
  RingGeneric.mkHandle
    (VDict [("description", VStr "Front"); ("id", VInt 12);
            ("battery_life", VStr "150");
            ("settings",
             VDict [("chime_settings",
                     VDict [("type", VInt 1); ("enable", VBool true);
                            ("duration", VInt 5)])])])
    false "doorbots" (VStr "Front").

Definition ring_event : value :=
  VDict [("id", VInt 901); ("kind", VStr "ding");
         ("created_at", VStr "2021-03-05T10:15:00.000Z")].

Definition motion_event : value :=
  VDict [("id", VInt 900); ("kind", VStr "motion");
         ("created_at", VStr "2021-03-05T09:01:30.000Z")].

Definition undated_event : value :=
  VDict [("id", VInt 899); ("created_at", VStr "yesterday")].

Definition primeval_event : value :=
  VDict [("id", VInt 1); ("created_at", VStr "0001-01-01T00:00:00.000Z")].

(** A doorbell handle whose chime type came as the float [2.0]. *)
Definition absent_chime : RingGeneric.Handle :=
  RingGeneric.mkHandle
    (VDict [("description", VStr "Front"); ("id", VInt 12);
            ("settings",
             VDict [("chime_settings",
                     VDict [("type", VFloat (2 # 1)); ("enable", VBool true);
                            ("duration", VInt 5)])])])
    false "doorbots" (VStr "Front").

(** A server whose calls return two history entries. *)
Definition chronicle : transport := λ _ rq,
  match rq with
  | Login _ _ => Answer (created sample_profile)
  | Call _ _ _ _ =>
      Answer (Response 200 (Some (VList [ring_event; motion_event])))
  end.

(** A server whose second history entry has no timestamp in the format. *)
Definition garbled : transport := λ _ rq,
  match rq with
  | Login _ _ => Answer (created sample_profile)
  | Call _ _ _ _ =>
      Answer (Response 200 (Some (VList [ring_event; undated_event])))
  end.

(** A server whose second history entry is at the first instant a
    datetime can hold. *)
Definition primeval : transport := λ _ rq,
  match rq with
  | Login _ _ => Answer (created sample_profile)
  | Call _ _ _ _ =>
      Answer (Response 200 (Some (VList [ring_event; primeval_event])))
  end.
End MoreSamples.

(** * Properties *)

(** ** The login handshake, one pass at a time *)

Section Login.
Context `{Const} (server : transport).

Lemma send_eq rq st :
  send server rq st =
  match server (sent <$> net st) rq with
  | Answer r => (Return r, after_send rq st)
  | Broken => (Raise ConnectionError, after_send rq st)
  end.
Proof. reflexivity. Qed.

Lemma authenticate_loop_O req st :
  Ring.authenticate_loop server 0 req st =
  let st' := State (set_is_connected (Some false) (ring st)) (net st) in
  match req with
  | None => (Raise UnboundLocalError, st')
  | Some r =>
      match raise_for_status r with
      | Return _ => (Return VNone, st')
      | Raise e => (Raise e, st')
      end
  end.
Proof.
  destruct req as [r|]; [|reflexivity].
  cbn. unfold lift. destruct (raise_for_status r); reflexivity.
Qed.

Lemma authenticate_loop_S left req st :
  Ring.authenticate_loop server (S left) req st =
  let st1 := after_send (login_request (ring st)) st in
  match server (sent <$> net st) (login_request (ring st)) with
  | Broken => (Raise ConnectionError, st1)
  | Answer r =>
      if status_code r =? 201 then
        match profile_of r with
        | Return p => (Return (VBool true), State (logged_in p (ring st)) (net st1))
        | Raise e => (Raise e, st1)
        end
      else Ring.authenticate_loop server left (Some r) st1
  end.
Proof.
  cbn [Ring.authenticate_loop]. unfold mbind at 1, M_bind at 1.
  unfold Ring.post_login. unfold mbind at 1, M_bind at 1. cbn [get_ring].
  rewrite send_eq. fold (login_request (ring st)).
  destruct (server _ _) as [r|]; [|reflexivity].
  destruct (status_code r =? 201); [|reflexivity].
  unfold profile_of, response_json.
  destruct (json r) as [[| | | | | |d|]|]; try reflexivity.
  unfold lift, mbind, M_bind. cbn [py_get].
  destruct (assoc "profile" d) as [[]|]; reflexivity.
Qed.
End Login.

(** ** The query loop, one pass at a time *)

Section Query.
Context `{Const} (server : transport).

Lemma set_params_same r p : params r = Some p → set_params (Some p) r = r.
Proof. destruct r; cbn; intros ->; reflexivity. Qed.

Lemma merged_idem extra_params p :
  merged extra_params (merged extra_params p) = merged extra_params p.
Proof.
  unfold merged. destruct (Ring.given extra_params); [|done].
  by rewrite (assoc_L (∪)), (idemp_L (∪)).
Qed.

Lemma dispatch_sends method url ps req :
  sends method = true →
  Ring.dispatch server method url ps req = Ring.call server method url ps.
Proof.
  unfold Ring.dispatch, sends. intros Hm.
  repeat case_bool_decide; done.
Qed.

Lemma dispatch_idle method url ps req :
  sends method = false →
  Ring.dispatch server method url ps req = mret req.
Proof.
  unfold Ring.dispatch, sends. intros Hm.
  repeat case_bool_decide; done.
Qed.

(** The passes of [query_loop] after the parameters are fixed and the
    request, if any, is answered. *)
Lemma follow_eq left r url method raw extra_params st :
  (match Some r with
   | None => raise UnboundLocalError
   | Some r =>
       if status_code r =? 401 then
         modify_ring (set_is_connected (Some false));;
         Ring._authenticate server RETRY_TOKEN;;
         Ring.query_loop server left (Some r) url method raw extra_params
       else if (status_code r =? 200) || (status_code r =? 204) then
         if raw then mret (Ring.Raw r)
         else if bool_decide (method = "GET") then
           v ← lift (response_json r); mret (Ring.Val v)
         else mret (Ring.Val VNone)
       else Ring.query_loop server left (Some r) url method raw extra_params
   end) st
  = follow server left r url method raw extra_params st.
Proof.
  unfold follow. destruct (status_code r =? 401).
  { unfold mbind at 1, M_bind at 1. cbn [modify_ring].
    unfold mbind at 1, M_bind at 1. unfold disconnected.
    destruct (Ring._authenticate _ _ _) as [[]]; reflexivity. }
  destruct ((status_code r =? 200) || (status_code r =? 204)); [|reflexivity].
  destruct raw; [reflexivity|].
  case_bool_decide; [|reflexivity].
  unfold mbind, M_bind, lift, response_json.
  destruct (json r); reflexivity.
Qed.

(** One pass of [query_loop], in every case. *)
Lemma query_loop_step left req url method raw extra_params st :
  Ring.query_loop server (S left) req url method raw extra_params st =
  match params (ring st) with
  | None =>
      if Ring.given extra_params then (Raise AttributeError, st)
      else if sends method then (Raise TypeError, st)
      else match req with
           | None => (Raise UnboundLocalError, st)
           | Some r => follow server left r url method raw extra_params st
           end
  | Some p =>
      let q := merged extra_params p in
      let rq := call_request method url q (ring st) in
      if sends method then
        match server (sent <$> net st) rq with
        | Broken => (Raise ConnectionError, after_send rq (with_params q st))
        | Answer r =>
            follow server left r url method raw extra_params
                   (after_send rq (with_params q st))
        end
      else match req with
           | None => (Raise UnboundLocalError, with_params q st)
           | Some r =>
               follow server left r url method raw extra_params (with_params q st)
           end
  end.
Proof.
  cbn [Ring.query_loop]. unfold mbind at 1, M_bind at 1.
  destruct (params (ring st)) as [p|] eqn:Hp.
  - assert (Hstep :
      (if Ring.given extra_params then Ring.merge_params extra_params
       else r ← get_ring; mret (params r)) st
      = (Return (Some (merged extra_params p)),
         with_params (merged extra_params p) st)).
    { unfold merged, with_params.
      destruct (Ring.given extra_params).
      - unfold Ring.merge_params, mbind, M_bind. cbn. rewrite Hp. reflexivity.
      - unfold mbind, M_bind. cbn. rewrite Hp, (set_params_same _ _ Hp).
        by destruct st. }
    rewrite Hstep. clear Hstep. cbn zeta.
    unfold mbind at 1, M_bind at 1.
    destruct (sends method) eqn:Hm.
    + rewrite dispatch_sends by done.
      unfold Ring.call. unfold mbind at 1, M_bind at 1. cbn [lift urlencode].
      unfold mbind at 1, M_bind at 1. cbn [get_ring].
      unfold mbind at 1, M_bind at 1. rewrite send_eq.
      cbn [with_params net ring username password set_params].
      unfold call_request.
      destruct (server _ _) as [r|]; [|reflexivity].
      cbn [mret M_ret]. apply follow_eq.
    + rewrite dispatch_idle by done. cbn [mret M_ret].
      destruct req as [r|]; [apply follow_eq|reflexivity].
  - destruct (Ring.given extra_params).
    + unfold Ring.merge_params, mbind, M_bind. cbn. rewrite Hp. reflexivity.
    + unfold mbind at 1, M_bind at 1. cbn [get_ring].
      cbn [mret M_ret]. rewrite Hp.
      unfold mbind at 1, M_bind at 1.
      destruct (sends method) eqn:Hm.
      * rewrite dispatch_sends by done. reflexivity.
      * rewrite dispatch_idle by done. cbn [mret M_ret].
        destruct req as [r|]; [apply follow_eq|reflexivity].
Qed.

Lemma query_loop_S left req url method raw extra_params st p :
  sends method = true →
  params (ring st) = Some p →
  Ring.query_loop server (S left) req url method raw extra_params st =
  let q := merged extra_params p in
  let rq := call_request method url q (ring st) in
  let st1 := after_send rq (with_params q st) in
  match server (sent <$> net st) rq with
  | Broken => (Raise ConnectionError, st1)
  | Answer r => follow server left r url method raw extra_params st1
  end.
Proof. intros Hm Hp. rewrite query_loop_step, Hp, Hm. reflexivity. Qed.

(** [query] is its loop unless the session is in debug mode and not
    marked connected. *)
Lemma query_eq url attempts method raw extra_params st :
  Ring.query server url attempts method raw extra_params st =
  if debug (ring st) && negb (default false (is_connected (ring st))) then
    match Ring._authenticate server RETRY_TOKEN st with
    | (Return _, st') =>
        Ring.query_loop server (S attempts) None url method raw extra_params st'
    | (Raise e, st') => (Raise e, st')
    end
  else Ring.query_loop server (S attempts) None url method raw extra_params st.
Proof.
  unfold Ring.query. unfold mbind at 1, M_bind at 1. cbn [get_ring].
  destruct (debug (ring st) && _); [|reflexivity].
  unfold mbind at 1, M_bind at 1. unfold mbind at 1, M_bind at 1.
  destruct (Ring._authenticate _ _ _) as [[]]; reflexivity.
Qed.
End Query.

(** ** What a login can touch *)

Section LoginFrame.
Context `{Const} (server : transport).

Lemma fresh_params_token tk : fresh_params tk !! "auth_token" = Some tk.
Proof. unfold fresh_params. by simplify_map_eq. Qed.

(** Whatever the server does, [_authenticate] sends login requests only,
    at most one per pass and at least one when there is a pass; it leaves
    token and parameter set alone unless it returns [True], and then has
    replaced both. *)
Lemma authenticate_loop_frame left req st :
  ∃ evs,
    net (Ring.authenticate_loop server left req st).2 = net st ++ evs
    ∧ (length evs ≤ left)%nat
    ∧ (left ≠ 0%nat → evs ≠ [])
    ∧ Forall (λ e, e = Event (login_request (ring st)) (token (ring st))) evs
    ∧ debug (ring (Ring.authenticate_loop server left req st).2) = debug (ring st)
    ∧ username (ring (Ring.authenticate_loop server left req st).2) = username (ring st)
    ∧ password (ring (Ring.authenticate_loop server left req st).2) = password (ring st)
    ∧ ((params (ring (Ring.authenticate_loop server left req st).2) = params (ring st)
        ∧ token (ring (Ring.authenticate_loop server left req st).2) = token (ring st)
        ∧ (Ring.authenticate_loop server left req st).1 ≠ Return (VBool true))
       ∨ (∃ p, ring (Ring.authenticate_loop server left req st).2
               = logged_in p (ring st)
          ∧ (Ring.authenticate_loop server left req st).1 = Return (VBool true))).
Proof.
  revert req st. induction left as [|left IH]; intros req st.
  - rewrite authenticate_loop_O. exists []. rewrite app_nil_r.
    destruct req as [r|]; [destruct (raise_for_status r)|];
      cbn; repeat split; auto; left; repeat split; auto; discriminate.
  - rewrite authenticate_loop_S. cbn zeta.
    set (ev := Event (login_request (ring st)) (token (ring st))).
    destruct (server _ _) as [r|].
    + destruct (status_code r =? 201).
      * destruct (profile_of r) as [p|e]; exists [ev]; cbn;
          repeat split; auto with lia; try (repeat constructor; fail);
          try discriminate.
        right. by exists p.
      * destruct (IH (Some r) (after_send (login_request (ring st)) st))
          as (evs & Hnet & Hlen & _ & Hall & Hd & Hu & Hp & Hcase).
        exists (ev :: evs). rewrite Hnet. cbn in *.
        rewrite <- app_assoc. repeat split; auto with lia; discriminate.
    + exists [ev]. cbn. repeat split; auto with lia; discriminate.
Qed.
End LoginFrame.

(** ** The token and the parameter set stay in sync *)

Section InSync.
Context `{Const} `{Lib} (server : transport).

Lemma keeps_ret {A} (a : A) : keeps (mret a).
Proof. by intros st. Qed.

Lemma keeps_raise {A} e : keeps (@raise A e).
Proof. by intros st. Qed.

Lemma keeps_lift {A} (o : outcome A) : keeps (lift o).
Proof. by intros st. Qed.

Lemma keeps_get_ring : keeps get_ring.
Proof. by intros st. Qed.

Lemma keeps_bind {A B} (m : M A) (f : A → M B) :
  keeps m → (∀ a, keeps (f a)) → keeps (m ≫= f).
Proof.
  intros Hm Hf st Hst. unfold mbind, M_bind.
  specialize (Hm st Hst). destruct (m st) as [[a|e] st']; cbn in *; [|done].
  by apply Hf.
Qed.

Lemma keeps_except {A} (body handler : M A) :
  keeps body → keeps handler → keeps (except_AttributeError body handler).
Proof.
  intros Hb Hh st Hst. unfold except_AttributeError.
  specialize (Hb st Hst).
  destruct (body st) as [[a|[]] st']; cbn in *; try done.
  by apply Hh.
Qed.

Lemma in_sync_logged_in p r : in_sync (logged_in p r).
Proof. intros q [= <-]. apply fresh_params_token. Qed.

Lemma keeps_authenticate_loop left req :
  keeps (Ring.authenticate_loop server left req).
Proof.
  intros st [Hs Hn].
  destruct (authenticate_loop_frame server left req st)
    as (evs & Hnet & _ & _ & Hall & _ & _ & _ & Hcase).
  split.
  - destruct Hcase as [(Hp & Ht & _)|(p & -> & _)].
    + intros q. rewrite Hp, Ht. apply Hs.
    + apply in_sync_logged_in.
  - rewrite Hnet. apply Forall_app. split; [done|].
    eapply Forall_impl; [exact Hall|]. by intros e ->.
Qed.

Lemma keeps_authenticate attempts : keeps (Ring._authenticate server attempts).
Proof. apply keeps_authenticate_loop. Qed.

Lemma keeps_init username password debug :
  keeps (Ring.__init__ server username password debug).
Proof.
  unfold Ring.__init__. apply keeps_bind.
  - intros st [_ Hn]. by split.
  - intros _. apply keeps_bind; [apply keeps_authenticate|].
    intros _. apply keeps_ret.
Qed.

Lemma merged_token extra_params p :
  spares_token extra_params →
  merged extra_params p !! "auth_token" = p !! "auth_token".
Proof.
  unfold merged, spares_token. intros He.
  destruct (Ring.given extra_params); [|done].
  by rewrite lookup_union_r.
Qed.

Lemma consistent_with_params extra_params p st :
  spares_token extra_params → params (ring st) = Some p →
  consistent st → consistent (with_params (merged extra_params p) st).
Proof.
  intros He Hp [Hs Hn]. split; [|done].
  intros q [= <-]. rewrite merged_token by done. by apply Hs.
Qed.

Lemma consistent_after_call method url q st :
  params (ring st) = Some q →
  consistent st → consistent (after_send (call_request method url q (ring st)) st).
Proof.
  intros Hp [Hs Hn]. split; [done|].
  apply Forall_app. split; [done|]. constructor; [|done].
  by apply Hs.
Qed.

Lemma consistent_disconnected st : consistent st → consistent (disconnected st).
Proof. by intros [Hs Hn]. Qed.

Lemma keeps_query_loop left req url method raw extra_params :
  spares_token extra_params →
  keeps (Ring.query_loop server left req url method raw extra_params).
Proof.
  intros He. revert req.
  induction left as [|left IH]; intros req st Hst; [done|].
  assert (Hfollow : ∀ r st', consistent st' →
    consistent (follow server left r url method raw extra_params st').2).
  { intros r st' Hst'. unfold follow.
    destruct (status_code r =? 401).
    - pose proof (keeps_authenticate RETRY_TOKEN _
                    (consistent_disconnected _ Hst')) as Ha.
      destruct (Ring._authenticate _ _ _) as [[a|e] st'']; cbn [snd] in *; [|done].
      by apply IH.
    - destruct (_ || _); [|by apply IH].
      destruct raw; [done|]. case_bool_decide; [|done].
      by destruct (json r). }
  rewrite query_loop_step.
  destruct (params (ring st)) as [p|] eqn:Hp.
  - cbn zeta.
    pose proof (consistent_with_params _ _ _ He Hp Hst) as Hst1.
    destruct (sends method).
    + pose proof (consistent_after_call method url (merged extra_params p)
                    (with_params (merged extra_params p) st) eq_refl Hst1) as Hst2.
      cbn [with_params ring] in Hst2.
      destruct (server _ _) as [r|]; [by apply Hfollow|done].
    + destruct req as [r|]; [by apply Hfollow|done].
  - destruct (Ring.given extra_params); [done|].
    destruct (sends method); [done|].
    destruct req as [r|]; [by apply Hfollow|done].
Qed.

Lemma keeps_query url attempts method raw extra_params :
  spares_token extra_params →
  keeps (Ring.query server url attempts method raw extra_params).
Proof.
  intros He st Hst. rewrite query_eq.
  destruct (debug (ring st) && _).
  - pose proof (keeps_authenticate RETRY_TOKEN _ Hst) as Ha.
    destruct (Ring._authenticate _ _ _) as [[a|e] st']; cbn [snd] in *; [|done].
    by apply keeps_query_loop.
  - by apply keeps_query_loop.
Qed.
End InSync.

Section InSyncDevices.
Context `{Const} `{Lib} (server : transport).

Ltac keeps_step :=
  first
    [ apply keeps_ret | apply keeps_raise | apply keeps_lift
    | apply keeps_get_ring | apply keeps_authenticate
    | apply keeps_query; unfold spares_token; cbn [default];
      by simplify_map_eq
    | apply keeps_bind | apply keeps_except
    | progress intros ].

Lemma keeps_query_default url : keeps (Ring.query_default server url).
Proof. unfold Ring.query_default. repeat keeps_step. Qed.

Lemma keeps_get_attrs self : keeps (RingGeneric._get_attrs server self).
Proof.
  unfold RingGeneric._get_attrs. cbn zeta.
  apply keeps_bind.
  - apply keeps_except; [|keeps_step].
    apply keeps_bind; [apply keeps_query_default|]. intros r.
    repeat (apply keeps_bind; [keeps_step|]; intros ?).
    case_match; keeps_step.
  - intros [[lst index]|]; repeat keeps_step.
Qed.

Lemma keeps_update self : keeps (RingGeneric.update server self).
Proof.
  unfold RingGeneric.update. apply keeps_bind; [apply keeps_get_attrs|].
  intros [self' v]. keeps_step.
Qed.

Lemma keeps_chime_init name : keeps (RingChime.__init__ server name).
Proof.
  unfold RingChime.__init__. apply keeps_bind; [keeps_step|].
  intros r. apply keeps_update.
Qed.

Lemma keeps_doorbell_init name : keeps (RingDoorBell.__init__ server name).
Proof.
  unfold RingDoorBell.__init__. apply keeps_bind; [keeps_step|].
  intros r. apply keeps_update.
Qed.

Lemma keeps_chime_volume self v :
  keeps (RingChime.volume_setter server self v).
Proof.
  unfold RingChime.volume_setter. case_match; [keeps_step|]. cbn zeta.
  apply keeps_bind; [keeps_step|]. intros aid.
  apply keeps_bind; [keeps_step|]. intros _.
  apply keeps_bind; [apply keeps_update|]. intros self'. keeps_step.
Qed.

Lemma keeps_doorbell_volume self v :
  keeps (RingDoorBell.volume_setter server self v).
Proof.
  unfold RingDoorBell.volume_setter. case_match; [keeps_step|]. cbn zeta.
  apply keeps_bind; [keeps_step|]. intros aid.
  apply keeps_bind; [keeps_step|]. intros _.
  apply keeps_bind; [apply keeps_update|]. intros self'. keeps_step.
Qed.

Lemma keeps_history self limit timezone :
  keeps (RingDoorBell.history server self limit timezone).
Proof.
  unfold RingDoorBell.history. cbn zeta.
  apply keeps_bind; [keeps_step|]. intros aid.
  apply keeps_bind; [keeps_step|]. intros response.
  apply keeps_bind.
  - repeat case_match; keeps_step.
  - intros _. destruct response; repeat keeps_step.
Qed.

Lemma keeps_construct new members lst :
  (∀ member, keeps (new member)) →
  keeps (RingDevices.construct new members lst).
Proof.
  intros Hnew. revert lst.
  induction members as [|member members IH]; intros lst; cbn; [keeps_step|].
  apply keeps_bind.
  - apply keeps_except; [|keeps_step].
    apply keeps_bind; [apply Hnew|]. intros h. keeps_step.
  - intros [h|]; [apply IH|keeps_step].
Qed.

Lemma keeps_listing key new lst :
  (∀ member, keeps (new member)) →
  keeps (RingDevices.listing server key new lst).
Proof.
  intros Hnew. unfold RingDevices.listing. cbn zeta.
  apply keeps_bind.
  - apply keeps_except; [|keeps_step].
    apply keeps_bind; [apply keeps_query_default|]. intros r.
    repeat keeps_step.
  - intros [members|]; [by apply keeps_construct|keeps_step].
Qed.

Lemma keeps_devices_of device_type :
  keeps (RingDevices.__devices server device_type).
Proof.
  unfold RingDevices.__devices. apply keeps_bind.
  - case_match; [|keeps_step].
    apply keeps_listing, keeps_chime_init.
  - intros lst. case_match; [|keeps_step].
    apply keeps_listing, keeps_doorbell_init.
Qed.

Lemma keeps_devices : keeps (RingDevices.devices server).
Proof.
  unfold RingDevices.devices, RingDevices.chimes, RingDevices.doorbells.
  apply keeps_bind; [apply keeps_devices_of|]. intros c.
  apply keeps_bind; [apply keeps_devices_of|]. intros d. keeps_step.
Qed.

Lemma keeps_has_subscription : keeps Ring.has_subscription.
Proof. unfold Ring.has_subscription. repeat keeps_step. Qed.
End InSyncDevices.

(** ** Logins that never see a 201 *)

Section LoginOutcome.
Context `{Const} (server : transport).

Lemma raise_for_status_error r :
  error_status (status_code r) →
  raise_for_status r = Raise (HTTPError (status_code r)).
Proof.
  unfold error_status, raise_for_status. intros [H1 H2].
  apply Z.leb_le in H1. apply Z.ltb_lt in H2. by rewrite H1, H2.
Qed.

Lemma raise_for_status_quiet r :
  ¬ error_status (status_code r) → raise_for_status r = Return tt.
Proof.
  unfold error_status, raise_for_status. intros Hn.
  destruct (400 <=? status_code r) eqn:H1; [|done].
  destruct (status_code r <? 600) eqn:H2; [|done].
  apply Z.leb_le in H1. apply Z.ltb_lt in H2. lia.
Qed.

Lemma authenticate_loop_shrugged left req st :
  shrugs server →
  (∀ r, req = Some r → ¬ error_status (status_code r)) →
  (left = 0%nat → req ≠ None) →
  Ring.authenticate_loop server left req st =
  (Return VNone,
   State (set_is_connected (Some false) (ring st))
         (net st ++ replicate left (login_event (ring st)))).
Proof.
  intros Hs. revert req st. induction left as [|left IH]; intros req st Hreq Hleft.
  - rewrite authenticate_loop_O. cbn. rewrite app_nil_r.
    destruct req as [r|]; [|by destruct Hleft].
    by rewrite raise_for_status_quiet by auto.
  - rewrite authenticate_loop_S. cbn zeta.
    destruct (Hs (sent <$> net st) (login_request (ring st)) eq_refl)
      as (r & -> & Hr & Hq).
    apply Z.eqb_neq in Hr. rewrite Hr.
    rewrite IH; [|by intros ? [= <-]|done].
    cbn. by rewrite <- app_assoc.
Qed.

(** A login that returns [True] was answered with 201. *)
Lemma authenticate_loop_true left req st :
  (Ring.authenticate_loop server left req st).1 = Return (VBool true) →
  ∃ h rq r, is_login rq = true ∧ server h rq = Answer r ∧ status_code r = 201.
Proof.
  revert req st. induction left as [|left IH]; intros req st.
  - rewrite authenticate_loop_O. cbn.
    destruct req as [r|]; [destruct (raise_for_status r)|]; discriminate.
  - rewrite authenticate_loop_S. cbn zeta.
    destruct (server _ _) as [r|] eqn:Hr; [|discriminate].
    destruct (status_code r =? 201) eqn:E; [|apply IH].
    intros _. apply Z.eqb_eq in E.
    by exists (sent <$> net st), (login_request (ring st)), r.
Qed.

(** A login that ends with the session marked connected, from a session
    not so marked, was answered with 201. *)
Lemma authenticate_loop_connected left req st :
  is_connected (ring st) ≠ Some true →
  is_connected (ring (Ring.authenticate_loop server left req st).2) = Some true →
  ∃ h rq r, is_login rq = true ∧ server h rq = Answer r ∧ status_code r = 201.
Proof.
  revert req st. induction left as [|left IH]; intros req st Hc.
  - rewrite authenticate_loop_O. cbn.
    destruct req as [r|]; [destruct (raise_for_status r)|]; discriminate.
  - rewrite authenticate_loop_S. cbn zeta.
    destruct (server _ _) as [r|] eqn:Hr; [|done].
    destruct (status_code r =? 201) eqn:E; [|by apply IH].
    intros _. apply Z.eqb_eq in E.
    by exists (sent <$> net st), (login_request (ring st)), r.
Qed.

Lemma error_status_not_201 code : error_status code → (code =? 201) = false.
Proof. unfold error_status. intros ?. apply Z.eqb_neq. lia. Qed.

Lemma authenticate_loop_decided left req st :
  decides server →
  (∀ r, req = Some r → error_status (status_code r)) →
  (left = 0%nat → req ≠ None) →
  ∃ n,
    net (Ring.authenticate_loop server left req st).2
    = net st ++ replicate n (login_event (ring st))
    ∧ (((Ring.authenticate_loop server left req st).1 = Return (VBool true)
        ∧ (1 ≤ n ≤ left)%nat
        ∧ ∃ p tk, ring (Ring.authenticate_loop server left req st).2
                  = logged_in p (ring st)
                  ∧ assoc "authentication_token" p = Some tk ∧ tk ≠ VNone)
       ∨ (n = left
          ∧ ring (Ring.authenticate_loop server left req st).2
            = set_is_connected (Some false) (ring st)
          ∧ ∃ r, (Ring.authenticate_loop server left req st).1
                 = Raise (HTTPError (status_code r))
                 ∧ error_status (status_code r)
                 ∧ match left with
                   | O => req = Some r
                   | S k =>
                       server ((sent <$> net st)
                               ++ replicate k (login_request (ring st)))
                              (login_request (ring st)) = Answer r
                   end)).
Proof.
  intros Hs. revert req st.
  induction left as [|left IH]; intros req st Hreq Hleft.
  - rewrite authenticate_loop_O. exists 0%nat. cbn. rewrite app_nil_r.
    split; [by destruct req as [r|]; [destruct (raise_for_status r)|]|].
    right. destruct req as [r|]; [|by destruct Hleft].
    rewrite raise_for_status_error by auto. cbn.
    split; [done|]. split; [done|]. exists r.
    split; [done|]. split; [by apply Hreq|done].
  - rewrite authenticate_loop_S. cbn zeta.
    destruct (Hs (sent <$> net st) (login_request (ring st)) eq_refl)
      as (r & Hr & Hcase).
    rewrite Hr.
    destruct Hcase as [(E & p & tk & Hp & Htk & Hne)|Herr].
    + apply Z.eqb_eq in E. rewrite E, Hp. exists 1%nat. cbn.
      split; [done|]. left. split; [done|]. split; [lia|]. eauto.
    + rewrite error_status_not_201 by done.
      destruct (IH (Some r) (after_send (login_request (ring st)) st))
        as (n & Hnet & Hcase); [by intros ? [= <-]|done|].
      exists (S n). cbn in Hnet |- *. rewrite Hnet, <- app_assoc. split; [done|].
      destruct Hcase as [(Ho & Hn & Hp)|(-> & Hring & r' & Ho & He & Hlast)].
      * left. split; [done|]. split; [lia|done].
      * right. split; [done|]. split; [done|].
        exists r'. split; [done|]. split; [done|].
        destruct left as [|k].
        -- injection Hlast as <-. cbn. by rewrite app_nil_r.
        -- cbn in Hlast. rewrite fmap_app in Hlast. cbn in Hlast.
           rewrite <- app_assoc in Hlast. exact Hlast.
Qed.
End LoginOutcome.

(** ** Queries that run out of passes *)

Section QueryOutcome.
Context `{Const} (server : transport).

Lemma settled_query url attempts method raw extra_params st :
  settled (ring st) →
  Ring.query server url attempts method raw extra_params st =
  Ring.query_loop server (S attempts) None url method raw extra_params st.
Proof.
  intros Hs. rewrite query_eq. unfold settled in Hs.
  destruct (debug (ring st)); [|done]. by rewrite Hs.
Qed.

Lemma with_params_same q st : params (ring st) = Some q → with_params q st = st.
Proof.
  intros Hq. unfold with_params. rewrite set_params_same by done.
  by destruct st.
Qed.

Lemma query_loop_stonewalled left req url method raw extra_params st q :
  stonewalls server → sends method = true →
  params (ring st) = Some q → merged extra_params q = q →
  Ring.query_loop server left req url method raw extra_params st =
  (Return (Ring.Val VNone),
   State (ring st)
         (net st ++ replicate left (call_event method url q (ring st)))).
Proof.
  intros Hs Hm. revert req st.
  induction left as [|left IH]; intros req st Hq Hidem.
  - cbn. rewrite app_nil_r. by destruct st.
  - rewrite (query_loop_S _ _ _ _ _ _ _ _ q) by done. cbn zeta.
    rewrite Hidem, with_params_same by done.
    destruct (Hs (sent <$> net st) (call_request method url q (ring st)))
      as (r & -> & H200 & H204 & H401).
    unfold follow.
    apply Z.eqb_neq in H200, H204, H401. rewrite H200, H204, H401. cbn [orb].
    rewrite IH by done. cbn. by rewrite <- app_assoc.
Qed.

(** The first pass merges; the later ones find the parameters merged. *)
Lemma query_loop_premerged left req url method raw extra_params st p :
  params (ring st) = Some p →
  Ring.query_loop server (S left) req url method raw extra_params st =
  Ring.query_loop server (S left) req url method raw extra_params
    (with_params (merged extra_params p) st).
Proof.
  intros Hp. rewrite !query_loop_step. cbn [with_params ring net params set_params].
  rewrite Hp. cbn zeta. rewrite merged_idem.
  unfold with_params, call_request. cbn. reflexivity.
Qed.
End QueryOutcome.

(** ** Extra parameters stay in the session *)

Section Merging.
Context `{Const} (server : transport).

Lemma grows_refl st : grows st st.
Proof. exists []. by rewrite app_nil_r. Qed.

Lemma grows_trans st1 st2 st3 : grows st1 st2 → grows st2 st3 → grows st1 st3.
Proof.
  intros [e1 H1] [e2 H2]. exists (e1 ++ e2). by rewrite H2, H1, app_assoc.
Qed.

Lemma grows_authenticate left req st :
  grows st (Ring.authenticate_loop server left req st).2.
Proof.
  destruct (authenticate_loop_frame server left req st) as (evs & Hnet & _).
  by exists evs.
Qed.

Lemma grows_follow left r url method raw extra_params st :
  (∀ req st, grows st (Ring.query_loop server left req url method raw
                                       extra_params st).2) →
  grows st (follow server left r url method raw extra_params st).2.
Proof.
  intros IH. unfold follow. destruct (status_code r =? 401).
  - pose proof (grows_authenticate (S RETRY_TOKEN) None (disconnected st)) as Ha.
    fold (Ring._authenticate server RETRY_TOKEN) in Ha.
    destruct (Ring._authenticate _ _ _) as [[a|e] st']; cbn [snd] in *; [|done].
    eapply grows_trans; [exact Ha|apply IH].
  - destruct (_ || _); [|apply IH].
    destruct raw; [apply grows_refl|].
    case_bool_decide; [destruct (json r)|]; apply grows_refl.
Qed.

Lemma grows_query_loop left req url method raw extra_params st :
  grows st (Ring.query_loop server left req url method raw extra_params st).2.
Proof.
  revert req st. induction left as [|left IH]; intros req st;
    [apply grows_refl|].
  rewrite query_loop_step.
  destruct (params (ring st)) as [p|].
  - cbn zeta. destruct (sends method).
    + destruct (server _ _) as [r|].
      * eapply grows_trans; [|by apply grows_follow]. by eexists [_].
      * by eexists [_].
    + assert (Hq : grows st (with_params (merged extra_params p) st))
        by (exists []; by rewrite app_nil_r).
      destruct req as [r|]; [|done].
      eapply grows_trans; [exact Hq|by apply grows_follow].
  - destruct (Ring.given extra_params); [apply grows_refl|].
    destruct (sends method); [apply grows_refl|].
    destruct req as [r|]; [by apply grows_follow|apply grows_refl].
Qed.

Lemma no_login_after_authenticate st evs0 evs :
  net (Ring._authenticate server RETRY_TOKEN st).2 = net st ++ evs0 →
  ¬ no_login (evs0 ++ evs).
Proof.
  intros Hnet Hno.
  destruct (authenticate_loop_frame server (S RETRY_TOKEN) None st)
    as (evs' & Hnet' & _ & Hne & Hall & _).
  unfold Ring._authenticate in Hnet. rewrite Hnet in Hnet'.
  apply app_inv_head in Hnet'. subst evs'.
  destruct evs0 as [|e evs0]; [by apply Hne|].
  apply Forall_cons in Hall as [-> _].
  apply Forall_app in Hno as [Hno _]. apply Forall_cons in Hno as [Hno _].
  discriminate.
Qed.

Lemma follow_merged left r url method raw extra_params st q :
  (∀ req st, params (ring st) = Some q →
     ∃ evs, net (Ring.query_loop server left req url method raw
                                 extra_params st).2 = net st ++ evs
            ∧ (no_login evs →
               params (ring (Ring.query_loop server left req url method raw
                                             extra_params st).2) = Some q
               ∧ Forall (carries q) evs)) →
  params (ring st) = Some q →
  ∃ evs, net (follow server left r url method raw extra_params st).2
         = net st ++ evs
         ∧ (no_login evs →
            params (ring (follow server left r url method raw
                                 extra_params st).2) = Some q
            ∧ Forall (carries q) evs).
Proof.
  intros IH Hq. unfold follow. destruct (status_code r =? 401).
  - destruct (grows_authenticate (S RETRY_TOKEN) None (disconnected st))
      as [evs0 Hnet].
    fold (Ring._authenticate server RETRY_TOKEN) in Hnet.
    pose proof (λ evs,
      no_login_after_authenticate (disconnected st) evs0 evs Hnet) as Hno.
    destruct (Ring._authenticate _ _ _) as [[a|e] st']; cbn [snd] in *.
    + destruct (grows_query_loop left (Some r) url method raw extra_params st')
        as [evs1 Hnet1].
      exists (evs0 ++ evs1). cbn [disconnected net] in *.
      rewrite Hnet1, Hnet, app_assoc. split; [done|].
      intros Hfalse. by destruct (Hno evs1).
    + exists evs0. cbn [disconnected net] in *. split; [done|].
      intros Hfalse. destruct (Hno []). by rewrite app_nil_r.
  - assert (Hstay : ∃ evs, net st = net st ++ evs
              ∧ (no_login evs → params (ring st) = Some q
                                ∧ Forall (carries q) evs)).
    { exists []. rewrite app_nil_r. split; [done|]. intros _. by split. }
    destruct (_ || _); [|by apply IH].
    destruct raw; [done|].
    case_bool_decide; [by destruct (json r)|done].
Qed.

Lemma query_loop_merged left req url method raw extra_params st q :
  merged extra_params q = q →
  params (ring st) = Some q →
  ∃ evs, net (Ring.query_loop server left req url method raw
                              extra_params st).2 = net st ++ evs
         ∧ (no_login evs →
            params (ring (Ring.query_loop server left req url method raw
                                          extra_params st).2) = Some q
            ∧ Forall (carries q) evs).
Proof.
  intros Hidem. revert req st.
  induction left as [|left IH]; intros req st Hq.
  { exists []. cbn. rewrite app_nil_r. split; [done|]. intros _. by split. }
  rewrite query_loop_step, Hq. cbn zeta.
  rewrite Hidem, with_params_same by done.
  destruct (sends method).
  - set (rq := call_request method url q (ring st)).
    assert (Hc : carries q (Event rq (token (ring st)))) by by eexists _, _, _.
    destruct (server _ _) as [r|].
    + destruct (follow_merged left r url method raw extra_params
                  (after_send rq st) q IH Hq) as (evs & Hnet & Hpost).
      exists (Event rq (token (ring st)) :: evs). rewrite Hnet. cbn.
      rewrite <- app_assoc. split; [done|].
      intros Hno. apply Forall_cons in Hno as [_ Hno].
      destruct (Hpost Hno) as [Hp Hall]. split; [done|]. by constructor.
    + exists [Event rq (token (ring st))]. cbn. split; [done|].
      intros _. split; [done|]. by constructor.
  - destruct req as [r|].
    + by apply follow_merged.
    + exists []. cbn. rewrite app_nil_r. split; [done|]. intros _. by split.
Qed.

(** A query that logs in nowhere leaves the session with the merged
    parameters, and every request it sent carried them. *)
Lemma query_merges url attempts method raw extra_params st p :
  params (ring st) = Some p →
  ∃ evs, net (Ring.query server url attempts method raw extra_params st).2
         = net st ++ evs
         ∧ (no_login evs →
            params (ring (Ring.query server url attempts method raw
                                     extra_params st).2)
            = Some (merged extra_params p)
            ∧ Forall (carries (merged extra_params p)) evs).
Proof.
  intros Hp. rewrite query_eq.
  destruct (debug (ring st) && _).
  - destruct (grows_authenticate (S RETRY_TOKEN) None st) as [evs0 Hnet].
    fold (Ring._authenticate server RETRY_TOKEN) in Hnet.
    pose proof (λ evs, no_login_after_authenticate st evs0 evs Hnet) as Hno.
    destruct (Ring._authenticate _ _ _) as [[a|e] st']; cbn [snd] in *.
    + destruct (grows_query_loop (S attempts) None url method raw
                  extra_params st') as [evs1 Hnet1].
      exists (evs0 ++ evs1). rewrite Hnet1, Hnet, app_assoc. split; [done|].
      intros Hfalse. by destruct (Hno evs1).
    + exists evs0. split; [done|].
      intros Hfalse. destruct (Hno []). by rewrite app_nil_r.
  - rewrite (query_loop_premerged _ _ _ _ _ _ _ _ p) by done.
    destruct (query_loop_merged (S attempts) None url method raw extra_params
                (with_params (merged extra_params p) st)
                (merged extra_params p)) as (evs & Hnet & Hpost);
      [apply merged_idem|done|].
    by exists evs.
Qed.
End Merging.

(** ** Device handles *)

Section Devices.
Context `{Const} `{Lib} (server : transport).

Lemma locate_absent items v index :
  absent v items → locate items "description" v index = Return NOT_FOUND.
Proof.
  intros Habs. revert index.
  induction Habs as [|d items (x & Hx & Hne) _ IH]; intros index; [done|].
  cbn [locate]. rewrite Hx. cbn. rewrite Hne. apply IH.
Qed.

(** [_get_attrs], by what the query and the scan give. *)
Lemma get_attrs_eq self st :
  RingGeneric._get_attrs server self st =
  match Ring.query_default server devices_url st with
  | (Return r, st') =>
      match RingGeneric.result_get r (RingGeneric.family self) with
      | Return lst =>
          match _locator lst "description" (RingGeneric.name self) with
          | Return index =>
              if index =? NOT_FOUND then (Return (self, VNone), st')
              else match py_index lst index with
                   | Return v =>
                       (Return (RingGeneric.set_attrs v self, VBool true), st')
                   | Raise e => (Raise e, st')
                   end
          | Raise AttributeError => (Return (self, VNone), st')
          | Raise e => (Raise e, st')
          end
      | Raise AttributeError => (Return (self, VNone), st')
      | Raise e => (Raise e, st')
      end
  | (Raise AttributeError, st') => (Return (self, VNone), st')
  | (Raise e, st') => (Raise e, st')
  end.
Proof.
  unfold RingGeneric._get_attrs. cbn zeta. fold devices_url.
  unfold mbind at 1, M_bind at 1. unfold except_AttributeError.
  unfold mbind at 1, M_bind at 1.
  destruct (Ring.query_default server devices_url st) as [[r|e] st'];
    [|by destruct e].
  unfold mbind at 1, M_bind at 1. unfold lift at 1.
  destruct (RingGeneric.result_get r _) as [lst|e]; [|by destruct e].
  unfold mbind at 1, M_bind at 1. unfold lift at 1.
  destruct (_locator lst _ _) as [index|e]; [|by destruct e].
  destruct (index =? NOT_FOUND); [reflexivity|].
  cbn [mret M_ret]. unfold mbind, M_bind, lift.
  destruct (py_index lst index); reflexivity.
Qed.

(** A refresh that finds no entry of the handle's name leaves the handle
    as it is. *)
Lemma get_attrs_absent self st d items st' :
  Ring.query_default server devices_url st = (Return (Ring.Val (VDict d)), st') →
  assoc (RingGeneric.family self) d = Some (VList items) →
  absent (RingGeneric.name self) items →
  RingGeneric._get_attrs server self st = (Return (self, VNone), st').
Proof.
  intros Hq Hfam Habs. rewrite get_attrs_eq, Hq. cbn. rewrite Hfam. cbn.
  unfold _locator. cbn. rewrite locate_absent by done.
  by rewrite Z.eqb_refl.
Qed.

(** One block of [__devices], by what the query gives. *)
Lemma listing_eq key new lst st :
  RingDevices.listing server key new lst st =
  match Ring.query_default server devices_url st with
  | (Return r, st') =>
      match RingGeneric.result_get r key with
      | Return req =>
          match RingDevices.descriptions req with
          | Return members => RingDevices.construct new members lst st'
          | Raise AttributeError => (Return lst, st')
          | Raise e => (Raise e, st')
          end
      | Raise AttributeError => (Return lst, st')
      | Raise e => (Raise e, st')
      end
  | (Raise AttributeError, st') => (Return lst, st')
  | (Raise e, st') => (Raise e, st')
  end.
Proof.
  unfold RingDevices.listing. cbn zeta. fold devices_url.
  unfold mbind at 1, M_bind at 1. unfold except_AttributeError.
  unfold mbind at 1, M_bind at 1.
  destruct (Ring.query_default server devices_url st) as [[r|e] st'];
    [|by destruct e].
  unfold mbind at 1, M_bind at 1. unfold lift at 1.
  destruct (RingGeneric.result_get r _) as [req|e]; [|by destruct e].
  unfold mbind at 1, M_bind at 1. unfold lift at 1.
  destruct (RingDevices.descriptions req) as [members|e]; [|by destruct e].
  reflexivity.
Qed.

(** The query "fails" by returning [None]: the listing is empty. *)
Lemma listing_null key new lst st st' :
  Ring.query_default server devices_url st = (Return (Ring.Val VNone), st') →
  RingDevices.listing server key new lst st = (Return lst, st').
Proof. intros Hq. by rewrite listing_eq, Hq. Qed.

(** The query returns a dict without the family key: the loop runs over
    [None]. *)
Lemma listing_without_key key new lst st d st' :
  Ring.query_default server devices_url st = (Return (Ring.Val (VDict d)), st') →
  assoc key d = None →
  RingDevices.listing server key new lst st = (Raise TypeError, st').
Proof. intros Hq Hk. rewrite listing_eq, Hq. cbn. by rewrite Hk. Qed.

(** [history] once the query has returned [None]. *)
Lemma history_null self limit timezone aid st st' :
  RingGeneric.account_id self = Return aid →
  Ring.query server (API_URI +:+ format URL_DOORBELL_HISTORY aid) RETRY_TOKEN
             "GET" false (Some {[ "limit" := VStr (pretty limit) ]}) st
  = (Return (Ring.Val VNone), st') →
  RingDoorBell.history server self limit timezone st =
  (Raise (let tz := default "" timezone in
          if bool_decide (tz = "") then TypeError
          else if timezone_ok tz then TypeError else UnknownTimeZoneError),
   st').
Proof.
  intros Ha Hq. unfold RingDoorBell.history. cbn zeta.
  unfold mbind at 1, M_bind at 1. unfold lift at 1. rewrite Ha.
  unfold mbind at 1, M_bind at 1. rewrite Hq.
  unfold mbind at 1, M_bind at 1.
  case_bool_decide; [reflexivity|].
  destruct (timezone_ok _); reflexivity.
Qed.
End Devices.

(** * The claims *)

Section Claims.
Context `{Const} `{Lib} (server : transport).

(** The constructor is its login. *)
Lemma init_eq username password debug st :
  Ring.__init__ server username password debug st =
  match Ring._authenticate server RETRY_TOKEN
          (State (Ring.fresh username password debug) (net st)) with
  | (Return _, st') => (Return tt, st')
  | (Raise e, st') => (Raise e, st')
  end.
Proof.
  unfold Ring.__init__. unfold mbind at 1, M_bind at 1. cbn [modify_ring].
  unfold mbind at 1, M_bind at 1.
  destruct (Ring._authenticate _ _ _) as [[]]; reflexivity.
Qed.

(** C1, as amended.  Under a server that answers every login, either with
    201 and a profile that holds a token or with a 4xx/5xx status,
    constructing a client sends login requests only and either returns
    after at most [RETRY_TOKEN + 1] of them, connected, with a token that is
    not [None] and a parameter set naming it, or marks the session
    disconnected and raises the HTTP error of the answer to the
    [RETRY_TOKEN + 1]-th login, after exactly that many. *)
Theorem construction_connects_or_raises username password debug st :
  decides server →
  ∃ n,
    net (Ring.__init__ server username password debug st).2
    = net st ++ replicate n
        (Event (Login (API_URI +:+ NEW_SESSION_ENDPOINT) (username, password))
               VNone)
    ∧ (((Ring.__init__ server username password debug st).1 = Return tt
        ∧ (1 ≤ n ≤ S RETRY_TOKEN)%nat
        ∧ is_connected (ring (Ring.__init__ server username password debug st).2)
          = Some true
        ∧ token (ring (Ring.__init__ server username password debug st).2) ≠ VNone
        ∧ params (ring (Ring.__init__ server username password debug st).2)
          = Some (fresh_params
                    (token (ring (Ring.__init__ server username password
                                                debug st).2))))
       ∨ (n = S RETRY_TOKEN
          ∧ is_connected (ring (Ring.__init__ server username password debug st).2)
            = Some false
          ∧ ∃ r, (Ring.__init__ server username password debug st).1
                 = Raise (HTTPError (status_code r))
                 ∧ error_status (status_code r)
                 ∧ server ((sent <$> net st)
                           ++ replicate RETRY_TOKEN
                                (Login (API_URI +:+ NEW_SESSION_ENDPOINT)
                                       (username, password)))
                          (Login (API_URI +:+ NEW_SESSION_ENDPOINT)
                                 (username, password))
                   = Answer r)).
Proof.
  intros Hd. rewrite init_eq.
  destruct (authenticate_loop_decided server (S RETRY_TOKEN) None
              (State (Ring.fresh username password debug) (net st)) Hd)
    as (n & Hnet & Hcase); [done|done|].
  fold (Ring._authenticate server RETRY_TOKEN) in Hnet, Hcase.
  destruct (Ring._authenticate _ _ _) as [[a|e] st']; cbn [fst snd] in *;
    exists n; (split; [exact Hnet|]).
  - destruct Hcase as [(_ & Hn & p & tk & -> & Htk & Hne)|(_ & _ & r & [=] & _)].
    left. cbn. rewrite Htk. done.
  - destruct Hcase as [([=] & _)|(-> & -> & r & [= ->] & He & Hr)].
    right. split; [done|]. split; [done|]. by exists r.
Qed.

(** C9.  Only a 201 counts as a successful login: under a server that
    answers every login with a status that is neither 201 nor an error
    status (200, say), the constructor returns without raising after
    [RETRY_TOKEN + 1] logins, with [is_connected = False], no token and no
    parameter set; and whenever a constructor leaves the session connected,
    some login was answered with 201. *)
Theorem construction_without_201 username password debug st :
  (shrugs server →
   Ring.__init__ server username password debug st =
   (Return tt,
    State (mkRing VNone (Some false) VNone VNone None debug username password)
          (net st ++ replicate (S RETRY_TOKEN)
             (Event (Login (API_URI +:+ NEW_SESSION_ENDPOINT)
                           (username, password)) VNone))))
  ∧ (is_connected (ring (Ring.__init__ server username password debug st).2)
     = Some true →
     ∃ h rq r, is_login rq = true ∧ server h rq = Answer r
               ∧ status_code r = 201).
Proof.
  split.
  - intros Hs. rewrite init_eq. unfold Ring._authenticate.
    by rewrite authenticate_loop_shrugged.
  - rewrite init_eq. intros Hc.
    apply (authenticate_loop_connected server (S RETRY_TOKEN) None
             (State (Ring.fresh username password debug) (net st))); [done|].
    fold (Ring._authenticate server RETRY_TOKEN).
    by destruct (Ring._authenticate _ _ _) as [[a|e] st'].
Qed.

(** A query that is stonewalled returns [None] after [attempts + 1]
    requests. *)
Lemma query_stonewalled url attempts method raw extra_params st p :
  stonewalls server → sends method = true →
  params (ring st) = Some p → settled (ring st) →
  Ring.query server url attempts method raw extra_params st =
  (Return (Ring.Val VNone),
   State (set_params (Some (merged extra_params p)) (ring st))
         (net st ++ replicate (S attempts)
            (call_event method url (merged extra_params p) (ring st)))).
Proof.
  intros Hs Hm Hp Hset. rewrite settled_query by done.
  rewrite (query_loop_premerged _ _ _ _ _ _ _ _ p) by done.
  rewrite (query_loop_stonewalled server _ _ _ _ _ _ _ (merged extra_params p));
    [|done|done|done|apply merged_idem].
  unfold with_params, call_event, call_request. cbn. reflexivity.
Qed.

(** C2, as amended.  On a session that holds a parameter set and is not at
    once in debug mode and marked disconnected, under a server that answers
    every request with a status other than 200, 204 and 401, [query]
    (with GET, PUT or POST) sends exactly [RETRY_TOKEN + 1] requests, all
    the same call, and returns [None] without raising; the session is
    changed by the merge of the extra parameters only. *)
Theorem query_exhaustion_returns_null url method raw extra_params st p :
  stonewalls server → sends method = true →
  params (ring st) = Some p → settled (ring st) →
  Ring.query server url RETRY_TOKEN method raw extra_params st =
  (Return (Ring.Val VNone),
   State (set_params (Some (merged extra_params p)) (ring st))
         (net st ++ replicate (S RETRY_TOKEN)
            (Event (Call method url (username (ring st), password (ring st))
                         (merged extra_params p))
                   (token (ring st))))).
Proof. apply query_stonewalled. Qed.
(** A pass that is answered with 200 or 204 ends the query. *)
Lemma follow_delivered left r url method raw extra_params st :
  status_code r = 200 ∨ status_code r = 204 →
  follow server left r url method raw extra_params st
  = (delivered method raw r, st).
Proof.
  intros Hs. unfold follow, delivered.
  assert ((status_code r =? 401) = false) as -> by (apply Z.eqb_neq; lia).
  assert (((status_code r =? 200) || (status_code r =? 204)) = true) as ->.
  { apply orb_true_iff. destruct Hs as [->| ->]; auto. }
  destruct raw; [done|]. case_bool_decide; [|done]. by destruct (json r).
Qed.

(** The run of a query whose first call meets an expired token. *)
Lemma query_renews url attempts method raw extra_params st p r1 r2 prof r3 :
  (1 ≤ attempts)%nat →
  params (ring st) = Some p → settled (ring st) → sends method = true →
  server (sent <$> net st)
         (call_request method url (merged extra_params p) (ring st))
  = Answer r1 →
  status_code r1 = 401 →
  server ((sent <$> net st)
          ++ [call_request method url (merged extra_params p) (ring st)])
         (login_request (ring st))
  = Answer r2 →
  status_code r2 = 201 → profile_of r2 = Return prof →
  server ((sent <$> net st)
          ++ [call_request method url (merged extra_params p) (ring st);
              login_request (ring st)])
         (call_request method url
            (merged extra_params
               (fresh_params (default VNone (assoc "authentication_token" prof))))
            (ring st))
  = Answer r3 →
  status_code r3 = 200 ∨ status_code r3 = 204 →
  Ring.query server url attempts method raw extra_params st
  = (delivered method raw r3,
     State
       (set_params
          (Some (merged extra_params
                   (fresh_params
                      (default VNone (assoc "authentication_token" prof)))))
          (logged_in prof (ring st)))
       (net st
        ++ [Event (call_request method url (merged extra_params p) (ring st))
                  (token (ring st));
            Event (login_request (ring st)) (token (ring st));
            Event (call_request method url
                     (merged extra_params
                        (fresh_params
                           (default VNone (assoc "authentication_token" prof))))
                     (ring st))
                  (default VNone (assoc "authentication_token" prof))])).
Proof.
  intros Ha Hp Hset Hm H1 S1 H2 S2 Hprof H3 S3.
  destruct attempts as [|attempts]; [lia|].
  rewrite settled_query by done.
  rewrite (query_loop_S _ _ _ _ _ _ _ _ p) by done. cbn zeta.
  rewrite H1. unfold follow at 1. rewrite S1. cbn [Z.eqb Pos.eqb].
  unfold Ring._authenticate. rewrite authenticate_loop_S. cbn zeta.
  cbn [disconnected after_send with_params ring net].
  rewrite fmap_app. cbn [fmap list_fmap sent].
  unfold login_request in *. cbn [username password set_is_connected set_params].
  rewrite H2, S2. cbn [Z.eqb Pos.eqb]. rewrite Hprof.
  set (tk := default VNone (assoc "authentication_token" prof)) in *.
  rewrite (query_loop_S _ _ _ _ _ _ _ _ (fresh_params tk)) by done. cbn zeta.
  cbn [ring net logged_in username password debug set_is_connected set_params].
  rewrite !fmap_app. cbn [fmap list_fmap sent]. rewrite <- app_assoc.
  cbn [app]. unfold call_request in *.
  cbn [logged_in username password set_is_connected set_params]. rewrite H3.
  rewrite follow_delivered by done.
  unfold after_send, with_params, logged_in, set_params, set_is_connected.
  cbn [ring net]. rewrite <- !app_assoc. reflexivity.
Qed.

(** C3, as amended.  On a session that holds a parameter set and is not at
    once in debug mode and marked disconnected, with a retry count of at
    least 1 and any of the methods GET, PUT and POST, raw or not: when the
    server answers the first call with 401, the login that follows with 201
    and a profile, and the second call (which carries the new token) with
    200 or 204, [query] sends exactly these three requests, one login
    between the two calls, and ends as a successful pass does on the second
    answer: with [raw] it returns that response object, without [raw] and
    with GET its JSON body (raising [ValueError] when it has none), without
    [raw] and with PUT or POST [None].  The session is then connected and
    holds the new token, in its parameter set too. *)
Theorem query_retries_after_401 url attempts method raw extra_params st p
    r1 r2 prof r3 :
  (1 ≤ attempts)%nat →
  params (ring st) = Some p → settled (ring st) → sends method = true →
  server (sent <$> net st)
         (call_request method url (merged extra_params p) (ring st))
  = Answer r1 →
  status_code r1 = 401 →
  server ((sent <$> net st)
          ++ [call_request method url (merged extra_params p) (ring st)])
         (login_request (ring st))
  = Answer r2 →
  status_code r2 = 201 → profile_of r2 = Return prof →
  server ((sent <$> net st)
          ++ [call_request method url (merged extra_params p) (ring st);
              login_request (ring st)])
         (call_request method url
            (merged extra_params
               (fresh_params (default VNone (assoc "authentication_token" prof))))
            (ring st))
  = Answer r3 →
  status_code r3 = 200 ∨ status_code r3 = 204 →
  (Ring.query server url attempts method raw extra_params st).1
  = delivered method raw r3
  ∧ (raw = true → delivered method raw r3 = Return (Ring.Raw r3))
  ∧ (raw = false → method = "GET" →
     delivered method raw r3
     = match json r3 with
       | Some v => Return (Ring.Val v)
       | None => Raise ValueError
       end)
  ∧ (raw = false → method ≠ "GET" →
     delivered method raw r3 = Return (Ring.Val VNone))
  ∧ net (Ring.query server url attempts method raw extra_params st).2
    = net st
      ++ [Event (call_request method url (merged extra_params p) (ring st))
                (token (ring st));
          Event (login_request (ring st)) (token (ring st));
          Event (call_request method url
                   (merged extra_params
                      (fresh_params
                         (default VNone (assoc "authentication_token" prof))))
                   (ring st))
                (default VNone (assoc "authentication_token" prof))]
  ∧ is_connected (ring (Ring.query server url attempts method raw
                                   extra_params st).2) = Some true
  ∧ token (ring (Ring.query server url attempts method raw extra_params st).2)
    = default VNone (assoc "authentication_token" prof)
  ∧ params (ring (Ring.query server url attempts method raw extra_params st).2)
    = Some (merged extra_params
              (fresh_params (default VNone (assoc "authentication_token" prof)))).
Proof.
  intros Ha Hp Hset Hm H1 S1 H2 S2 Hprof H3 S3.
  rewrite (query_renews url attempts method raw extra_params st p r1 r2 prof r3)
    by done.
  cbn [fst snd ring net]. repeat apply conj; try reflexivity.
  - by intros ->.
  - intros -> ->. unfold delivered. by rewrite bool_decide_eq_true_2.
  - intros -> Hne. unfold delivered. by rewrite bool_decide_eq_false_2.
Qed.
(** C4, as amended.  The session's token and parameter set stay in sync,
    and every call that leaves carries the token stored at that moment,
    through every operation of the client (constructor, login, query,
    directory, refresh, volume setters, history), however it ends, provided
    the extra parameters a caller hands to [query] do not themselves name
    [auth_token]. *)
Theorem token_in_sync_preserved :
  (∀ username password debug,
     keeps (Ring.__init__ server username password debug))
  ∧ (∀ attempts, keeps (Ring._authenticate server attempts))
  ∧ (∀ url attempts method raw extra_params,
       spares_token extra_params →
       keeps (Ring.query server url attempts method raw extra_params))
  ∧ keeps Ring.has_subscription
  ∧ (∀ device_type, keeps (RingDevices.__devices server device_type))
  ∧ keeps (RingDevices.devices server)
  ∧ (∀ self, keeps (RingGeneric.update server self))
  ∧ (∀ name, keeps (RingChime.__init__ server name))
  ∧ (∀ name, keeps (RingDoorBell.__init__ server name))
  ∧ (∀ self v, keeps (RingChime.volume_setter server self v))
  ∧ (∀ self v, keeps (RingDoorBell.volume_setter server self v))
  ∧ (∀ self limit timezone,
       keeps (RingDoorBell.history server self limit timezone)).
Proof.
  repeat apply conj; intros.
  - apply keeps_init.
  - apply keeps_authenticate.
  - by apply keeps_query.
  - apply keeps_has_subscription.
  - apply keeps_devices_of.
  - apply keeps_devices.
  - apply keeps_update.
  - apply keeps_chime_init.
  - apply keeps_doorbell_init.
  - apply keeps_chime_volume.
  - apply keeps_doorbell_volume.
  - apply keeps_history.
Qed.

Lemma merged_given em p : em ≠ ∅ → merged (Some em) p = em ∪ p.
Proof.
  intros Hne. unfold merged, Ring.given. by rewrite bool_decide_eq_false_2.
Qed.

Lemma merged_absent extra_params p :
  Ring.given extra_params = false → merged extra_params p = p.
Proof. unfold merged. by intros ->. Qed.

Lemma merged_lookup_new extra_params p k v :
  default ∅ extra_params !! k = Some v → merged extra_params p !! k = Some v.
Proof.
  unfold merged, Ring.given. intros Hk.
  destruct extra_params as [em|]; [|done]. cbn in *.
  case_bool_decide as He; [by subst|]. cbn. by apply lookup_union_Some_l.
Qed.

Lemma merged_lookup_old extra_params p k :
  default ∅ extra_params !! k = None → merged extra_params p !! k = p !! k.
Proof.
  unfold merged. intros Hk. destruct (Ring.given extra_params); [|done].
  by apply lookup_union_r.
Qed.

(** C5, as amended.  On a session that holds the parameter set [p], a
    [query] with non-empty extra parameters [em] that logs in nowhere
    leaves the session
    with [em ∪ p] (the extra parameters first), and sent every request with
    it; a following [query] that logs in nowhere starts from that set: its
    requests and the session afterwards have every parameter of [em] that
    its own extra parameters do not name, and every one of its own.  A
    [query] without extra parameters ([None] or empty) that logs in nowhere
    sends [p] and leaves it unchanged. *)
Theorem extra_params_persist st p :
  params (ring st) = Some p →
  (∀ em url1 attempts1 method1 raw1 url2 attempts2 method2 raw2 extra2,
     em ≠ ∅ →
     ∃ evs1 evs2,
       net (Ring.query server url1 attempts1 method1 raw1 (Some em) st).2
       = net st ++ evs1
       ∧ net (Ring.query server url2 attempts2 method2 raw2 extra2
                (Ring.query server url1 attempts1 method1 raw1 (Some em) st).2).2
         = (net st ++ evs1) ++ evs2
       ∧ (no_login evs1 →
          params (ring (Ring.query server url1 attempts1 method1 raw1
                                   (Some em) st).2) = Some (em ∪ p)
          ∧ Forall (carries (em ∪ p)) evs1
          ∧ (no_login evs2 →
             ∃ q, params (ring (Ring.query server url2 attempts2 method2 raw2
                                   extra2
                                   (Ring.query server url1 attempts1 method1
                                               raw1 (Some em) st).2).2)
                  = Some q
                  ∧ Forall (carries q) evs2
                  ∧ (∀ k v, em !! k = Some v →
                            default ∅ extra2 !! k = None → q !! k = Some v)
                  ∧ (∀ k v, default ∅ extra2 !! k = Some v → q !! k = Some v)
                  ∧ (Ring.given extra2 = false → q = em ∪ p))))
  ∧ (∀ extra_params url attempts method raw,
       Ring.given extra_params = false →
       ∃ evs,
         net (Ring.query server url attempts method raw extra_params st).2
         = net st ++ evs
         ∧ (no_login evs →
            params (ring (Ring.query server url attempts method raw
                                     extra_params st).2) = Some p
            ∧ Forall (carries p) evs)).
Proof.
  intros Hp. split.
  - intros em url1 attempts1 method1 raw1 url2 attempts2 method2 raw2 extra2 Hne.
    destruct (query_merges server url1 attempts1 method1 raw1 (Some em) st p Hp)
      as (evs1 & Hnet1 & Hpost1).
    rewrite merged_given in Hpost1 by done.
    set (st1 := (Ring.query server url1 attempts1 method1 raw1 (Some em) st).2)
      in *.
    destruct (grows_query_loop server 0 None url2 method2 raw2 extra2 st1)
      as [_ _].
    assert (Hex : ∃ evs2,
      net (Ring.query server url2 attempts2 method2 raw2 extra2 st1).2
      = net st1 ++ evs2
      ∧ (no_login evs1 → no_login evs2 →
         params (ring (Ring.query server url2 attempts2 method2 raw2 extra2
                                  st1).2) = Some (merged extra2 (em ∪ p))
         ∧ Forall (carries (merged extra2 (em ∪ p))) evs2)).
    { destruct (params (ring st1)) as [q1|] eqn:Hq1.
      - destruct (query_merges server url2 attempts2 method2 raw2 extra2 st1 q1
                    Hq1) as (evs2 & Hnet2 & Hpost2).
        exists evs2. split; [done|]. intros Hno1 Hno2.
        destruct (Hpost1 Hno1) as [[= ->] _]. by apply Hpost2.
      - rewrite query_eq.
        assert (Hgrow : ∀ st', grows st1 st' → ∃ evs2,
          net st' = net st1 ++ evs2
          ∧ (no_login evs1 → no_login evs2 →
             params (ring st') = Some (merged extra2 (em ∪ p))
             ∧ Forall (carries (merged extra2 (em ∪ p))) evs2)).
        { intros st' [evs2 Hnet2]. exists evs2. split; [done|].
          intros Hno1 _. by destruct (Hpost1 Hno1). }
        apply Hgrow. destruct (debug (ring st1) && _).
        + pose proof (grows_authenticate server (S RETRY_TOKEN) None st1) as Hg.
          fold (Ring._authenticate server RETRY_TOKEN) in Hg.
          destruct (Ring._authenticate _ _ _) as [[a|e] st']; cbn [snd] in *;
            [|done].
          eapply grows_trans; [exact Hg|apply grows_query_loop].
        + apply grows_query_loop. }
    destruct Hex as (evs2 & Hnet2 & Hpost2).
    exists evs1, evs2. split; [done|]. split; [by rewrite Hnet2, Hnet1|].
    intros Hno1. destruct (Hpost1 Hno1) as [Hp1 Hall1].
    split; [done|]. split; [done|]. intros Hno2.
    destruct (Hpost2 Hno1 Hno2) as [Hp2 Hall2].
    exists (merged extra2 (em ∪ p)). split; [done|]. split; [done|].
    split; [|split].
    + intros k v Hk Hk2. rewrite merged_lookup_old by done.
      by apply lookup_union_Some_l.
    + intros k v Hk. by apply merged_lookup_new.
    + apply merged_absent.
  - intros extra_params url attempts method raw Hgiven.
    destruct (query_merges server url attempts method raw extra_params st p Hp)
      as (evs & Hnet & Hpost).
    rewrite merged_absent in Hpost by done. by exists evs.
Qed.

(** C6.  Both volume setters, on a value that is not an [int] instance or
    is outside the closed range of the device, return [False] and change
    nothing: the handle, the session and the network log are as before. *)
Theorem volume_setters_reject self v st :
  (isinstance_int v = false
   ∨ ¬ (CHIME_VOL_MIN ≤ int_of v ≤ CHIME_VOL_MAX) →
   RingChime.volume_setter server self v st = (Return (self, VBool false), st))
  ∧ (isinstance_int v = false
     ∨ ¬ (DOORBELL_VOL_MIN ≤ int_of v ≤ DOORBELL_VOL_MAX) →
     RingDoorBell.volume_setter server self v st
     = (Return (self, VBool false), st)).
Proof.
  split; intros Hv;
    [unfold RingChime.volume_setter|unfold RingDoorBell.volume_setter].
  - assert (isinstance_int v
            && ((CHIME_VOL_MIN <=? int_of v) && (int_of v <=? CHIME_VOL_MAX))
            = false) as ->; [|done].
    destruct Hv as [->|Hr]; [done|].
    apply andb_false_iff. right. apply not_true_iff_false. intros Hb.
    apply andb_true_iff in Hb as [H1 H2]. lia.
  - assert (isinstance_int v
            && ((DOORBELL_VOL_MIN <=? int_of v)
                && (int_of v <=? DOORBELL_VOL_MAX))
            = false) as ->; [|done].
    destruct Hv as [->|Hr]; [done|].
    apply andb_false_iff. right. apply not_true_iff_false. intros Hb.
    apply andb_true_iff in Hb as [H1 H2]. lia.
Qed.

(** C8, as amended.  A refresh that finds no entry with the handle's name
    in the family's list returns [None] and leaves the handle as it was
    (its descriptor unset, on a handle just made); every typed read
    accessor raises [AttributeError] on a handle whose descriptor is unset,
    and on a handle whose descriptor is a dict returns the field, [None]
    when the field is missing, without raising. *)
Theorem unmatched_refresh_and_accessors self :
  (∀ st d items st',
     Ring.query_default server devices_url st
     = (Return (Ring.Val (VDict d)), st') →
     assoc (RingGeneric.family self) d = Some (VList items) →
     absent (RingGeneric.name self) items →
     RingGeneric._get_attrs server self st = (Return (self, VNone), st'))
  ∧ (RingGeneric._attrs self = VNone →
     RingGeneric.account_id self = Raise AttributeError
     ∧ RingGeneric.address self = Raise AttributeError
     ∧ RingGeneric.firmware self = Raise AttributeError
     ∧ RingGeneric.id self = Raise AttributeError
     ∧ RingGeneric.latitude self = Raise AttributeError
     ∧ RingGeneric.longitude self = Raise AttributeError
     ∧ RingGeneric.kind self = Raise AttributeError
     ∧ RingGeneric.timezone self = Raise AttributeError)
  ∧ (∀ d, RingGeneric._attrs self = VDict d →
     RingGeneric.account_id self = Return (default VNone (assoc "id" d))
     ∧ RingGeneric.address self = Return (default VNone (assoc "address" d))
     ∧ RingGeneric.firmware self
       = Return (default VNone (assoc "firmware_version" d))
     ∧ RingGeneric.id self = Return (default VNone (assoc "device_id" d))
     ∧ RingGeneric.latitude self = Return (default VNone (assoc "latitude" d))
     ∧ RingGeneric.longitude self = Return (default VNone (assoc "longitude" d))
     ∧ RingGeneric.kind self = Return (default VNone (assoc "kind" d))
     ∧ RingGeneric.timezone self = Return (default VNone (assoc "time_zone" d))).
Proof.
  split; [|split].
  - intros st d items st'. apply get_attrs_absent.
  - unfold RingGeneric.account_id, RingGeneric.address, RingGeneric.firmware,
      RingGeneric.id, RingGeneric.latitude, RingGeneric.longitude,
      RingGeneric.kind, RingGeneric.timezone.
    by intros ->.
  - unfold RingGeneric.account_id, RingGeneric.address, RingGeneric.firmware,
      RingGeneric.id, RingGeneric.latitude, RingGeneric.longitude,
      RingGeneric.kind, RingGeneric.timezone.
    by intros d ->.
Qed.

(** C10.  [history] walks what [query] returned without looking at it: when
    the handle has a descriptor and the query returns [None], [history]
    raises, [TypeError] from the loop unless an unknown timezone name has
    raised before; in particular it raises when every request of the query
    is answered with a status other than 200, 204 and 401. *)
Theorem history_raises_on_null self limit timezone aid st :
  RingGeneric.account_id self = Return aid →
  (∀ st',
     Ring.query server (API_URI +:+ format URL_DOORBELL_HISTORY aid) RETRY_TOKEN
                "GET" false (Some {[ "limit" := VStr (pretty limit) ]}) st
     = (Return (Ring.Val VNone), st') →
     ∃ e, RingDoorBell.history server self limit timezone st = (Raise e, st')
          ∧ (e = TypeError ∨ e = UnknownTimeZoneError)
          ∧ (timezone = None → e = TypeError))
  ∧ (∀ p, stonewalls server → params (ring st) = Some p → settled (ring st) →
     ∃ e, (RingDoorBell.history server self limit timezone st).1 = Raise e).
Proof.
  intros Ha.
  assert (Hnull : ∀ st',
     Ring.query server (API_URI +:+ format URL_DOORBELL_HISTORY aid) RETRY_TOKEN
                "GET" false (Some {[ "limit" := VStr (pretty limit) ]}) st
     = (Return (Ring.Val VNone), st') →
     ∃ e, RingDoorBell.history server self limit timezone st = (Raise e, st')
          ∧ (e = TypeError ∨ e = UnknownTimeZoneError)
          ∧ (timezone = None → e = TypeError)).
  { intros st' Hq.
    rewrite (history_null server self limit timezone aid st st' Ha Hq).
    eexists. split; [reflexivity|]. cbn zeta. split.
    - case_bool_decide; [by left|]. destruct (timezone_ok _); auto.
    - by intros ->. }
  split; [exact Hnull|].
  intros p Hs Hp Hset.
  assert (Hget : sends "GET" = true) by reflexivity.
  destruct (Hnull _ (query_stonewalled _ _ _ _ _ _ p Hs Hget Hp Hset))
    as (e & -> & _).
  by exists e.
Qed.
End Claims.

(** * The claims on the sample servers *)

Section Examples.
#[local] Existing Instance sample_const.
#[local] Existing Instance sample_lib.

Lemma stonewalls_always code :
  code ≠ 200 → code ≠ 204 → code ≠ 401 → stonewalls (always code).
Proof. intros ??? h rq. by exists (Response code None). Qed.

Lemma decides_welcoming : decides welcoming.
Proof.
  intros h [url auth|] Hl; [|discriminate].
  exists (created sample_profile). split; [reflexivity|]. left.
  split; [reflexivity|]. exists sample_profile, (VStr "t0k3n"). done.
Defined.

Lemma settled_connected : settled (ring connected).
Proof. intros Hd. vm_compute in Hd. discriminate. Defined.

Lemma consistent_connected : consistent connected.
Proof.
  split.
  - intros p Hp. vm_compute in Hp. injection Hp as <-. reflexivity.
  - repeat constructor.
Defined.

(** C1, counterexample: a server that cannot be reached makes the
    constructor raise at the first login, with [is_connected] still [None];
    a 201 whose profile has no token leaves a connected session with the
    token [None]; a server that answers 200 lets the constructor return
    with the session disconnected. *)
Lemma construction_claim_fails :
  ¬ construction_claim unplugged "user" "secret" false offline
  ∧ ¬ construction_claim tokenless "user" "secret" false offline
  ∧ ¬ construction_claim (always 200) "user" "secret" false offline.
Proof.
  unfold construction_claim. cbn zeta. repeat apply conj.
  - intros [(E & _)|(_ & E & _)]; vm_compute in E; discriminate.
  - intros [(_ & _ & E)|((e & E) & _)]; vm_compute in E;
      [by apply E|discriminate].
  - intros [(_ & E & _)|((e & E) & _)]; vm_compute in E; discriminate.
Qed.

Lemma construction_connects_or_raises_witness :
  decides welcoming
  ∧ ∃ n,
      net (Ring.__init__ welcoming "user" "secret" false offline).2
      = net offline ++ replicate n
          (Event (Login (API_URI +:+ NEW_SESSION_ENDPOINT) ("user", "secret"))
                 VNone)
      ∧ (((Ring.__init__ welcoming "user" "secret" false offline).1 = Return tt
          ∧ (1 ≤ n ≤ S RETRY_TOKEN)%nat
          ∧ is_connected (ring (Ring.__init__ welcoming "user" "secret" false
                                              offline).2) = Some true
          ∧ token (ring (Ring.__init__ welcoming "user" "secret" false
                                       offline).2) ≠ VNone
          ∧ params (ring (Ring.__init__ welcoming "user" "secret" false
                                        offline).2)
            = Some (fresh_params
                      (token (ring (Ring.__init__ welcoming "user" "secret"
                                                  false offline).2))))
         ∨ (n = S RETRY_TOKEN
            ∧ is_connected (ring (Ring.__init__ welcoming "user" "secret" false
                                                offline).2) = Some false
            ∧ ∃ r, (Ring.__init__ welcoming "user" "secret" false offline).1
                   = Raise (HTTPError (status_code r))
                   ∧ error_status (status_code r)
                   ∧ welcoming ((sent <$> net offline)
                                ++ replicate RETRY_TOKEN
                                     (Login (API_URI +:+ NEW_SESSION_ENDPOINT)
                                            ("user", "secret")))
                               (Login (API_URI +:+ NEW_SESSION_ENDPOINT)
                                      ("user", "secret"))
                     = Answer r)).
Proof.
  split; [exact decides_welcoming|].
  apply (construction_connects_or_raises welcoming "user" "secret" false offline).
  exact decides_welcoming.
Defined.

(** C2, counterexample: under servers that never answer 200, 204 or 401,
    a debug session whose earlier re-login was refused logs in first and
    raises the HTTP error of that login; and a session whose constructor
    returned without a parameter set raises [TypeError] before any
    request. *)
Lemma query_exhaustion_can_raise :
  ¬ exhaustion_claim (always 500) "https://api.ring.com/clients_api/dings/active"
      stranded
  ∧ (Ring.query_default (always 500)
       "https://api.ring.com/clients_api/dings/active" stranded).1
    = Raise (HTTPError 500)
  ∧ ¬ exhaustion_claim (always 202)
        "https://api.ring.com/clients_api/dings/active" unready
  ∧ (Ring.query_default (always 202)
       "https://api.ring.com/clients_api/dings/active" unready).1
    = Raise TypeError.
Proof.
  repeat apply conj.
  - intros Hc. destruct Hc as [E _]; [by apply stonewalls_always|].
    vm_compute in E. discriminate.
  - vm_compute. reflexivity.
  - intros Hc. destruct Hc as [E _]; [by apply stonewalls_always|].
    vm_compute in E. discriminate.
  - vm_compute. reflexivity.
Qed.

Lemma query_exhaustion_returns_null_witness :
  stonewalls (always 500)
  ∧ sends "GET" = true
  ∧ params (ring connected) = Some (fresh_params (VStr "t0k3n"))
  ∧ settled (ring connected)
  ∧ Ring.query (always 500) "https://api.ring.com/clients_api/dings/active"
               RETRY_TOKEN "GET" false None connected
    = (Return (Ring.Val VNone),
       State (set_params (Some (merged None (fresh_params (VStr "t0k3n"))))
                         (ring connected))
             (net connected
              ++ replicate (S RETRY_TOKEN)
                   (Event (Call "GET"
                             "https://api.ring.com/clients_api/dings/active"
                             (username (ring connected),
                              password (ring connected))
                             (merged None (fresh_params (VStr "t0k3n"))))
                          (token (ring connected))))).
Proof.
  assert (Hs : stonewalls (always 500)).
  { intros h rq. exists (Response 500 None). cbn. repeat split; lia. }
  repeat apply conj;
    [exact Hs|reflexivity|reflexivity|exact settled_connected|].
  apply (query_exhaustion_returns_null (always 500));
    [exact Hs|reflexivity|reflexivity|exact settled_connected].
Defined.

Lemma query_retries_after_401_witness :
  (Ring.query renewing "https://api.ring.com/clients_api/ring_devices"
              3 "GET" false None connected).1
  = Return (Ring.Val sample_devices)
  ∧ (Ring.query renewing "https://api.ring.com/clients_api/chimes/11"
                3 "PUT" false (Some {[ "chime[settings][volume]" := VStr "5" ]})
                connected).1
    = Return (Ring.Val VNone)
  ∧ is_login <$> (sent <$> net
       (Ring.query renewing "https://api.ring.com/clients_api/ring_devices"
                   3 "GET" false None connected).2)
    = [true; false; true; false]
  ∧ is_connected (ring
       (Ring.query renewing "https://api.ring.com/clients_api/ring_devices"
                   3 "GET" false None connected).2) = Some true.
Proof.
  assert (Ha : (1 ≤ 3)%nat) by lia.
  destruct (query_retries_after_401 renewing
              "https://api.ring.com/clients_api/ring_devices" 3 "GET" false
              None connected (fresh_params (VStr "t0k3n"))
              (Response 401 None) (created sample_profile) sample_profile
              (Response 200 (Some sample_devices))
              Ha eq_refl settled_connected eq_refl eq_refl eq_refl eq_refl
              eq_refl eq_refl eq_refl (or_introl eq_refl))
    as (Hout & _ & Hget & _ & Hnet & Hconn & _).
  destruct (query_retries_after_401 renewing
              "https://api.ring.com/clients_api/chimes/11" 3 "PUT" false
              (Some {[ "chime[settings][volume]" := VStr "5" ]}) connected
              (fresh_params (VStr "t0k3n"))
              (Response 401 None) (created sample_profile) sample_profile
              (Response 200 (Some sample_devices))
              Ha eq_refl settled_connected eq_refl eq_refl eq_refl eq_refl
              eq_refl eq_refl eq_refl (or_introl eq_refl))
    as (Hput & _ & _ & Hnone & _).
  split; [by rewrite Hout, (Hget eq_refl eq_refl)|].
  split; [rewrite Hput; by apply Hnone|].
  split; [|exact Hconn].
  rewrite Hnet. reflexivity.
Defined.

(** C3, counterexample: on a debug session that its constructor left
    disconnected, [query] logs in before its first pass, then meets the 401
    and logs in again: two logins, not one.  On a session without a
    parameter set [query] raises [TypeError] and sends nothing. *)
Lemma query_retry_can_login_twice :
  is_login <$> (sent <$> drop (length (net wary))
       (net (Ring.query_default renewing
               "https://api.ring.com/clients_api/ring_devices" wary).2))
  = [true; false; true; false]
  ∧ ¬ retry_claim renewing "https://api.ring.com/clients_api/ring_devices" wary
  ∧ (Ring.query_default renewing
       "https://api.ring.com/clients_api/ring_devices" unready).1
    = Raise TypeError
  ∧ ¬ retry_claim renewing "https://api.ring.com/clients_api/ring_devices"
        unready.
Proof.
  unfold retry_claim. cbn zeta. repeat apply conj.
  - vm_compute. reflexivity.
  - intros (_ & E & _). vm_compute in E. discriminate.
  - vm_compute. reflexivity.
  - intros (E & _). vm_compute in E. discriminate.
Qed.

(** C4, counterexample: extra parameters that name [auth_token] replace the
    token of the parameter set, and the stored token stays. *)
Lemma extra_params_can_break_sync :
  in_sync (ring connected)
  ∧ ¬ sync_claim welcoming "https://api.ring.com/clients_api/ring_devices"
        (Some forged) connected.
Proof.
  split; [exact (proj1 consistent_connected)|].
  intros Hc. specialize (Hc (proj1 consistent_connected)).
  unfold in_sync in Hc. vm_compute in Hc.
  specialize (Hc _ eq_refl). discriminate.
Qed.

Lemma token_in_sync_preserved_witness :
  consistent connected
  ∧ spares_token (Some {[ "limit" := VStr "30" ]})
  ∧ consistent (Ring.query welcoming
                  "https://api.ring.com/clients_api/doorbots/history/12"
                  RETRY_TOKEN "GET" false (Some {[ "limit" := VStr "30" ]})
                  connected).2
  ∧ consistent (RingDoorBell.volume_setter welcoming front (VInt 5) connected).2.
Proof.
  destruct (token_in_sync_preserved welcoming)
    as (_ & _ & Hq & _ & _ & _ & _ & _ & _ & _ & Hv & _).
  split; [exact consistent_connected|]. split; [reflexivity|]. split.
  - assert (Hsp : spares_token (Some {[ "limit" := VStr "30" ]}))
      by reflexivity.
    exact (Hq _ _ _ _ _ Hsp connected consistent_connected).
  - exact (Hv front (VInt 5) connected consistent_connected).
Defined.

Lemma extra_params_persist_witness :
  params (ring connected) = Some (fresh_params (VStr "t0k3n"))
  ∧ params (ring (Ring.query welcoming
                    "https://api.ring.com/clients_api/doorbots/history/12"
                    RETRY_TOKEN "GET" false
                    (Some {[ "limit" := VStr "5" ]}) connected).2)
    = Some ({[ "limit" := VStr "5" ]} ∪ fresh_params (VStr "t0k3n"))
  ∧ ∃ q,
      params (ring (Ring.query welcoming
                      "https://api.ring.com/clients_api/ring_devices"
                      RETRY_TOKEN "GET" false None
                      (Ring.query welcoming
                         "https://api.ring.com/clients_api/doorbots/history/12"
                         RETRY_TOKEN "GET" false
                         (Some {[ "limit" := VStr "5" ]}) connected).2).2)
      = Some q
      ∧ q !! "limit" = Some (VStr "5")
      ∧ q = {[ "limit" := VStr "5" ]} ∪ fresh_params (VStr "t0k3n").
Proof.
  split; [reflexivity|].
  destruct (extra_params_persist welcoming connected
              (fresh_params (VStr "t0k3n")) eq_refl) as [W _].
  assert (Hne : ({[ "limit" := VStr "5" ]} : gmap string value) ≠ ∅)
    by apply insert_non_empty.
  destruct (W {[ "limit" := VStr "5" ]}
              "https://api.ring.com/clients_api/doorbots/history/12"
              RETRY_TOKEN "GET" false
              "https://api.ring.com/clients_api/ring_devices"
              RETRY_TOKEN "GET" false None Hne)
    as (evs1 & evs2 & Hnet1 & Hnet2 & Hpost).
  assert (Hc1 :
    net (Ring.query welcoming
           "https://api.ring.com/clients_api/doorbots/history/12"
           RETRY_TOKEN "GET" false (Some {[ "limit" := VStr "5" ]}) connected).2
    = net connected
      ++ [call_event "GET"
            "https://api.ring.com/clients_api/doorbots/history/12"
            ({[ "limit" := VStr "5" ]} ∪ fresh_params (VStr "t0k3n"))
            (ring connected)])
    by (vm_compute; reflexivity).
  pose proof (eq_trans (eq_sym Hnet1) Hc1) as E1.
  apply app_inv_head in E1. subst evs1.
  assert (Hc2 :
    net (Ring.query welcoming
           "https://api.ring.com/clients_api/ring_devices"
           RETRY_TOKEN "GET" false None
           (Ring.query welcoming
              "https://api.ring.com/clients_api/doorbots/history/12"
              RETRY_TOKEN "GET" false (Some {[ "limit" := VStr "5" ]})
              connected).2).2
    = (net connected
       ++ [call_event "GET"
             "https://api.ring.com/clients_api/doorbots/history/12"
             ({[ "limit" := VStr "5" ]} ∪ fresh_params (VStr "t0k3n"))
             (ring connected)])
      ++ [call_event "GET" "https://api.ring.com/clients_api/ring_devices"
            ({[ "limit" := VStr "5" ]} ∪ fresh_params (VStr "t0k3n"))
            (ring connected)])
    by (vm_compute; reflexivity).
  pose proof (eq_trans (eq_sym Hnet2) Hc2) as E2.
  apply app_inv_head in E2. subst evs2.
  assert (Hno1 : no_login
            [call_event "GET"
               "https://api.ring.com/clients_api/doorbots/history/12"
               ({[ "limit" := VStr "5" ]} ∪ fresh_params (VStr "t0k3n"))
               (ring connected)])
    by (repeat constructor).
  assert (Hno2 : no_login
            [call_event "GET" "https://api.ring.com/clients_api/ring_devices"
               ({[ "limit" := VStr "5" ]} ∪ fresh_params (VStr "t0k3n"))
               (ring connected)])
    by (repeat constructor).
  destruct (Hpost Hno1) as (Hp1 & _ & Hnext).
  split; [exact Hp1|].
  destruct (Hnext Hno2) as (q & Hq & _ & Hkeep & _ & Hsame).
  exists q. split; [exact Hq|]. split.
  - apply (Hkeep "limit" (VStr "5")); reflexivity.
  - by apply Hsame.
Defined.

(** C5, counterexample: a session whose constructor returned without a 201
    has no parameter set; a [query] with extra parameters raises
    [AttributeError] at the merge, sends nothing, and the session still has
    no parameter set. *)
Lemma extra_params_need_a_parameter_set :
  Ring.query welcoming "https://api.ring.com/clients_api/doorbots/history/12"
             RETRY_TOKEN "GET" false (Some {[ "limit" := VStr "5" ]}) unready
  = (Raise AttributeError, unready)
  ∧ params (ring unready) = None
  ∧ ¬ merge_claim welcoming
        "https://api.ring.com/clients_api/doorbots/history/12"
        {[ "limit" := VStr "5" ]} unready.
Proof.
  repeat apply conj.
  - vm_compute. reflexivity.
  - reflexivity.
  - intros Hc. destruct Hc as (q & Hq & _); [apply insert_non_empty|].
    vm_compute in Hq. discriminate.
Qed.

Lemma volume_setters_reject_witness :
  RingChime.volume_setter welcoming front (VInt 11) connected
  = (Return (front, VBool false), connected)
  ∧ RingDoorBell.volume_setter welcoming front (VStr "5") connected
    = (Return (front, VBool false), connected).
Proof.
  split.
  - apply (volume_setters_reject welcoming front (VInt 11) connected).
    right. cbn. lia.
  - apply (volume_setters_reject welcoming front (VStr "5") connected).
    left. reflexivity.
Defined.

(** C7, the failing input: the device list is a dict without the key
    ['chimes']; the listing raises [TypeError] where the claim has it return
    an empty list. *)
Theorem chimes_without_key_raises :
  Ring.query_default chimeless devices_url connected
  = (Return (Ring.Val (VDict [("doorbots", VList [])])),
     (Ring.query_default chimeless devices_url connected).2)
  ∧ (RingDevices.chimes chimeless connected).1 = Raise TypeError.
Proof. split; vm_compute; reflexivity. Qed.

(** The other half of C7 holds: a query that returns [None] gives the empty
    list. *)
Lemma chimes_after_null :
  (Ring.query_default (always 500) devices_url connected).1
  = Return (Ring.Val VNone)
  ∧ (RingDevices.chimes (always 500) connected).1 = Return [].
Proof. split; vm_compute; reflexivity. Qed.

(** C8, counterexample: a chime handle made for a name that is not in the
    list keeps its descriptor unset, and its accessors raise. *)
Lemma accessor_raises_on_unset_descriptor :
  (RingChime.__init__ welcoming (VStr "Kitchen") connected).1 = Return nameless
  ∧ RingGeneric.account_id nameless = Raise AttributeError
  ∧ ¬ accessors_claim nameless.
Proof.
  repeat apply conj; [vm_compute; reflexivity|reflexivity|].
  intros Hc. destruct Hc as (E & _); [reflexivity|].
  vm_compute in E. discriminate.
Qed.

Lemma unmatched_refresh_and_accessors_witness :
  RingGeneric._get_attrs welcoming nameless connected
  = (Return (nameless, VNone), (Ring.query_default welcoming devices_url connected).2)
  ∧ RingGeneric._attrs nameless = VNone
  ∧ RingGeneric.timezone nameless = Raise AttributeError
  ∧ RingGeneric._attrs front
    = VDict [("description", VStr "Front"); ("id", VInt 12)]
  ∧ RingGeneric.account_id front = Return (VInt 12)
  ∧ RingGeneric.timezone front = Return VNone.
Proof.
  destruct (unmatched_refresh_and_accessors welcoming nameless)
    as (Hrefresh & Hunset & _).
  destruct (unmatched_refresh_and_accessors welcoming front)
    as (_ & _ & Hdict).
  repeat apply conj.
  - apply (Hrefresh connected
             [("chimes", VList [VDict [("description", VStr "Hall");
                                       ("id", VInt 11)]]);
              ("doorbots", VList [VDict [("description", VStr "Front");
                                         ("id", VInt 12)]])]
             [VDict [("description", VStr "Hall"); ("id", VInt 11)]]).
    + vm_compute. reflexivity.
    + reflexivity.
    + constructor; [|constructor]. exists (VStr "Hall"). split; reflexivity.
  - reflexivity.
  - apply Hunset. reflexivity.
  - reflexivity.
  - apply (Hdict [("description", VStr "Front"); ("id", VInt 12)]). reflexivity.
  - apply (Hdict [("description", VStr "Front"); ("id", VInt 12)]). reflexivity.
Defined.

Lemma construction_without_201_witness :
  shrugs (always 200)
  ∧ Ring.__init__ (always 200) "user" "secret" false offline
    = (Return tt,
       State (mkRing VNone (Some false) VNone VNone None false "user" "secret")
             (net offline
              ++ replicate (S RETRY_TOKEN)
                   (Event (Login (API_URI +:+ NEW_SESSION_ENDPOINT)
                                 ("user", "secret")) VNone))).
Proof.
  assert (Hs : shrugs (always 200)).
  { intros h rq _. exists (Response 200 None). unfold error_status. cbn.
    repeat split; lia. }
  split; [exact Hs|].
  apply (construction_without_201 (always 200) "user" "secret" false offline).
  exact Hs.
Defined.

Lemma history_raises_on_null_witness :
  RingGeneric.account_id front = Return (VInt 12)
  ∧ ∃ e, RingDoorBell.history (always 500) front 30 None connected
         = (Raise e,
            (Ring.query (always 500)
               (API_URI +:+ format URL_DOORBELL_HISTORY (VInt 12)) RETRY_TOKEN
               "GET" false (Some {[ "limit" := VStr (pretty 30) ]}) connected).2)
         ∧ (e = TypeError ∨ e = UnknownTimeZoneError)
         ∧ (@None string = None → e = TypeError).
Proof.
  split; [reflexivity|].
  apply (history_raises_on_null (always 500) front 30 None (VInt 12) connected);
    [reflexivity|].
  vm_compute. reflexivity.
Defined.
End Examples.

(** * Further properties *)

(** ** Logins, attempt by attempt *)

Section LoginAttempts.
Context `{Const} (server : transport).

Lemma put_off_shift h rq k :
  put_off server h rq (S k) → put_off server (h ++ [rq]) rq k.
Proof.
  intros Hp i Hi. destruct (Hp (S i)) as (r & Hr & Hs); [lia|].
  exists r. split; [|done]. by rewrite <- app_assoc.
Qed.

(** After [k] logins that were put off, the loop is at its next login. *)
Lemma authenticate_loop_put_off left req st k :
  (k < left)%nat →
  put_off server (sent <$> net st) (login_request (ring st)) k →
  Ring.authenticate_loop server left req st =
  let st' :=
    State (ring st) (net st ++ replicate (S k) (login_event (ring st))) in
  match server ((sent <$> net st) ++ replicate k (login_request (ring st)))
               (login_request (ring st)) with
  | Broken => (Raise ConnectionError, st')
  | Answer r =>
      if status_code r =? 201 then
        match profile_of r with
        | Return p =>
            (Return (VBool true), State (logged_in p (ring st)) (net st'))
        | Raise e => (Raise e, st')
        end
      else Ring.authenticate_loop server (left - S k) (Some r) st'
  end.
Proof.
  revert left req st. induction k as [|k IH]; intros left req st Hk Hp.
  - destruct left as [|left]; [lia|]. rewrite authenticate_loop_S.
    cbn [replicate]. rewrite app_nil_r.
    replace (S left - 1)%nat with left by lia. reflexivity.
  - destruct left as [|left]; [lia|]. rewrite authenticate_loop_S. cbn zeta.
    destruct (Hp 0%nat) as (r0 & Hr0 & Hs0); [lia|].
    cbn [replicate] in Hr0. rewrite app_nil_r in Hr0. rewrite Hr0.
    apply Z.eqb_neq in Hs0. rewrite Hs0.
    rewrite (IH left (Some r0) (after_send (login_request (ring st)) st));
      [|lia|].
    + cbn [after_send ring net]. rewrite fmap_app. cbn [fmap list_fmap sent].
      rewrite <- !app_assoc. cbn [app replicate Nat.sub]. reflexivity.
    + cbn [after_send ring net]. rewrite fmap_app. cbn [fmap list_fmap sent].
      by apply put_off_shift.
Qed.

(** X1.  [_authenticate] stops at the first login that is answered 201:
    when the first [k] logins are answered with another status and the
    next one with 201 and a profile, with [k] within the retry count, the
    call returns [True] after exactly [k + 1] login requests, none of them
    a call, and the session holds the features, the id and the token of
    that profile, is marked connected, and has the parameter set made of
    the API version and that token. *)
Theorem login_stops_at_first_201 attempts st k r p :
  (k ≤ attempts)%nat →
  put_off server (sent <$> net st) (login_request (ring st)) k →
  server ((sent <$> net st) ++ replicate k (login_request (ring st)))
         (login_request (ring st)) = Answer r →
  status_code r = 201 →
  profile_of r = Return p →
  Ring._authenticate server attempts st =
  (Return (VBool true),
   State (mkRing (default VNone (assoc "features" p)) (Some true)
                 (default VNone (assoc "id" p))
                 (default VNone (assoc "authentication_token" p))
                 (Some {[ "api_version" := API_VERSION;
                          "auth_token" :=
                            default VNone (assoc "authentication_token" p) ]})
                 (debug (ring st)) (username (ring st)) (password (ring st)))
         (net st ++ replicate (S k) (login_event (ring st)))).
Proof.
  intros Hk Hp Hr Hs Hprof. unfold Ring._authenticate.
  rewrite (authenticate_loop_put_off _ _ _ k) by (done || lia).
  cbn zeta. by rewrite Hr, Hs, Hprof.
Qed.

(** X2.  A login that fails outright is not retried.  When the first [k]
    logins are answered without a 201 and the next one meets a transport
    error, [_authenticate] raises [ConnectionError] after [k + 1] requests;
    when the next one is answered 201 with a body that has no profile
    object, it raises the error of reading it, [ValueError] or
    [AttributeError], after [k + 1] requests.  In both cases the session
    is left as it was: neither the token nor [is_connected] is touched. *)
Theorem login_error_is_not_retried attempts st k :
  (k ≤ attempts)%nat →
  put_off server (sent <$> net st) (login_request (ring st)) k →
  (server ((sent <$> net st) ++ replicate k (login_request (ring st)))
          (login_request (ring st)) = Broken →
   Ring._authenticate server attempts st =
   (Raise ConnectionError,
    State (ring st) (net st ++ replicate (S k) (login_event (ring st)))))
  ∧ (∀ r e,
       server ((sent <$> net st) ++ replicate k (login_request (ring st)))
              (login_request (ring st)) = Answer r →
       status_code r = 201 → profile_of r = Raise e →
       Ring._authenticate server attempts st =
       (Raise e,
        State (ring st) (net st ++ replicate (S k) (login_event (ring st))))
       ∧ (e = ValueError ∨ e = AttributeError)).
Proof.
  intros Hk Hp. split.
  - intros Hr. unfold Ring._authenticate.
    rewrite (authenticate_loop_put_off _ _ _ k) by (done || lia).
    cbn zeta. by rewrite Hr.
  - intros r e Hr Hs Hprof. split.
    + unfold Ring._authenticate.
      rewrite (authenticate_loop_put_off _ _ _ k) by (done || lia).
      cbn zeta. by rewrite Hr, Hs, Hprof.
    + unfold profile_of in Hprof.
      destruct (json r) as [[]|]; try (injection Hprof as <-; auto; fail).
      destruct (assoc "profile" d) as [[]|];
        try (injection Hprof as <-; auto; fail). discriminate.
Qed.
End LoginAttempts.

(** ** Queries, pass by pass *)

Section QueryPasses.
Context `{Const} (server : transport).

(** A query whose first request is answered with 200 or 204 stops there. *)
Lemma query_answered url attempts method raw extra_params st p r :
  params (ring st) = Some p → settled (ring st) → sends method = true →
  server (sent <$> net st)
         (call_request method url (merged extra_params p) (ring st))
  = Answer r →
  status_code r = 200 ∨ status_code r = 204 →
  Ring.query server url attempts method raw extra_params st
  = (delivered method raw r,
     State (set_params (Some (merged extra_params p)) (ring st))
           (net st ++ [call_event method url (merged extra_params p) (ring st)])).
Proof.
  intros Hp Hset Hm Hr Hs. rewrite settled_query by done.
  rewrite (query_loop_S _ _ _ _ _ _ _ _ p) by done. cbn zeta.
  rewrite Hr, follow_delivered by done. reflexivity.
Qed.

Lemma follow_shape left r url method raw extra_params st x :
  last_answer server st method url r →
  (∀ req st,
     (Ring.query_loop server left req url method raw extra_params st).1
     = Return x →
     x = Ring.Val VNone
     ∨ ∃ r, last_answer server
              (Ring.query_loop server left req url method raw extra_params st).2
              method url r
            ∧ (status_code r = 200 ∨ status_code r = 204)
            ∧ delivered method raw r = Return x) →
  (follow server left r url method raw extra_params st).1 = Return x →
  x = Ring.Val VNone
  ∨ ∃ r', last_answer server
            (follow server left r url method raw extra_params st).2
            method url r'
          ∧ (status_code r' = 200 ∨ status_code r' = 204)
          ∧ delivered method raw r' = Return x.
Proof.
  intros Hr IH. unfold follow.
  destruct (status_code r =? 401) eqn:E401.
  { destruct (Ring._authenticate _ _ _) as [[a|e] st']; [|discriminate].
    intros Hx. exact (IH (Some r) st' Hx). }
  destruct ((status_code r =? 200) || (status_code r =? 204)) eqn:E.
  - intros Hx. right. exists r.
    assert (Hd : delivered method raw r = Return x).
    { revert Hx. unfold delivered. destruct raw; [done|].
      case_bool_decide; [|done]. by destruct (json r). }
    split; [|split; [|exact Hd]].
    + revert Hx. destruct raw; [done|].
      case_bool_decide; [|done]. by destruct (json r).
    + apply orb_true_iff in E as [E|E]; apply Z.eqb_eq in E; auto.
  - intros Hx. exact (IH (Some r) st Hx).
Qed.

Lemma query_loop_shape left req url method raw extra_params st x :
  sends method = true →
  (Ring.query_loop server left req url method raw extra_params st).1 = Return x →
  x = Ring.Val VNone
  ∨ ∃ r, last_answer server
           (Ring.query_loop server left req url method raw extra_params st).2
           method url r
         ∧ (status_code r = 200 ∨ status_code r = 204)
         ∧ delivered method raw r = Return x.
Proof.
  intros Hm. revert req st. induction left as [|left IH]; intros req st.
  { cbn. intros [= <-]. by left. }
  rewrite query_loop_step, Hm.
  destruct (params (ring st)) as [p|].
  - cbn zeta. destruct (server _ _) as [r|] eqn:Hr; [|discriminate].
    apply follow_shape; [|exact IH].
    eexists (net st), _, _, _. split; [reflexivity|exact Hr].
  - by destruct (Ring.given extra_params).
Qed.

(** With another method than GET, PUT and POST the loop does not return. *)
Lemma query_loop_idle left url method raw extra_params st x :
  sends method = false →
  (Ring.query_loop server (S left) None url method raw extra_params st).1
  ≠ Return x.
Proof.
  intros Hm. rewrite query_loop_step, Hm.
  destruct (params (ring st)) as [p|]; [done|].
  by destruct (Ring.given extra_params).
Qed.

(** X3.  What [query] can return.  Whenever it returns, the result is
    [None], or the last request of the run is a call with the method and
    the URL of the query that the server answered with 200 or 204, and the
    result is taken from that answer: with [raw] it is that response
    object; without [raw] and with [GET] it is the JSON body of that
    answer; without [raw] and with another method it is always [None], so
    a successful [PUT] or [POST] cannot be told from an exhausted one by
    the result. *)
Theorem query_returns_none_or_an_answer url attempts method raw extra_params
    st x :
  (Ring.query server url attempts method raw extra_params st).1 = Return x →
  (x = Ring.Val VNone
   ∨ ∃ r, last_answer server
            (Ring.query server url attempts method raw extra_params st).2
            method url r
          ∧ (status_code r = 200 ∨ status_code r = 204)
          ∧ delivered method raw r = Return x)
  ∧ (raw = false → method ≠ "GET" → x = Ring.Val VNone)
  ∧ (raw = false → method = "GET" →
     x = Ring.Val VNone
     ∨ ∃ r v, last_answer server
                (Ring.query server url attempts method raw extra_params st).2
                method url r
              ∧ (status_code r = 200 ∨ status_code r = 204)
              ∧ json r = Some v ∧ x = Ring.Val v)
  ∧ (raw = true →
     x = Ring.Val VNone
     ∨ ∃ r, last_answer server
              (Ring.query server url attempts method raw extra_params st).2
              method url r
            ∧ (status_code r = 200 ∨ status_code r = 204)
            ∧ x = Ring.Raw r).
Proof.
  intros Hx.
  assert (Hshape : x = Ring.Val VNone
    ∨ ∃ r, last_answer server
             (Ring.query server url attempts method raw extra_params st).2
             method url r
           ∧ (status_code r = 200 ∨ status_code r = 204)
           ∧ delivered method raw r = Return x).
  { revert Hx. rewrite query_eq. destruct (sends method) eqn:Hm.
    - destruct (debug (ring st) && _).
      + destruct (Ring._authenticate _ _ _) as [[a|e] st']; [|discriminate].
        by apply query_loop_shape.
      + by apply query_loop_shape.
    - destruct (debug (ring st) && _).
      + destruct (Ring._authenticate _ _ _) as [[a|e] st']; [|discriminate].
        intros Hx. by apply query_loop_idle in Hx.
      + intros Hx. by apply query_loop_idle in Hx. }
  split; [exact Hshape|].
  unfold delivered in Hshape. repeat apply conj.
  - intros -> Hm. destruct Hshape as [?|(r & _ & _ & Hd)]; [done|].
    rewrite bool_decide_eq_false_2 in Hd by done. by injection Hd as <-.
  - intros -> ->. destruct Hshape as [?|(r & Ha & Hs & Hd)]; [by left|].
    rewrite bool_decide_eq_true_2 in Hd by done.
    destruct (json r) as [v|] eqn:Hj; [|discriminate].
    injection Hd as <-. right. by exists r, v.
  - intros ->. destruct Hshape as [?|(r & Ha & Hs & Hd)]; [by left|].
    injection Hd as <-. right. by exists r.
Qed.

Lemma login_events_counted (ev : event) evs :
  is_login (sent ev) = true → Forall (λ e, e = ev) evs →
  calls evs = [] ∧ logins evs = evs.
Proof.
  intros Hl Hall. unfold calls, logins.
  induction Hall as [|e evs -> _ [IH1 IH2]]; [done|].
  rewrite !filter_cons. rewrite decide_False, decide_True by (by rewrite ?Hl).
  by rewrite IH1, IH2.
Qed.

Lemma authenticate_counted left req st :
  ∃ evs, net (Ring.authenticate_loop server left req st).2 = net st ++ evs
         ∧ calls evs = [] ∧ (length (logins evs) ≤ left)%nat.
Proof.
  destruct (authenticate_loop_frame server left req st)
    as (evs & Hnet & Hlen & _ & Hall & _).
  exists evs. split; [done|].
  destruct (login_events_counted
              (Event (login_request (ring st)) (token (ring st))) evs
              eq_refl Hall) as [-> ->]. done.
Qed.

Lemma calls_app evs1 evs2 : calls (evs1 ++ evs2) = calls evs1 ++ calls evs2.
Proof. apply filter_app. Qed.

Lemma logins_app evs1 evs2 : logins (evs1 ++ evs2) = logins evs1 ++ logins evs2.
Proof. apply filter_app. Qed.

Lemma follow_counted left r url method raw extra_params st :
  (∀ req st,
     ∃ evs, net (Ring.query_loop server left req url method raw
                                 extra_params st).2 = net st ++ evs
            ∧ (length (calls evs) ≤ left)%nat
            ∧ (length (logins evs) ≤ left * S RETRY_TOKEN)%nat) →
  ∃ evs, net (follow server left r url method raw extra_params st).2
         = net st ++ evs
         ∧ (length (calls evs) ≤ left)%nat
         ∧ (length (logins evs) ≤ S left * S RETRY_TOKEN)%nat.
Proof.
  intros IH. unfold follow.
  assert (Hstay : ∃ evs, net st = net st ++ evs
            ∧ (length (calls evs) ≤ left)%nat
            ∧ (length (logins evs) ≤ S left * S RETRY_TOKEN)%nat).
  { exists []. rewrite app_nil_r. cbn. split; [done|]. lia. }
  assert (Hloop : ∀ req, ∃ evs,
            net (Ring.query_loop server left req url method raw
                                 extra_params st).2 = net st ++ evs
            ∧ (length (calls evs) ≤ left)%nat
            ∧ (length (logins evs) ≤ S left * S RETRY_TOKEN)%nat).
  { intros req. destruct (IH req st) as (evs & Hnet & Hc & Hl).
    exists evs. split; [done|]. split; [done|]. lia. }
  destruct (status_code r =? 401).
  - destruct (authenticate_counted (S RETRY_TOKEN) None (disconnected st))
      as (evs0 & Hnet0 & Hc0 & Hl0).
    fold (Ring._authenticate server RETRY_TOKEN) in Hnet0.
    destruct (Ring._authenticate _ _ _) as [[a|e] st']; cbn [snd] in *.
    + destruct (IH (Some r) st') as (evs & Hnet & Hc & Hl).
      exists (evs0 ++ evs). rewrite Hnet, Hnet0, app_assoc.
      rewrite calls_app, logins_app, !length_app, Hc0. cbn [length disconnected net].
      split; [done|]. split; lia.
    + exists evs0. rewrite Hnet0, Hc0. cbn [length disconnected net].
      split; [done|]. split; lia.
  - destruct (_ || _); [|apply Hloop].
    destruct raw; [done|]. case_bool_decide; [by destruct (json r)|done].
Qed.

Lemma query_loop_counted left req url method raw extra_params st :
  ∃ evs, net (Ring.query_loop server left req url method raw
                              extra_params st).2 = net st ++ evs
         ∧ (length (calls evs) ≤ left)%nat
         ∧ (length (logins evs) ≤ left * S RETRY_TOKEN)%nat.
Proof.
  revert req st. induction left as [|left IH]; intros req st.
  { exists []. cbn. rewrite app_nil_r. split; [done|]. lia. }
  assert (Hstay : ∀ q, ∃ evs, net (with_params q st) = net st ++ evs
            ∧ (length (calls evs) ≤ S left)%nat
            ∧ (length (logins evs) ≤ S left * S RETRY_TOKEN)%nat).
  { intros q. exists []. cbn. rewrite app_nil_r. split; [done|]. lia. }
  assert (Hst : ∃ evs, net st = net st ++ evs
            ∧ (length (calls evs) ≤ S left)%nat
            ∧ (length (logins evs) ≤ S left * S RETRY_TOKEN)%nat).
  { exists []. cbn. rewrite app_nil_r. split; [done|]. lia. }
  assert (Hfollow : ∀ r st', net st' = net st →
            ∃ evs, net (follow server left r url method raw extra_params st').2
                   = net st ++ evs
                   ∧ (length (calls evs) ≤ S left)%nat
                   ∧ (length (logins evs) ≤ S left * S RETRY_TOKEN)%nat).
  { intros r st' Hsame.
    destruct (follow_counted left r url method raw extra_params st' IH)
      as (evs & Hnet & Hc & Hl).
    exists evs. rewrite Hnet, Hsame. split; [done|]. split; lia. }
  rewrite query_loop_step.
  destruct (params (ring st)) as [p|].
  - cbn zeta. destruct (sends method).
    + set (rq := call_request method url (merged extra_params p) (ring st)).
      set (st1 := after_send rq (with_params (merged extra_params p) st)).
      assert (Hev : ∀ evs, calls (Event rq (token (ring st)) :: evs)
                           = Event rq (token (ring st)) :: calls evs
                           ∧ logins (Event rq (token (ring st)) :: evs)
                             = logins evs).
      { intros evs. unfold calls, logins. rewrite !filter_cons.
        by rewrite decide_True, decide_False by done. }
      destruct (server _ _) as [r|].
      * destruct (follow_counted left r url method raw extra_params st1 IH)
          as (evs & Hnet & Hc & Hl).
        exists (Event rq (token (ring st)) :: evs). rewrite Hnet.
        destruct (Hev evs) as [-> ->]. cbn. rewrite <- app_assoc.
        split; [done|]. split; lia.
      * exists [Event rq (token (ring st))].
        destruct (Hev []) as [-> ->]. cbn. split; [done|]. split; lia.
    + destruct req as [r|]; [by apply Hfollow|apply Hstay].
  - destruct (Ring.given extra_params); [apply Hst|].
    destruct (sends method); [apply Hst|].
    destruct req as [r|]; [by apply Hfollow|apply Hst].
Qed.

(** X4.  [query] sends a bounded number of requests, however the server
    answers and however the call ends: at most [attempts + 1] calls, and at
    most [(attempts + 2) * (RETRY_TOKEN + 1)] logins (one round of logins
    before the first pass in debug mode, one after each 401); the log only
    grows.  With a method other than GET, PUT and POST no call is sent. *)
Theorem query_sends_boundedly url attempts method raw extra_params st :
  ∃ evs,
    net (Ring.query server url attempts method raw extra_params st).2
    = net st ++ evs
    ∧ (length (calls evs) ≤ S attempts)%nat
    ∧ (length (logins evs) ≤ (S attempts + 1) * S RETRY_TOKEN)%nat
    ∧ (sends method = false → calls evs = []).
Proof.
  assert (Hidle : sends method = false → ∀ left req st evs,
    net (Ring.query_loop server left req url method raw extra_params st).2
    = net st ++ evs → calls evs = []).
  { intros Hm left. induction left as [|left IH]; intros req st' evs.
    { cbn. intros Hnet. rewrite <- (app_nil_r (net st')) in Hnet at 1.
      by apply app_inv_head in Hnet as <-. }
    assert (Hfollow : ∀ r st'', net st'' = net st' →
      net (follow server left r url method raw extra_params st'').2
      = net st' ++ evs → calls evs = []).
    { intros r st'' Hsame. unfold follow.
      assert (Hnone : net st'' = net st' ++ evs → calls evs = []).
      { rewrite Hsame. intros Hnet.
        rewrite <- (app_nil_r (net st')) in Hnet at 1.
        by apply app_inv_head in Hnet as <-. }
      destruct (status_code r =? 401).
      - destruct (authenticate_counted (S RETRY_TOKEN) None (disconnected st''))
          as (evs0 & Hnet0 & Hc0 & _).
        fold (Ring._authenticate server RETRY_TOKEN) in Hnet0.
        destruct (Ring._authenticate _ _ _) as [[a|e] st3]; cbn [snd] in *.
        + destruct (grows_query_loop server left (Some r) url method raw
                      extra_params st3) as [evs1 Hnet1].
          rewrite Hnet1, Hnet0. cbn [disconnected net]. rewrite Hsame.
          rewrite <- app_assoc. intros Heq. apply app_inv_head in Heq as <-.
          rewrite calls_app, Hc0. cbn.
          apply (IH (Some r) st3 evs1 Hnet1).
        + rewrite Hnet0. cbn [disconnected net]. rewrite Hsame.
          intros Heq. by apply app_inv_head in Heq as <-.
      - destruct (_ || _).
        + destruct raw; [done|]. case_bool_decide; [by destruct (json r)|done].
        + destruct (grows_query_loop server left (Some r) url method raw
                      extra_params st'') as [evs1 Hnet1].
          rewrite Hnet1, Hsame. intros Heq. apply app_inv_head in Heq as <-.
          apply (IH (Some r) st'' evs1 Hnet1). }
    assert (Hnone : ∀ st'', net st'' = net st' →
      net st'' = net st' ++ evs → calls evs = []).
    { intros st'' Hsame Hnet. rewrite Hsame in Hnet.
      rewrite <- (app_nil_r (net st')) in Hnet at 1.
      by apply app_inv_head in Hnet as <-. }
    rewrite query_loop_step, Hm.
    destruct (params (ring st')) as [p|].
    - cbn zeta. destruct req as [r|]; [by apply Hfollow|by apply Hnone].
    - destruct (Ring.given extra_params); [by apply Hnone|].
      destruct req as [r|]; [by apply Hfollow|by apply Hnone]. }
  rewrite query_eq. destruct (debug (ring st) && _).
  - destruct (authenticate_counted (S RETRY_TOKEN) None st)
      as (evs0 & Hnet0 & Hc0 & Hl0).
    fold (Ring._authenticate server RETRY_TOKEN) in Hnet0.
    destruct (Ring._authenticate _ _ _) as [[a|e] st']; cbn [snd] in *.
    + destruct (query_loop_counted (S attempts) None url method raw
                  extra_params st') as (evs & Hnet & Hc & Hl).
      exists (evs0 ++ evs). rewrite Hnet, Hnet0, app_assoc.
      rewrite calls_app, logins_app, !length_app, Hc0. cbn [length app].
      split; [done|]. split; [done|]. split; [lia|].
      intros Hm. by apply (Hidle Hm (S attempts) None st').
    + exists evs0. rewrite Hc0. cbn [length]. split; [done|].
      split; [lia|]. split; [lia|done].
  - destruct (query_loop_counted (S attempts) None url method raw
                extra_params st) as (evs & Hnet & Hc & Hl).
    exists evs. split; [done|]. split; [done|]. split; [lia|].
    intros Hm. by apply (Hidle Hm (S attempts) None st).
Qed.
End QueryPasses.

Section QueryFailures.
Context `{Const} (server : transport).

(** X5.  A transport error in [query] is not retried: on a session that
    holds a parameter set and is not at once in debug mode and marked
    disconnected, when the first call meets one, [query] raises
    [ConnectionError] after that single request, with the extra parameters
    already merged into the session. *)
Theorem query_transport_error_is_not_retried url attempts method raw
    extra_params st p :
  params (ring st) = Some p → settled (ring st) → sends method = true →
  server (sent <$> net st)
         (call_request method url (merged extra_params p) (ring st))
  = Broken →
  Ring.query server url attempts method raw extra_params st
  = (Raise ConnectionError,
     State (set_params (Some (merged extra_params p)) (ring st))
           (net st ++ [call_event method url (merged extra_params p) (ring st)])).
Proof.
  intros Hp Hset Hm Hr. rewrite settled_query by done.
  rewrite (query_loop_S _ _ _ _ _ _ _ _ p) by done. cbn zeta.
  by rewrite Hr.
Qed.

(** X6.  On a session that is not at once in debug mode and marked
    disconnected, [query] with a method other than GET, PUT and POST never
    returns: the first pass reads the response it never made and raises
    [UnboundLocalError] before any request is sent, the extra parameters
    already merged into the session; on a session without a parameter set
    the merge itself raises [AttributeError] when extra parameters are
    given. *)
Theorem query_unknown_method_raises url attempts method raw extra_params st :
  settled (ring st) → sends method = false →
  Ring.query server url attempts method raw extra_params st
  = match params (ring st) with
    | Some p =>
        (Raise UnboundLocalError,
         State (set_params (Some (merged extra_params p)) (ring st)) (net st))
    | None =>
        (Raise (if Ring.given extra_params then AttributeError
                else UnboundLocalError), st)
    end.
Proof.
  intros Hset Hm. rewrite settled_query by done.
  rewrite query_loop_step, Hm.
  destruct (params (ring st)) as [p|]; [done|].
  by destruct (Ring.given extra_params).
Qed.

Lemma stalled_shift h rq k :
  stalled server h rq (S k) → stalled server (h ++ [rq]) rq k.
Proof.
  intros Hp i Hi. destruct (Hp (S i)) as (r & Hr & Hs); [lia|].
  exists r. split; [|done]. by rewrite <- app_assoc.
Qed.

(** After [k] passes that were answered with neither 200, 204 nor 401,
    the loop is at its next call. *)
Lemma query_loop_stalled left req url method raw extra_params st q k :
  sends method = true →
  params (ring st) = Some q → merged extra_params q = q →
  (k < left)%nat →
  stalled server (sent <$> net st) (call_request method url q (ring st)) k →
  Ring.query_loop server left req url method raw extra_params st =
  let st' :=
    State (ring st)
          (net st ++ replicate (S k) (call_event method url q (ring st))) in
  match server ((sent <$> net st)
                ++ replicate k (call_request method url q (ring st)))
               (call_request method url q (ring st)) with
  | Broken => (Raise ConnectionError, st')
  | Answer r => follow server (left - S k) r url method raw extra_params st'
  end.
Proof.
  intros Hm. revert left req st.
  induction k as [|k IH]; intros left req st Hq Hidem Hk Hp.
  - destruct left as [|left]; [lia|].
    rewrite (query_loop_S _ _ _ _ _ _ _ _ q) by done. cbn zeta.
    rewrite Hidem, with_params_same by done.
    cbn [replicate]. rewrite app_nil_r.
    replace (S left - 1)%nat with left by lia. reflexivity.
  - destruct left as [|left]; [lia|].
    rewrite (query_loop_S _ _ _ _ _ _ _ _ q) by done. cbn zeta.
    rewrite Hidem, with_params_same by done.
    destruct (Hp 0%nat) as (r0 & Hr0 & H200 & H204 & H401); [lia|].
    cbn [replicate] in Hr0. rewrite app_nil_r in Hr0. rewrite Hr0.
    unfold follow at 1.
    apply Z.eqb_neq in H200, H204, H401. rewrite H200, H204, H401. cbn [orb].
    rewrite (IH left (Some r0)
               (after_send (call_request method url q (ring st)) st));
      [|done|done|lia|].
    + cbn [after_send ring net]. rewrite fmap_app. cbn [fmap list_fmap sent].
      rewrite <- !app_assoc. cbn [app replicate Nat.sub]. reflexivity.
    + cbn [after_send ring net]. rewrite fmap_app. cbn [fmap list_fmap sent].
      by apply stalled_shift.
Qed.

(** X7.  On a session that holds a parameter set and is not at once in
    debug mode and marked disconnected: when a call of [query] is answered
    401 (the calls before it, [k] of them, having been answered with
    neither 200, 204 nor 401) and the server refuses every login with an
    error status, [query] marks the session disconnected, sends
    [RETRY_TOKEN + 1] logins and raises the [HTTPError] of the answer to
    the last of them to its caller; it sends no further call. *)
Theorem query_relogin_refused url attempts method raw extra_params st p k r1 :
  params (ring st) = Some p → settled (ring st) → sends method = true →
  (k ≤ attempts)%nat →
  stalled server (sent <$> net st)
          (call_request method url (merged extra_params p) (ring st)) k →
  server ((sent <$> net st)
          ++ replicate k
               (call_request method url (merged extra_params p) (ring st)))
         (call_request method url (merged extra_params p) (ring st))
  = Answer r1 →
  status_code r1 = 401 →
  refuses server →
  ∃ r,
    server ((sent <$> net st)
            ++ replicate (S k)
                 (call_request method url (merged extra_params p) (ring st))
            ++ replicate RETRY_TOKEN (login_request (ring st)))
           (login_request (ring st))
    = Answer r
    ∧ error_status (status_code r)
    ∧ Ring.query server url attempts method raw extra_params st
      = (Raise (HTTPError (status_code r)),
         State (set_is_connected (Some false)
                  (set_params (Some (merged extra_params p)) (ring st)))
               (net st
                ++ replicate (S k)
                     (call_event method url (merged extra_params p) (ring st))
                ++ replicate (S RETRY_TOKEN) (login_event (ring st)))).
Proof.
  intros Hp Hset Hm Hk Hstall Hr1 Hs1 Href.
  assert (Hdec : decides server).
  { intros h rq Hl. destruct (Href h rq Hl) as (r & Hr & He).
    exists r. split; [done|]. by right. }
  set (q := merged extra_params p) in *.
  assert (Hcall : call_request method url q
                    (ring (with_params q st))
                  = call_request method url q (ring st))
    by (unfold with_params; cbn; by destruct (ring st)).
  assert (Hev : call_event method url q (ring (with_params q st))
                = call_event method url q (ring st))
    by (unfold with_params; cbn; by destruct (ring st)).
  rewrite settled_query by done.
  rewrite (query_loop_premerged _ _ _ _ _ _ _ _ p) by done. fold q.
  rewrite (query_loop_stalled _ _ _ _ _ _ (with_params q st) q k);
    [|done|done|apply merged_idem|lia|by rewrite Hcall].
  cbn zeta. rewrite Hcall, Hev. cbn [with_params ring net].
  rewrite Hr1. unfold follow. rewrite Hs1. cbn [Z.eqb Pos.eqb].
  set (st1 := disconnected _).
  destruct (authenticate_loop_decided server (S RETRY_TOKEN) None st1 Hdec)
    as (n & Hnet & Hcase); [done|done|].
  pose proof (authenticate_loop_true server (S RETRY_TOKEN) None st1) as Htrue.
  fold (Ring._authenticate server RETRY_TOKEN) in Hnet, Hcase, Htrue.
  destruct (Ring._authenticate server RETRY_TOKEN st1) as [o st2].
  cbn [fst snd] in *.
  destruct Hcase as [(-> & _)|(-> & Hring & r & -> & He & Hlast)].
  - destruct (Htrue eq_refl) as (h & rq & r & Hl & Hr & Hs).
    destruct (Href h rq Hl) as (r' & Hr' & He').
    rewrite Hr in Hr'. injection Hr' as <-.
    unfold error_status in He'. lia.
  - exists r. split; [|split; [done|]].
    + revert Hlast. unfold st1, disconnected. cbn [ring net].
      rewrite fmap_app, fmap_replicate. cbn [sent call_event].
      unfold login_request. cbn. rewrite <- app_assoc.
      by destruct (ring st).
    + f_equal.
      destruct st2 as [ring2 net2]. cbn [ring net] in *. subst ring2 net2.
      unfold st1, disconnected, login_event, login_request.
      cbn. rewrite <- app_assoc. by destruct (ring st).
Qed.

(** The two answers of a server whose token never holds: calls get [r401],
    logins get [r201]. *)
Lemma query_loop_expiring left req url method raw extra_params st p0
    r401 r201 p :
  sends method = true →
  steady server r401 → status_code r401 = 401 →
  (∀ h rq, is_login rq = true → server h rq = Answer r201) →
  status_code r201 = 201 → profile_of r201 = Return p →
  params (ring st) = Some p0 →
  ∃ evs,
    Ring.query_loop server left req url method raw extra_params st
    = (Return (Ring.Val VNone),
       State (match left with
              | O => ring st
              | S _ => logged_in p (ring st)
              end)
             (net st ++ evs))
    ∧ length (calls evs) = left ∧ length (logins evs) = left.
Proof.
  intros Hm Hcall H401 Hlogin H201 Hprof.
  revert req st p0. induction left as [|left IH]; intros req st p0 Hp0.
  { exists []. cbn. rewrite app_nil_r. by destruct st. }
  rewrite (query_loop_S _ _ _ _ _ _ _ _ p0) by done. cbn zeta.
  rewrite Hcall by done. unfold follow. rewrite H401. cbn [Z.eqb Pos.eqb].
  unfold Ring._authenticate. rewrite authenticate_loop_S. cbn zeta.
  rewrite Hlogin by done. rewrite H201. cbn [Z.eqb Pos.eqb]. rewrite Hprof.
  set (st3 := State _ _).
  destruct (IH (Some r401) st3 (fresh_params
              (default VNone (assoc "authentication_token" p))))
    as (evs & -> & Hc & Hl); [done|].
  eexists (_ :: _ :: evs). split.
  - f_equal. f_equal.
    + destruct left; reflexivity.
    + unfold st3. cbn. rewrite <- !app_assoc. reflexivity.
  - unfold calls, logins in *. rewrite !filter_cons.
    cbn [sent is_login call_request login_request].
    rewrite !decide_True, !decide_False by done.
    rewrite decide_True by done.
    cbn [length]. by rewrite Hc, Hl.
Qed.

(** X8.  On a session that holds a parameter set and is not at once in
    debug mode and marked disconnected, under a server that answers every
    call with 401 and lets every login in, [query] gives up after
    [attempts + 1] passes: it has sent [attempts + 1] calls and as many
    logins, returns [None], and leaves the session logged in with the last
    profile. *)
Theorem query_gives_up_on_expiring_tokens url attempts method raw
    extra_params st p0 r401 r201 p :
  params (ring st) = Some p0 → settled (ring st) → sends method = true →
  steady server r401 → status_code r401 = 401 →
  (∀ h rq, is_login rq = true → server h rq = Answer r201) →
  status_code r201 = 201 → profile_of r201 = Return p →
  ∃ evs,
    Ring.query server url attempts method raw extra_params st
    = (Return (Ring.Val VNone),
       State (logged_in p (ring st)) (net st ++ evs))
    ∧ length (calls evs) = S attempts ∧ length (logins evs) = S attempts.
Proof.
  intros Hp0 Hset Hm Hcall H401 Hlogin H201 Hprof.
  rewrite settled_query by done.
  by apply (query_loop_expiring (S attempts) None url method raw extra_params
              st p0 r401 r201 p).
Qed.
End QueryFailures.

(** ** Refresh and the directory under a steady server *)

Section SteadyDevices.
Context `{Const} `{Lib} (server : transport).






(** A [query(url)] under a steady server. *)
Lemma query_default_steady url st p r v :
  params (ring st) = Some p → settled (ring st) →
  steady server r → status_code r = 200 ∨ status_code r = 204 →
  json r = Some v →
  Ring.query_default server url st
  = (Return (Ring.Val v),
     State (ring st) (net st ++ [call_event "GET" url p (ring st)])).
Proof.
  intros Hp Hset Hst Hs Hj. unfold Ring.query_default.
  rewrite (query_answered server url RETRY_TOKEN "GET" false None st p r);
    try done; [|by apply Hst].
  unfold delivered. rewrite bool_decide_eq_true_2 by done. rewrite Hj.
  unfold merged. cbn. by rewrite set_params_same.
Qed.

(** A refresh, by what the query gives. *)
Lemma update_refreshed self st v st' :
  Ring.query_default server devices_url st = (Return (Ring.Val v), st') →
  RingGeneric.update server self st = (refreshed v self, st').
Proof.
  intros Hq. unfold RingGeneric.update. unfold mbind, M_bind.
  rewrite get_attrs_eq, Hq. unfold refreshed. cbn [RingGeneric.result_get].
  destruct (py_get v _) as [lst|[]]; try reflexivity.
  destruct (_locator lst _ _) as [index|[]]; try reflexivity.
  destruct (index =? NOT_FOUND); [reflexivity|].
  destruct (py_index lst index); reflexivity.
Qed.

Lemma refreshed_idem v self h :
  refreshed v self = Return h → refreshed v h = Return h.
Proof.
  unfold refreshed.
  destruct (py_get v (RingGeneric.family self)) as [lst|e] eqn:Hl.
  - destruct (_locator lst "description" (RingGeneric.name self))
      as [index|e] eqn:Hi.
    + destruct (index =? NOT_FOUND) eqn:Hn.
      * intros [= <-]. by rewrite Hl, Hi, Hn.
      * destruct (py_index lst index) as [d|] eqn:Hd; [|discriminate].
        intros [= <-]. cbn. by rewrite Hl, Hi, Hn, Hd.
    + destruct e; try discriminate. intros [= <-]. by rewrite Hl, Hi.
  - destruct e; try discriminate. intros [= <-]. by rewrite Hl.
Qed.

(** X9.  A refresh is idempotent under a steady server: on a session that
    holds a parameter set and is not at once in debug mode and marked
    disconnected, when every call is answered with the same device list, a
    second [update] right after a first one yields the same handle; the
    two cost one GET each and leave the session as it was. *)
Theorem refresh_is_idempotent self st p r v h st1 :
  params (ring st) = Some p → settled (ring st) →
  steady server r → status_code r = 200 ∨ status_code r = 204 →
  json r = Some v →
  RingGeneric.update server self st = (Return h, st1) →
  RingGeneric.update server h st1
  = (Return h,
     State (ring st)
           (net st ++ replicate 2 (call_event "GET" devices_url p (ring st)))).
Proof.
  intros Hp Hset Hst Hs Hj.
  rewrite (update_refreshed self st v _
             (query_default_steady devices_url st p r v Hp Hset Hst Hs Hj)).
  intros [= Hh <-].
  set (st1 := State (ring st)
                (net st ++ [call_event "GET" devices_url p (ring st)])).
  rewrite (update_refreshed h st1 v _
             (query_default_steady devices_url st1 p r v Hp Hset Hst Hs Hj)).
  rewrite (refreshed_idem v self h Hh). cbn. by rewrite <- app_assoc.
Qed.

Lemma locate_find items v index :
  Forall described items →
  match find (λ x, matching v x) items with
  | None => locate items "description" v index = Return NOT_FOUND
  | Some d =>
      ∃ k, locate items "description" v index = Return (index + Z.of_nat k)
           ∧ items !! k = Some d
  end.
Proof.
  intros Hall. revert index.
  induction Hall as [|d items [x Hx] _ IH]; intros index; [done|].
  cbn [find locate]. unfold matching at 1. rewrite Hx. cbn.
  destruct (py_eq x v).
  - exists 0%nat. split; [|done].
    f_equal. lia.
  - specialize (IH (index + 1)).
    destruct (find _ items) as [d'|]; [|done].
    destruct IH as (k & -> & Hk). exists (S k). split; [|done].
    f_equal. lia.
Qed.

(** With a list of described entries, a refresh takes the first entry of
    the handle's name, and leaves the handle alone when there is none. *)
Lemma refreshed_find dd items self :
  assoc (RingGeneric.family self) dd = Some (VList items) →
  Forall described items → NOT_FOUND < 0 →
  refreshed (VDict dd) self
  = Return (match find (λ x, matching (RingGeneric.name self) x) items with
            | Some d => RingGeneric.set_attrs d self
            | None => self
            end).
Proof.
  intros Hfam Hall Hneg. unfold refreshed. cbn. rewrite Hfam. cbn.
  unfold _locator. cbn.
  pose proof (locate_find items (RingGeneric.name self) 0 Hall) as Hloc.
  destruct (find _ items) as [d|].
  - destruct Hloc as (k & -> & Hk).
    assert ((0 + Z.of_nat k =? NOT_FOUND) = false) as ->
      by (apply Z.eqb_neq; lia).
    assert ((0 <=? 0 + Z.of_nat k) = true) as -> by (apply Z.leb_le; lia).
    assert ((0 + Z.of_nat k <? 0) = false) as -> by (apply Z.ltb_ge; lia).
    replace (Z.to_nat (0 + Z.of_nat k)) with k by lia. by rewrite Hk.
  - rewrite Hloc. by rewrite Z.eqb_refl.
Qed.

(** A refresh under a steady server that answers a device list. *)
Lemma update_steady self st p r dd items :
  params (ring st) = Some p → settled (ring st) →
  steady server r → status_code r = 200 ∨ status_code r = 204 →
  json r = Some (VDict dd) →
  assoc (RingGeneric.family self) dd = Some (VList items) →
  Forall described items → NOT_FOUND < 0 →
  RingGeneric.update server self st
  = (Return (match find (λ x, matching (RingGeneric.name self) x) items with
             | Some d => RingGeneric.set_attrs d self
             | None => self
             end),
     State (ring st) (net st ++ [call_event "GET" devices_url p (ring st)])).
Proof.
  intros Hp Hset Hst Hs Hj Hfam Hall Hneg.
  rewrite (update_refreshed self st (VDict dd) _
             (query_default_steady devices_url st p r _ Hp Hset Hst Hs Hj)).
  by rewrite (refreshed_find dd items self).
Qed.

Lemma find_first {A} (f : A → bool) (l : list A) (d : A) :
  find f l = Some d →
  ∃ k, l !! k = Some d ∧ f d = true
       ∧ ∀ j d', (j < k)%nat → l !! j = Some d' → f d' = false.
Proof.
  induction l as [|x l IH]; [done|]. cbn [find].
  destruct (f x) eqn:Hx.
  - intros [= <-]. exists 0%nat. repeat split; [done|]. intros; lia.
  - intros Hf. destruct (IH Hf) as (k & Hk & Hd & Hbefore).
    exists (S k). repeat split; [done..|].
    intros [|j] d' Hj Hl; cbn in Hl.
    + by injection Hl as <-.
    + apply (Hbefore j); [lia|done].
Qed.

(** X10.  A refresh takes the first entry of the handle's name.  On a
    session that holds a parameter set and is not at once in debug mode and
    marked disconnected, under a server that answers every call with a
    device list whose family list has described entries, [update] sends
    one GET and either replaces the descriptor, whole, by the entry at a
    position [k] whose description equals the handle's name while no entry
    before [k] has that description, or, when no entry has it, leaves the
    handle as it was. *)
Theorem refresh_takes_first_match self st p r dd items :
  params (ring st) = Some p → settled (ring st) →
  steady server r → status_code r = 200 ∨ status_code r = 204 →
  json r = Some (VDict dd) →
  assoc (RingGeneric.family self) dd = Some (VList items) →
  Forall described items → NOT_FOUND < 0 →
  ∃ found,
    RingGeneric.update server self st
    = (Return (match found with
               | Some k => RingGeneric.set_attrs (default VNone (items !! k)) self
               | None => self
               end),
       State (ring st) (net st ++ [call_event "GET" devices_url p (ring st)]))
    ∧ match found with
      | Some k =>
          (∃ d, items !! k = Some d ∧ matching (RingGeneric.name self) d = true)
          ∧ (∀ j d, (j < k)%nat → items !! j = Some d →
               matching (RingGeneric.name self) d = false)
      | None =>
          ∀ d, d ∈ items → matching (RingGeneric.name self) d = false
      end.
Proof.
  intros Hp Hset Hst Hs Hj Hfam Hall Hneg.
  rewrite (update_steady self st p r dd items) by done.
  destruct (find (λ x, matching (RingGeneric.name self) x) items) as [d|]
    eqn:Hf.
  - destruct (find_first _ _ _ Hf) as (k & Hk & Hm & Hbefore).
    exists (Some k). rewrite Hk. cbn [default]. split; [done|].
    split; [by exists d|done].
  - exists None. split; [done|]. intros d Hin.
    apply list_elem_of_In in Hin. apply (find_none _ _ Hf d Hin).
Qed.
End SteadyDevices.

Section SteadyDirectory.
Context `{Const} `{Lib} (server : transport).









End SteadyDirectory.

(** ** The setters *)

Section Setters.
Context `{Const} `{Lib} `{MoreConst} `{Builtins} (server : transport).

Lemma settled_set_params q r : settled r → settled (set_params q r).
Proof. by destruct r. Qed.

Lemma call_event_set_params method url q q' r :
  call_event method url q (set_params q' r) = call_event method url q r.
Proof. by destruct r. Qed.

Lemma bundle_non_empty (k1 k2 : string) (a b : value) :
  ({[ k1 := a; k2 := b ]} : gmap string value) ≠ ∅.
Proof. apply insert_non_empty. Qed.


(** The common end of the setters under a server that stonewalls. *)
Lemma write_stonewalled self url em st p :
  params (ring st) = Some p → settled (ring st) →
  stonewalls server → em ≠ ∅ →
  (Ring.query server url RETRY_TOKEN "PUT" false (Some em);;
   self' ← RingGeneric.update server self;
   mret (self', VBool true)) st
  = unwritten self em p url st.
Proof.
  intros Hp Hset Hst Hne. unfold mbind at 1, M_bind at 1.
  rewrite (query_stonewalled server url RETRY_TOKEN "PUT" false (Some em) st p)
    by done.
  rewrite merged_given by done.
  set (st1 := State (set_params (Some (em ∪ p)) (ring st)) _).
  unfold mbind at 1, M_bind at 1. unfold RingGeneric.update.
  unfold mbind at 1, M_bind at 1. rewrite get_attrs_eq.
  unfold Ring.query_default.
  rewrite (query_stonewalled server devices_url RETRY_TOKEN "GET" false None
             st1 (em ∪ p));
    try done;
    try (subst st1; cbn [ring];
         first [by destruct (ring st) | by apply settled_set_params]).
  cbn [RingGeneric.result_get py_get]. unfold unwritten. subst st1.
  cbn [ring net mret M_ret]. rewrite merged_absent by done.
  rewrite call_event_set_params, <- app_assoc.
  by destruct (ring st).
Qed.

Lemma in_range lo hi v :
  isinstance_int v = true → lo ≤ int_of v ≤ hi →
  negb (isinstance_int v && ((lo <=? int_of v) && (int_of v <=? hi))) = false.
Proof.
  intros -> [Hlo Hhi]. cbn.
  apply Z.leb_le in Hlo as ->. by apply Z.leb_le in Hhi as ->.
Qed.


(** X13.  The setters report success without looking at the write.  On a
    session that holds a parameter set and is not at once in debug mode and
    marked disconnected, under a server that answers no call with 200, 204
    or 401, each of the five setters, on a value it accepts, spends
    [RETRY_TOKEN + 1] PUTs and [RETRY_TOKEN + 1] GETs, leaves the handle as
    it was, and returns [True] all the same. *)
Theorem setters_report_success_unchecked self x st p aid :
  params (ring st) = Some p → settled (ring st) →
  stonewalls server →
  RingGeneric.account_id self = Return aid →
  (isinstance_int x = true → CHIME_VOL_MIN ≤ int_of x ≤ CHIME_VOL_MAX →
   RingChime.volume_setter server self x st
   = unwritten self
       {[ "chime[description]" := RingGeneric.name self;
          "chime[settings][volume]" := VStr (py_str x) ]} p
       (API_URI +:+ format CHIMES_ENDPOINT aid) st)
  ∧ (isinstance_int x = true →
     DOORBELL_VOL_MIN ≤ int_of x ≤ DOORBELL_VOL_MAX →
     RingDoorBell.volume_setter server self x st
     = unwritten self
         {[ "doorbot[description]" := RingGeneric.name self;
            "doorbot[settings][doorbell_volume]" := VStr (py_str x) ]} p
         (API_URI +:+ format DOORBELLS_ENDPOINT aid) st)
  ∧ (py_in_keys x DOORBELL_EXISTING_TYPE = Return true →
     RingDoorBell.existing_doorbell_type_setter server self x st
     = unwritten self
         {[ "doorbot[description]" := RingGeneric.name self;
            "doorbot[settings][chime_settings][type]" := x ]} p
         (API_URI +:+ format DOORBELLS_ENDPOINT aid) st)
  ∧ (∀ t, RingDoorBell.chime_setting self "type" = Return t →
          py_eq t (VInt 2) = false → isinstance_bool x = true →
     RingDoorBell.existing_doorbell_type_enabled_setter server self x st
     = unwritten self
         {[ "doorbot[description]" := RingGeneric.name self;
            "doorbot[settings][chime_settings][enable]" := x ]} p
         (API_URI +:+ format DOORBELLS_ENDPOINT aid) st)
  ∧ (∀ t, RingDoorBell.chime_setting self "type" = Return t →
          py_eq t (VInt 1) = true → isinstance_int x = true →
          DOORBELL_VOL_MIN ≤ int_of x ≤ DOORBELL_VOL_MAX →
     RingDoorBell.existing_doorbell_type_duration_setter server self x st
     = unwritten self
         {[ "doorbot[description]" := RingGeneric.name self;
            "doorbot[settings][chime_settings][duration]" := x ]} p
         (API_URI +:+ format DOORBELLS_ENDPOINT aid) st).
Proof.
  intros Hp Hset Hst Haid. repeat apply conj.
  - intros Hi Hr. unfold RingChime.volume_setter.
    rewrite in_range by done. unfold mbind at 1, M_bind at 1, lift.
    rewrite Haid. apply write_stonewalled; try done; apply bundle_non_empty.
  - intros Hi Hr. unfold RingDoorBell.volume_setter.
    rewrite in_range by done. unfold mbind at 1, M_bind at 1, lift.
    rewrite Haid. apply write_stonewalled; try done; apply bundle_non_empty.
  - intros Hk. unfold RingDoorBell.existing_doorbell_type_setter.
    unfold mbind at 1, M_bind at 1, lift. rewrite Hk. cbn [negb].
    unfold mbind at 1, M_bind at 1. rewrite Haid.
    apply write_stonewalled; try done; apply bundle_non_empty.
  - intros t Ht Hne Hb.
    unfold RingDoorBell.existing_doorbell_type_enabled_setter.
    unfold mbind at 1, M_bind at 1, lift. rewrite Ht, Hne, Hb. cbn [negb].
    unfold mbind at 1, M_bind at 1. rewrite Haid.
    apply write_stonewalled; try done; apply bundle_non_empty.
  - intros t Ht Heq Hi Hr.
    unfold RingDoorBell.existing_doorbell_type_duration_setter.
    rewrite in_range by done.
    unfold mbind at 1, M_bind at 1, lift. rewrite Ht, Heq. cbn [negb].
    unfold mbind at 1, M_bind at 1. rewrite Haid.
    apply write_stonewalled; try done; apply bundle_non_empty.
Qed.
End Setters.

(** ** What a refusing setter leaves alone *)

Section Refusals.
Context `{Const} `{Lib} `{MoreConst} `{Builtins} (server : transport).

(** The common end of the setters returns [True] or raises. *)
Lemma write_true self url em st h b st' :
  (Ring.query server url RETRY_TOKEN "PUT" false (Some em);;
   self' ← RingGeneric.update server self;
   mret (self', VBool true)) st
  = (Return (h, b), st') →
  b = VBool true.
Proof.
  unfold mbind at 1, M_bind at 1.
  destruct (Ring.query _ _ _ _ _ _ st) as [[q|e] st1]; [|discriminate].
  unfold mbind at 1, M_bind at 1.
  destruct (RingGeneric.update _ _ st1) as [[s|e] st2]; [|discriminate].
  by intros [= _ <- _].
Qed.

(** X14.  A setter that returns anything but [True] has sent nothing:
    whenever one of the five setters returns a result other than [True],
    the handle, the session and the network log are as before, and the
    result is [False], or for the duration setter [False] or [None]. *)
Theorem setters_refuse_before_sending self x st h b st' :
  b ≠ VBool true →
  (RingChime.volume_setter server self x st = (Return (h, b), st')
   → h = self ∧ st' = st ∧ b = VBool false)
  ∧ (RingDoorBell.volume_setter server self x st = (Return (h, b), st')
     → h = self ∧ st' = st ∧ b = VBool false)
  ∧ (RingDoorBell.existing_doorbell_type_setter server self x st
     = (Return (h, b), st')
     → h = self ∧ st' = st ∧ b = VBool false)
  ∧ (RingDoorBell.existing_doorbell_type_enabled_setter server self x st
     = (Return (h, b), st')
     → h = self ∧ st' = st ∧ b = VBool false)
  ∧ (RingDoorBell.existing_doorbell_type_duration_setter server self x st
     = (Return (h, b), st')
     → h = self ∧ st' = st ∧ (b = VBool false ∨ b = VNone)).
Proof.
  intros Hb. repeat apply conj.
  - unfold RingChime.volume_setter. destruct (negb _).
    + by intros [= <- <- <-].
    + unfold mbind at 1, M_bind at 1, lift.
      destruct (RingGeneric.account_id self) as [aid|e]; [|discriminate].
      intros Hw. by apply write_true in Hw.
  - unfold RingDoorBell.volume_setter. destruct (negb _).
    + by intros [= <- <- <-].
    + unfold mbind at 1, M_bind at 1, lift.
      destruct (RingGeneric.account_id self) as [aid|e]; [|discriminate].
      intros Hw. by apply write_true in Hw.
  - unfold RingDoorBell.existing_doorbell_type_setter.
    unfold mbind at 1, M_bind at 1, lift.
    destruct (py_in_keys x DOORBELL_EXISTING_TYPE) as [[|]|e];
      [|by intros [= <- <- <-]|discriminate].
    cbn [negb]. unfold mbind at 1, M_bind at 1.
    destruct (RingGeneric.account_id self) as [aid|e]; [|discriminate].
    intros Hw. by apply write_true in Hw.
  - unfold RingDoorBell.existing_doorbell_type_enabled_setter.
    unfold mbind at 1, M_bind at 1, lift.
    destruct (RingDoorBell.chime_setting self "type") as [t|e];
      [|discriminate].
    destruct (py_eq t (VInt 2)); [by intros [= <- <- <-]|].
    destruct (negb _); [by intros [= <- <- <-]|].
    unfold mbind at 1, M_bind at 1.
    destruct (RingGeneric.account_id self) as [aid|e]; [|discriminate].
    intros Hw. by apply write_true in Hw.
  - unfold RingDoorBell.existing_doorbell_type_duration_setter.
    destruct (negb _); [intros [= <- <- <-]; auto|].
    unfold mbind at 1, M_bind at 1, lift.
    destruct (RingDoorBell.chime_setting self "type") as [t|e];
      [|discriminate].
    destruct (negb _); [intros [= <- <- <-]; auto|].
    unfold mbind at 1, M_bind at 1.
    destruct (RingGeneric.account_id self) as [aid|e]; [|discriminate].
    intros Hw. by apply write_true in Hw.
Qed.
End Refusals.

(** ** The invariant, through the remaining operations *)

Section InSyncMore.
Context `{Const} `{Lib} `{MoreConst} `{Builtins} (server : transport).

Ltac keeps_more :=
  lazymatch goal with
  | |- keeps (mret _) => apply keeps_ret
  | |- keeps (raise _) => apply keeps_raise
  | |- keeps (lift _) => apply keeps_lift
  | |- keeps (RingGeneric.update _ _) => apply keeps_update
  | |- keeps (Ring.query_default _ _) => apply keeps_query_default
  | |- keeps (RingDoorBell.history _ _ _ _) => apply keeps_history
  | |- keeps (Ring.query _ _ _ _ _ _) =>
      apply keeps_query; unfold spares_token; cbn [default];
      by simplify_map_eq
  | |- keeps (_ ≫= _) => apply keeps_bind
  | |- ∀ _, _ => intros
  end.

(** X15.  The invariant of token and parameter set holds through the
    remaining operations too: the linked-chimes and activity queries, the
    three chime setters of the doorbell, [last_recording_id] and
    [live_streaming_json] keep the session's [auth_token] parameter equal
    to the stored token, and every call they send carries the token stored
    at that moment, however they end. *)
Theorem token_in_sync_through_the_rest :
  (∀ self, keeps (RingChime.linked_tree server self))
  ∧ keeps (RingDoorBell.check_activity server)
  ∧ (∀ self x,
       keeps (RingDoorBell.existing_doorbell_type_setter server self x))
  ∧ (∀ self x,
       keeps (RingDoorBell.existing_doorbell_type_enabled_setter server self x))
  ∧ (∀ self x,
       keeps (RingDoorBell.existing_doorbell_type_duration_setter server self x))
  ∧ (∀ self, keeps (RingDoorBell.last_recording_id server self))
  ∧ (∀ self, keeps (RingDoorBell.live_streaming_json server self)).
Proof.
  repeat apply conj; intros.
  - unfold RingChime.linked_tree. repeat keeps_more.
  - unfold RingDoorBell.check_activity. repeat keeps_more.
  - unfold RingDoorBell.existing_doorbell_type_setter.
    apply keeps_bind; [keeps_more|]. intros known.
    destruct (negb known); repeat keeps_more.
  - unfold RingDoorBell.existing_doorbell_type_enabled_setter.
    apply keeps_bind; [keeps_more|]. intros t.
    destruct (py_eq t (VInt 2)); [keeps_more|].
    destruct (negb _); repeat keeps_more.
  - unfold RingDoorBell.existing_doorbell_type_duration_setter.
    destruct (negb _); [keeps_more|].
    apply keeps_bind; [keeps_more|]. intros t.
    destruct (negb _); repeat keeps_more.
  - unfold RingDoorBell.last_recording_id. repeat keeps_more.
  - unfold RingDoorBell.live_streaming_json. cbn zeta.
    apply keeps_bind; [keeps_more|]. intros aid.
    apply keeps_bind; [keeps_more|]. intros req.
    apply keeps_bind; [keeps_more|]. intros status.
    destruct (status =? 204); repeat keeps_more.
Qed.
End InSyncMore.

(** ** History, recordings and live streaming *)

Section History.
Context `{Const} `{Lib} `{MoreConst} `{Builtins} (server : transport).

Lemma assoc_set_same k v d : assoc k (assoc_set k v d) = Some v.
Proof.
  induction d as [|[k' v'] d IH]; cbn.
  - by rewrite decide_True.
  - destruct (decide (k = k')) as [->|Hne]; cbn.
    + by rewrite decide_True.
    + by rewrite decide_False.
Qed.

Lemma assoc_set_other k k' v d :
  k' ≠ k → assoc k' (assoc_set k v d) = assoc k' d.
Proof.
  intros Hne. induction d as [|[k0 v0] d IH]; cbn.
  - by rewrite decide_False.
  - destruct (decide (k = k0)) as [->|Hk]; cbn.
    + by rewrite !decide_False.
    + by rewrite IH.
Qed.

Lemma convertible_timestamped tz entry :
  convertible tz entry → timestamped entry.
Proof. intros (d & stamp & -> & Hc & Hok & _). by exists d, stamp. Qed.

Lemma timestamped_convertible entry :
  timestamped entry → convertible "" entry.
Proof. intros (d & stamp & -> & Hc & Hok). by exists d, stamp. Qed.

Lemma convert_convertible (timezone : option string) entry :
  convertible (default "" timezone) entry →
  RingDoorBell.convert (default "" timezone) entry
  = Return (stamped (zone_of timezone) entry).
Proof.
  intros (d & stamp & -> & Hc & Hok & Hzone).
  unfold RingDoorBell.convert, stamped, zone_of. cbn. rewrite Hc. cbn.
  rewrite Hok. destruct timezone as [tz|]; cbn in *; [|done].
  case_bool_decide as Hz; [done|]. by rewrite Hzone.
Qed.

Lemma mapM_convert (timezone : option string) entries :
  Forall (convertible (default "" timezone)) entries →
  mapM (RingDoorBell.convert (default "" timezone)) entries
  = Return (stamped (zone_of timezone) <$> entries).
Proof.
  induction 1 as [|e entries He _ IH]; [done|].
  cbn. rewrite convert_convertible by done. cbn.
  unfold mbind, outcome_bind in *. cbn in *. by rewrite IH.
Qed.

Lemma mapM_convert_stops (timezone : option string) good bad rest e :
  Forall (convertible (default "" timezone)) good →
  RingDoorBell.convert (default "" timezone) bad = Raise e →
  mapM (RingDoorBell.convert (default "" timezone)) (good ++ bad :: rest)
  = Raise e.
Proof.
  intros Hg Hb. induction Hg as [|x good Hx _ IH]; cbn.
  - by rewrite Hb.
  - rewrite convert_convertible by done. cbn.
    unfold mbind, outcome_bind in *. cbn in *. by rewrite IH.
Qed.

Lemma stamped_fields zone entry :
  timestamped entry →
  (∃ stamp, py_getitem entry "created_at" = Return (VStr stamp)
            ∧ py_getitem (stamped zone entry) "created_at"
              = Return (VDateTime stamp zone))
  ∧ (∀ key, key ≠ "created_at" →
       py_getitem (stamped zone entry) key = py_getitem entry key).
Proof.
  intros (d & stamp & -> & Hc & Hok). unfold stamped. rewrite Hc. split.
  - exists stamp. cbn. by rewrite Hc, assoc_set_same.
  - intros key Hk. cbn. by rewrite assoc_set_other.
Qed.

(** The query of [history] under a steady server. *)
Lemma history_query_steady url (limit : Z) st p r v :
  params (ring st) = Some p → settled (ring st) →
  steady server r → status_code r = 200 ∨ status_code r = 204 →
  json r = Some v →
  Ring.query server url RETRY_TOKEN "GET" false
    (Some {[ "limit" := VStr (pretty limit) ]}) st
  = (Return (Ring.Val v),
     State (set_params (Some ({[ "limit" := VStr (pretty limit) ]} ∪ p))
                       (ring st))
           (net st ++ [call_event "GET" url
                         ({[ "limit" := VStr (pretty limit) ]} ∪ p)
                         (ring st)])).
Proof.
  intros Hp Hset Hst Hs Hj.
  rewrite (query_answered server url RETRY_TOKEN "GET" false _ st p r);
    [|done|done|done|by apply Hst|done].
  rewrite merged_given by apply insert_non_empty.
  unfold delivered. rewrite bool_decide_eq_true_2 by done. by rewrite Hj.
Qed.

Lemma zone_checked (timezone : option string) (st : state) :
  (∀ tz, timezone = Some tz → tz ≠ "" → timezone_ok tz = true) →
  (if bool_decide (default "" timezone = "") then mret tt
   else if timezone_ok (default "" timezone) then mret tt
        else raise UnknownTimeZoneError) st
  = (Return tt, st).
Proof.
  intros Htz. case_bool_decide as Hz; [done|].
  destruct timezone as [tz|]; [|done]. cbn in *. by rewrite Htz.
Qed.

(** [history] under a steady server that answers a list of entries with
    timestamps. *)
Lemma history_steady self (limit : Z) timezone st p r entries aid :
  params (ring st) = Some p → settled (ring st) →
  steady server r → status_code r = 200 ∨ status_code r = 204 →
  json r = Some (VList entries) →
  Forall (convertible (default "" timezone)) entries →
  RingGeneric.account_id self = Return aid →
  (∀ tz, timezone = Some tz → tz ≠ "" → timezone_ok tz = true) →
  RingDoorBell.history server self limit timezone st
  = (Return (Ring.Val (VList (stamped (zone_of timezone) <$> entries))),
     State (set_params (Some ({[ "limit" := VStr (pretty limit) ]} ∪ p))
                       (ring st))
           (net st ++ [call_event "GET"
                         (API_URI +:+ format URL_DOORBELL_HISTORY aid)
                         ({[ "limit" := VStr (pretty limit) ]} ∪ p)
                         (ring st)])).
Proof.
  intros Hp Hset Hst Hs Hj Hall Haid Htz.
  unfold RingDoorBell.history. cbn zeta.
  unfold mbind at 1, M_bind at 1, lift. rewrite Haid.
  unfold mbind at 1, M_bind at 1.
  rewrite (history_query_steady _ limit st p r (VList entries)) by done.
  unfold mbind at 1, M_bind at 1. rewrite zone_checked by done.
  cbn [py_iter].
  unfold mbind at 1, M_bind at 1. unfold mbind at 1, M_bind at 1.
  by rewrite mapM_convert.
Qed.

(** X16.  [history] converts every timestamp and nothing else.  On a
    session that holds a parameter set and is not at once in debug mode and
    marked disconnected, under a server that answers every call with a list
    of entries whose [created_at] is a string in the expected format and,
    when a zone name is given, a time that [astimezone] can move to that
    zone without overflow, [history] sends one GET with the limit merged
    into the session parameters and returns the entries in the same order,
    each with [created_at] replaced by the datetime in the zone asked for,
    UTC when no zone name is given, and with every other field as it
    was. *)
Theorem history_converts_every_timestamp self (limit : Z) timezone st p r
    entries aid :
  params (ring st) = Some p → settled (ring st) →
  steady server r → status_code r = 200 ∨ status_code r = 204 →
  json r = Some (VList entries) →
  Forall (convertible (default "" timezone)) entries →
  RingGeneric.account_id self = Return aid →
  (∀ tz, timezone = Some tz → tz ≠ "" → timezone_ok tz = true) →
  RingDoorBell.history server self limit timezone st
  = (Return (Ring.Val (VList (stamped (zone_of timezone) <$> entries))),
     State (set_params (Some ({[ "limit" := VStr (pretty limit) ]} ∪ p))
                       (ring st))
           (net st ++ [call_event "GET"
                         (API_URI +:+ format URL_DOORBELL_HISTORY aid)
                         ({[ "limit" := VStr (pretty limit) ]} ∪ p)
                         (ring st)]))
  ∧ (∀ entry, entry ∈ entries →
       (∃ stamp, py_getitem entry "created_at" = Return (VStr stamp)
                 ∧ py_getitem (stamped (zone_of timezone) entry) "created_at"
                   = Return (VDateTime stamp (zone_of timezone)))
       ∧ (∀ key, key ≠ "created_at" →
            py_getitem (stamped (zone_of timezone) entry) key
            = py_getitem entry key)).
Proof.
  intros Hp Hset Hst Hs Hj Hall Haid Htz. split.
  - by apply (history_steady self limit timezone st p r).
  - intros entry Hin. apply stamped_fields.
    apply (convertible_timestamped (default "" timezone)).
    by eapply Forall_forall in Hall.
Qed.

(** X17.  [history] stops at the first entry it cannot convert.  On a
    session that holds a parameter set and is not at once in debug mode and
    marked disconnected, when the server answers every call with a list in
    which the entries before some entry convert and the conversion of that
    entry raises, [history] raises that error after its single request and
    returns no entry.  The error is a [KeyError] (no [created_at]), a
    [TypeError] (the entry is no dict or [created_at] no string), a
    [ValueError] (the string is not in the format) or an [OverflowError]
    (the time cannot be moved to the zone), the last one only when a zone
    name is given. *)
Theorem history_stops_at_a_bad_timestamp self (limit : Z) timezone st p r
    good bad rest aid e :
  params (ring st) = Some p → settled (ring st) →
  steady server r → status_code r = 200 ∨ status_code r = 204 →
  json r = Some (VList (good ++ bad :: rest)) →
  Forall (convertible (default "" timezone)) good →
  RingDoorBell.convert (default "" timezone) bad = Raise e →
  RingGeneric.account_id self = Return aid →
  (∀ tz, timezone = Some tz → tz ≠ "" → timezone_ok tz = true) →
  RingDoorBell.history server self limit timezone st
  = (Raise e,
     State (set_params (Some ({[ "limit" := VStr (pretty limit) ]} ∪ p))
                       (ring st))
           (net st ++ [call_event "GET"
                         (API_URI +:+ format URL_DOORBELL_HISTORY aid)
                         ({[ "limit" := VStr (pretty limit) ]} ∪ p)
                         (ring st)]))
  ∧ (e = KeyError ∨ e = ValueError ∨ e = TypeError ∨ e = OverflowError)
  ∧ (e = OverflowError → ∃ tz, timezone = Some tz ∧ tz ≠ "").
Proof.
  intros Hp Hset Hst Hs Hj Hall Hbad Haid Htz. split; [|split].
  - unfold RingDoorBell.history. cbn zeta.
    unfold mbind at 1, M_bind at 1, lift. rewrite Haid.
    unfold mbind at 1, M_bind at 1.
    rewrite (history_query_steady _ limit st p r _ Hp Hset Hst Hs Hj).
    unfold mbind at 1, M_bind at 1. rewrite zone_checked by done.
    cbn [py_iter].
    unfold mbind at 1, M_bind at 1. unfold mbind at 1, M_bind at 1.
    by rewrite (mapM_convert_stops _ good bad rest e).
  - revert Hbad. unfold RingDoorBell.convert.
    destruct bad as [| | | | | |d|]; cbn; try (intros [= <-]; auto).
    destruct (assoc "created_at" d) as [c|]; cbn; [|intros [= <-]; auto].
    destruct c; try (intros [= <-]; auto).
    destruct (strptime_ok _); [|intros [= <-]; auto].
    case_bool_decide; [discriminate|].
    destruct (astimezone_ok _ _); [discriminate|intros [= <-]; auto].
  - intros ->. revert Hbad. unfold RingDoorBell.convert.
    destruct bad as [| | | | | |d|]; cbn; try discriminate.
    destruct (assoc "created_at" d) as [c|]; cbn; [|discriminate].
    destruct c; try discriminate.
    destruct (strptime_ok _); [|discriminate].
    case_bool_decide as Hz; [discriminate|]. intros _.
    destruct timezone as [tz|]; [by exists tz|done].
Qed.

Lemma py_index_head l :
  py_index (VList l) 0
  = match l with first :: _ => Return first | [] => Raise IndexError end.
Proof. by destruct l. Qed.

(** X18.  [last_recording_id] is the id of the first entry of a history
    of limit 1: on a session that holds a parameter set and is not at once
    in debug mode and marked disconnected, under a server that answers
    every call with a list of entries with timestamps, it sends one GET
    with the limit ["1"] and returns the ['id'] of the first entry as the
    server gave it, raising [KeyError] when that entry has none and
    [IndexError] when the list is empty. *)
Theorem last_recording_id_is_the_first_entry self st p r entries aid :
  params (ring st) = Some p → settled (ring st) →
  steady server r → status_code r = 200 ∨ status_code r = 204 →
  json r = Some (VList entries) →
  Forall timestamped entries →
  RingGeneric.account_id self = Return aid →
  RingDoorBell.last_recording_id server self st
  = (match entries with
     | first :: _ => py_getitem first "id"
     | [] => Raise IndexError
     end,
     State (set_params (Some ({[ "limit" := VStr "1" ]} ∪ p)) (ring st))
           (net st ++ [call_event "GET"
                         (API_URI +:+ format URL_DOORBELL_HISTORY aid)
                         ({[ "limit" := VStr "1" ]} ∪ p) (ring st)])).
Proof.
  intros Hp Hset Hst Hs Hj Hall Haid.
  unfold RingDoorBell.last_recording_id. unfold mbind at 1, M_bind at 1.
  rewrite (history_steady self 1 None st p r entries aid); try done;
    [|by eapply Forall_impl; [exact Hall|apply timestamped_convertible]].
  unfold mbind at 1, M_bind at 1, lift. cbn [RingDoorBell.result_index].
  rewrite py_index_head.
  destruct Hall as [|first rest Hf _]; [reflexivity|]. rewrite fmap_cons.
  destruct (stamped_fields (zone_of None) first Hf) as [_ Hk].
  rewrite (Hk "id") by done. by destruct (py_getitem first "id").
Qed.
End History.

Section LiveStreaming.
Context `{Const} `{Lib} `{MoreConst} `{Builtins} (server : transport).

(** X19.  The outcomes of [live_streaming_json], on a handle whose
    descriptor has an id and a session that holds a parameter set and is
    not at once in debug mode and marked disconnected.  Under a server that
    answers no call with 200, 204 or 401 it raises [AttributeError] after
    [RETRY_TOKEN + 1] POSTs, since the [None] of the exhausted query has no
    status code; when every call is answered 200 it returns [None] after
    one POST; when every call is answered 204 it sends the POST and one GET
    of the active dings and returns the first item of the body of that
    answer, raising [ValueError] when the answer has no JSON body. *)
Theorem live_streaming_outcomes self st p aid :
  params (ring st) = Some p → settled (ring st) →
  RingGeneric.account_id self = Return aid →
  (stonewalls server →
   RingDoorBell.live_streaming_json server self st
   = (Raise AttributeError,
      State (ring st)
            (net st ++ replicate (S RETRY_TOKEN)
                         (call_event "POST"
                            (API_URI +:+ format LIVE_STREAMING_ENDPOINT aid)
                            p (ring st)))))
  ∧ (∀ r, steady server r → status_code r = 200 →
       RingDoorBell.live_streaming_json server self st
       = (Return VNone,
          State (ring st)
                (net st ++ [call_event "POST"
                              (API_URI +:+ format LIVE_STREAMING_ENDPOINT aid)
                              p (ring st)])))
  ∧ (∀ r, steady server r → status_code r = 204 →
       RingDoorBell.live_streaming_json server self st
       = (match json r with
          | Some v => py_index v 0
          | None => Raise ValueError
          end,
          State (ring st)
                (net st ++ [call_event "POST"
                              (API_URI +:+ format LIVE_STREAMING_ENDPOINT aid)
                              p (ring st);
                            call_event "GET" (API_URI +:+ DINGS_ENDPOINT)
                              p (ring st)]))).
Proof.
  intros Hp Hset Haid. repeat apply conj.
  - intros Hst. unfold RingDoorBell.live_streaming_json. cbn zeta.
    unfold mbind at 1, M_bind at 1, lift. rewrite Haid.
    unfold mbind at 1, M_bind at 1.
    rewrite (query_stonewalled server _ RETRY_TOKEN "POST" true None st p)
      by done.
    rewrite merged_absent by done. by rewrite set_params_same.
  - intros r Hst Hs. unfold RingDoorBell.live_streaming_json. cbn zeta.
    unfold mbind at 1, M_bind at 1, lift. rewrite Haid.
    unfold mbind at 1, M_bind at 1.
    rewrite (query_answered server _ RETRY_TOKEN "POST" true None st p r);
      [|done|done|done|by apply Hst|by left].
    rewrite merged_absent by done. rewrite set_params_same by done.
    unfold delivered. unfold mbind at 1, M_bind at 1.
    cbn [RingDoorBell.result_status]. by rewrite Hs.
  - intros r Hst Hs. unfold RingDoorBell.live_streaming_json. cbn zeta.
    unfold mbind at 1, M_bind at 1, lift. rewrite Haid.
    unfold mbind at 1, M_bind at 1.
    rewrite (query_answered server _ RETRY_TOKEN "POST" true None st p r);
      [|done|done|done|by apply Hst|by right].
    rewrite merged_absent by done. rewrite set_params_same by done.
    unfold delivered. unfold mbind at 1, M_bind at 1.
    cbn [RingDoorBell.result_status]. rewrite Hs. cbn [Z.eqb Pos.eqb].
    set (st1 := State (ring st) _).
    unfold mbind at 1, M_bind at 1. unfold Ring.query_default.
    rewrite (query_answered server _ RETRY_TOKEN "GET" false None st1 p r);
      [|done|done|done|by apply Hst|by right].
    rewrite merged_absent by done. subst st1. cbn [ring net].
    rewrite set_params_same by done. rewrite <- app_assoc.
    unfold delivered. rewrite bool_decide_eq_true_2 by done.
    by destruct (json r) as [v|].
Qed.

(** X20.  [battery_life] never exceeds 100: whenever it returns, the
    result is the integer value of the field ['battery_life'] of the
    descriptor, cut down to 100. *)
Theorem battery_life_never_exceeds_100 self v :
  RingDoorBell.battery_life self = Return v →
  ∃ raw m, py_get (RingGeneric._attrs self) "battery_life" = Return raw
           ∧ py_int raw = Return m
           ∧ v = VInt (Z.min m 100)
           ∧ int_of v ≤ 100.
Proof.
  unfold RingDoorBell.battery_life.
  destruct (py_get _ "battery_life") as [raw|e] eqn:Hraw; [|discriminate].
  cbn. destruct (py_int raw) as [m|e] eqn:Hint; [|discriminate]. cbn.
  intros [= <-]. exists raw, m. split; [done|]. split; [done|].
  assert ((if 100 <? m then 100 else m) = Z.min m 100) as ->.
  { destruct (100 <? m) eqn:Hm;
      [apply Z.ltb_lt in Hm|apply Z.ltb_ge in Hm]; lia. }
  split; [done|]. cbn [int_of]. lia.
Qed.
End LiveStreaming.

(** ** A handle without a descriptor *)

Section Unset.
Context `{Const} `{Lib} `{MoreConst} `{Builtins} (server : transport).

(** X21.  A handle whose refresh found nothing is of no use: with the
    descriptor unset, every getter of the chime and of the doorbell raises
    [AttributeError], and so does every operation that needs the id of the
    device, the queries and the setters on a value they accept, before any
    request is sent and with the session untouched; the chime-enabled
    setter raises it whatever the value. *)
Theorem unset_descriptor_raises_everywhere self x (limit : Z) timezone st :
  RingGeneric._attrs self = VNone →
  (RingChime.volume self = Raise AttributeError
   ∧ RingChime.subscribed self = Raise AttributeError
   ∧ RingChime.subscribed_motions self = Raise AttributeError
   ∧ RingDoorBell.battery_life self = Raise AttributeError
   ∧ RingDoorBell.existing_doorbell_type self = Raise AttributeError
   ∧ RingDoorBell.existing_doorbell_type_enabled self = Raise AttributeError
   ∧ RingDoorBell.existing_doorbell_type_duration self = Raise AttributeError)
  ∧ (RingChime.linked_tree server self st = (Raise AttributeError, st)
     ∧ RingDoorBell.history server self limit timezone st
       = (Raise AttributeError, st)
     ∧ RingDoorBell.last_recording_id server self st
       = (Raise AttributeError, st)
     ∧ RingDoorBell.live_streaming_json server self st
       = (Raise AttributeError, st))
  ∧ (isinstance_int x = true → CHIME_VOL_MIN ≤ int_of x ≤ CHIME_VOL_MAX →
     RingChime.volume_setter server self x st = (Raise AttributeError, st))
  ∧ (isinstance_int x = true → DOORBELL_VOL_MIN ≤ int_of x ≤ DOORBELL_VOL_MAX →
     RingDoorBell.volume_setter server self x st = (Raise AttributeError, st)
     ∧ RingDoorBell.existing_doorbell_type_duration_setter server self x st
       = (Raise AttributeError, st))
  ∧ (py_in_keys x DOORBELL_EXISTING_TYPE = Return true →
     RingDoorBell.existing_doorbell_type_setter server self x st
     = (Raise AttributeError, st))
  ∧ RingDoorBell.existing_doorbell_type_enabled_setter server self x st
    = (Raise AttributeError, st).
Proof.
  intros Hnone.
  assert (Haid : RingGeneric.account_id self = Raise AttributeError)
    by (unfold RingGeneric.account_id; by rewrite Hnone).
  assert (Hset : ∀ key, RingDoorBell.chime_setting self key
                        = Raise AttributeError)
    by (intros key; unfold RingDoorBell.chime_setting; by rewrite Hnone).
  repeat apply conj.
  - unfold RingChime.volume. by rewrite Hnone.
  - unfold RingChime.subscribed. by rewrite Hnone.
  - unfold RingChime.subscribed_motions. by rewrite Hnone.
  - unfold RingDoorBell.battery_life. by rewrite Hnone.
  - unfold RingDoorBell.existing_doorbell_type. by rewrite (Hset "type").
  - unfold RingDoorBell.existing_doorbell_type_enabled. by rewrite (Hset "type").
  - unfold RingDoorBell.existing_doorbell_type_duration. by rewrite (Hset "type").
  - unfold RingChime.linked_tree, mbind, M_bind, lift. by rewrite Haid.
  - unfold RingDoorBell.history. cbn zeta.
    unfold mbind at 1, M_bind at 1, lift. by rewrite Haid.
  - unfold RingDoorBell.last_recording_id, RingDoorBell.history. cbn zeta.
    unfold mbind at 1, M_bind at 1. unfold mbind at 1, M_bind at 1, lift.
    by rewrite Haid.
  - unfold RingDoorBell.live_streaming_json. cbn zeta.
    unfold mbind at 1, M_bind at 1, lift. by rewrite Haid.
  - intros Hi Hr. unfold RingChime.volume_setter.
    rewrite in_range by done. unfold mbind at 1, M_bind at 1, lift.
    by rewrite Haid.
  - intros Hi Hr. split.
    + unfold RingDoorBell.volume_setter.
      rewrite in_range by done. unfold mbind at 1, M_bind at 1, lift.
      by rewrite Haid.
    + unfold RingDoorBell.existing_doorbell_type_duration_setter.
      rewrite in_range by done. unfold mbind at 1, M_bind at 1, lift.
      by rewrite (Hset "type").
  - intros Hk. unfold RingDoorBell.existing_doorbell_type_setter.
    unfold mbind at 1, M_bind at 1, lift. rewrite Hk. cbn [negb].
    unfold mbind at 1, M_bind at 1. by rewrite Haid.
  - unfold RingDoorBell.existing_doorbell_type_enabled_setter.
    unfold mbind at 1, M_bind at 1, lift. by rewrite (Hset "type").
Qed.
End Unset.

(** * The further properties on the sample servers *)

Section MoreExamples.
#[local] Existing Instance sample_const.
#[local] Existing Instance sample_lib.
#[local] Existing Instance sample_more.
#[local] Existing Instance sample_builtins.

Lemma put_off_slow : put_off slow [] (login_request (ring newcomer)) 1.
Proof.
  intros i Hi. assert (i = 0%nat) as -> by lia.
  exists (Response 503 None). split; [reflexivity|]. cbn. lia.
Defined.

Lemma put_off_none server h rq : put_off server h rq 0.
Proof. intros i Hi. lia. Defined.

Lemma login_stops_at_first_201_witness :
  Ring._authenticate slow 3 newcomer
  = (Return (VBool true),
     State (mkRing (VDict [("subscriptions_enabled", VBool true)]) (Some true)
                   (VInt 7) (VStr "t0k3n")
                   (Some {[ "api_version" := VStr "9";
                            "auth_token" := VStr "t0k3n" ]})
                   false "user" "secret")
           (replicate 2 (login_event (ring newcomer)))).
Proof.
  assert (Hk : (1 ≤ 3)%nat) by lia.
  exact (login_stops_at_first_201 slow 3 newcomer 1 (created sample_profile)
           sample_profile Hk put_off_slow eq_refl eq_refl eq_refl).
Defined.

Lemma login_error_is_not_retried_witness :
  Ring._authenticate unplugged 3 newcomer
  = (Raise ConnectionError,
     State (ring newcomer) [login_event (ring newcomer)])
  ∧ Ring._authenticate (always 201) 3 newcomer
    = (Raise ValueError,
       State (ring newcomer) [login_event (ring newcomer)]).
Proof.
  assert (Hk : (0 ≤ 3)%nat) by lia.
  split.
  - destruct (login_error_is_not_retried unplugged 3 newcomer 0 Hk
                (put_off_none _ _ _)) as [W _].
    exact (W eq_refl).
  - destruct (login_error_is_not_retried (always 201) 3 newcomer 0 Hk
                (put_off_none _ _ _)) as [_ W].
    destruct (W (Response 201 None) ValueError eq_refl eq_refl eq_refl)
      as [W' _].
    exact W'.
Defined.

Lemma query_returns_none_or_an_answer_witness :
  (Ring.query welcoming devices_url 3 "GET" false None connected).1
  = Return (Ring.Val sample_devices)
  ∧ (Ring.Val sample_devices = Ring.Val VNone
     ∨ ∃ r, last_answer welcoming
              (Ring.query welcoming devices_url 3 "GET" false None connected).2
              "GET" devices_url r
            ∧ (status_code r = 200 ∨ status_code r = 204)
            ∧ json r = Some sample_devices).
Proof.
  assert (Hq : (Ring.query welcoming devices_url 3 "GET" false None
                  connected).1 = Return (Ring.Val sample_devices))
    by (vm_compute; reflexivity).
  split; [exact Hq|].
  destruct (query_returns_none_or_an_answer welcoming devices_url 3 "GET"
              false None connected (Ring.Val sample_devices) Hq)
    as (_ & _ & Hget & _).
  destruct (Hget eq_refl eq_refl) as [Hn|(r & v & Ha & Hs & Hj & Hv)];
    [by left|right].
  exists r. injection Hv as <-. done.
Defined.

Lemma query_transport_error_is_not_retried_witness :
  Ring.query cut_off devices_url 3 "GET" false None connected
  = (Raise ConnectionError,
     State (set_params (Some (fresh_params (VStr "t0k3n"))) (ring connected))
           (net connected
            ++ [call_event "GET" devices_url (fresh_params (VStr "t0k3n"))
                  (ring connected)])).
Proof.
  apply (query_transport_error_is_not_retried cut_off devices_url 3 "GET"
           false None connected (fresh_params (VStr "t0k3n")));
    [reflexivity|exact settled_connected|reflexivity|reflexivity].
Defined.

Lemma query_unknown_method_raises_witness :
  Ring.query welcoming devices_url 3 "DELETE" false None connected
  = (Raise UnboundLocalError, connected)
  ∧ Ring.query welcoming devices_url 3 "DELETE" false None unready
    = (Raise UnboundLocalError, unready).
Proof.
  split.
  - rewrite (query_unknown_method_raises welcoming devices_url 3 "DELETE"
               false None connected);
      [|exact settled_connected|reflexivity].
    vm_compute. reflexivity.
  - rewrite (query_unknown_method_raises welcoming devices_url 3 "DELETE"
               false None unready); [|by intros [=]|reflexivity].
    vm_compute. reflexivity.
Defined.

Lemma refuses_faltering : refuses faltering.
Proof.
  intros h [url auth|] Hl; [|discriminate].
  exists (Response 500 None). split; [reflexivity|]. unfold error_status.
  cbn. lia.
Defined.

Lemma stalled_faltering :
  stalled faltering (sent <$> net connected)
    (call_request "GET" devices_url (merged None (fresh_params (VStr "t0k3n")))
       (ring connected)) 1.
Proof.
  intros i Hi. assert (i = 0%nat) as -> by lia.
  exists (Response 500 None). split; [reflexivity|]. cbn. lia.
Defined.

Lemma query_relogin_refused_witness :
  ∃ r,
    faltering
      ((sent <$> net connected)
       ++ replicate 2
            (call_request "GET" devices_url
               (merged None (fresh_params (VStr "t0k3n"))) (ring connected))
       ++ replicate RETRY_TOKEN (login_request (ring connected)))
      (login_request (ring connected))
    = Answer r
    ∧ error_status (status_code r)
    ∧ Ring.query faltering devices_url 3 "GET" false None connected
      = (Raise (HTTPError (status_code r)),
         State (set_is_connected (Some false)
                  (set_params (Some (merged None (fresh_params (VStr "t0k3n"))))
                              (ring connected)))
               (net connected
                ++ replicate 2
                     (call_event "GET" devices_url
                        (merged None (fresh_params (VStr "t0k3n")))
                        (ring connected))
                ++ replicate (S RETRY_TOKEN) (login_event (ring connected)))).
Proof.
  assert (Hk : (1 ≤ 3)%nat) by lia.
  exact (query_relogin_refused faltering devices_url 3 "GET" false None
           connected (fresh_params (VStr "t0k3n")) 1 (Response 401 None)
           eq_refl settled_connected eq_refl Hk stalled_faltering eq_refl
           eq_refl refuses_faltering).
Defined.

Lemma query_gives_up_on_expiring_tokens_witness :
  ∃ evs,
    Ring.query revolving devices_url 3 "GET" false None connected
    = (Return (Ring.Val VNone),
       State (logged_in sample_profile (ring connected))
             (net connected ++ evs))
    ∧ length (calls evs) = 4%nat ∧ length (logins evs) = 4%nat.
Proof.
  apply (query_gives_up_on_expiring_tokens revolving devices_url 3 "GET" false
           None connected (fresh_params (VStr "t0k3n")) (Response 401 None)
           (created sample_profile) sample_profile);
    try reflexivity.
  - exact settled_connected.
  - by intros h [|] Hl.
  - by intros h [|] Hl.
Defined.

Lemma steady_welcoming : steady welcoming (Response 200 (Some sample_devices)).
Proof. by intros h [|] Hl. Defined.


Lemma described_doorbots :
  Forall described [VDict [("description", VStr "Front"); ("id", VInt 12)]].
Proof. repeat constructor. by exists (VStr "Front"). Defined.

Lemma not_found_negative : NOT_FOUND < 0.
Proof. reflexivity. Defined.

Lemma refresh_is_idempotent_witness :
  RingGeneric.update welcoming front
    (RingDoorBell.__init__ welcoming (VStr "Front") connected).2
  = (Return front,
     State (ring connected)
           (net connected
            ++ replicate 2 (call_event "GET" devices_url
                              (fresh_params (VStr "t0k3n")) (ring connected)))).
Proof.
  exact (refresh_is_idempotent welcoming blank connected
           (fresh_params (VStr "t0k3n")) (Response 200 (Some sample_devices))
           sample_devices front
           (RingDoorBell.__init__ welcoming (VStr "Front") connected).2
           eq_refl settled_connected steady_welcoming (or_introl eq_refl)
           eq_refl eq_refl).
Defined.

Lemma refresh_takes_first_match_witness :
  ∃ found,
    RingGeneric.update welcoming blank connected
    = (Return (match found with
               | Some k =>
                   RingGeneric.set_attrs
                     (default VNone
                        ([VDict [("description", VStr "Front"); ("id", VInt 12)]]
                           !! k)) blank
               | None => blank
               end),
       State (ring connected)
             (net connected
              ++ [call_event "GET" devices_url (fresh_params (VStr "t0k3n"))
                    (ring connected)]))
    ∧ match found with
      | Some k =>
          (∃ d, [VDict [("description", VStr "Front"); ("id", VInt 12)]] !! k
                = Some d
                ∧ matching (RingGeneric.name blank) d = true)
          ∧ (∀ j d, (j < k)%nat →
               [VDict [("description", VStr "Front"); ("id", VInt 12)]] !! j
               = Some d →
               matching (RingGeneric.name blank) d = false)
      | None =>
          ∀ d, d ∈ [VDict [("description", VStr "Front"); ("id", VInt 12)]] →
               matching (RingGeneric.name blank) d = false
      end.
Proof.
  exact (refresh_takes_first_match welcoming blank connected
           (fresh_params (VStr "t0k3n")) (Response 200 (Some sample_devices))
           _ _ eq_refl settled_connected steady_welcoming (or_introl eq_refl)
           eq_refl eq_refl described_doorbots not_found_negative).
Defined.


(** A chime type that came as the float [2.0] is the type 2: the enabled
    getter and setter give [False] and nothing is sent; the duration
    setter, on a value in range, returns [None]. *)
Lemma float_chime_type_counts :
  py_eq (VFloat (2 # 1)) (VInt 2) = true
  ∧ RingDoorBell.existing_doorbell_type absent_chime
    = Return (VStr "Not Present")
  ∧ RingDoorBell.existing_doorbell_type_enabled absent_chime
    = Return (VBool false)
  ∧ RingDoorBell.existing_doorbell_type_enabled_setter welcoming absent_chime
      (VBool true) connected
    = (Return (absent_chime, VBool false), connected)
  ∧ RingDoorBell.existing_doorbell_type_duration_setter welcoming absent_chime
      (VInt 5) connected
    = (Return (absent_chime, VNone), connected).
Proof. repeat apply conj; reflexivity. Qed.


Lemma setters_report_success_unchecked_witness :
  RingChime.volume_setter (always 500) digital (VBool true) connected
  = unwritten digital
      {[ "chime[description]" := VStr "Front";
         "chime[settings][volume]" := VStr "True" ]}
      (fresh_params (VStr "t0k3n"))
      (API_URI +:+ format CHIMES_ENDPOINT (VInt 12)) connected
  ∧ RingDoorBell.volume_setter (always 500) digital (VBool true) connected
    = unwritten digital
        {[ "doorbot[description]" := VStr "Front";
           "doorbot[settings][doorbell_volume]" := VStr "True" ]}
        (fresh_params (VStr "t0k3n"))
        (API_URI +:+ format DOORBELLS_ENDPOINT (VInt 12)) connected
  ∧ RingDoorBell.existing_doorbell_type_setter (always 500) digital
      (VBool true) connected
    = unwritten digital
        {[ "doorbot[description]" := VStr "Front";
           "doorbot[settings][chime_settings][type]" := VBool true ]}
        (fresh_params (VStr "t0k3n"))
        (API_URI +:+ format DOORBELLS_ENDPOINT (VInt 12)) connected
  ∧ RingDoorBell.existing_doorbell_type_enabled_setter (always 500) digital
      (VBool true) connected
    = unwritten digital
        {[ "doorbot[description]" := VStr "Front";
           "doorbot[settings][chime_settings][enable]" := VBool true ]}
        (fresh_params (VStr "t0k3n"))
        (API_URI +:+ format DOORBELLS_ENDPOINT (VInt 12)) connected
  ∧ RingDoorBell.existing_doorbell_type_duration_setter (always 500) digital
      (VBool true) connected
    = unwritten digital
        {[ "doorbot[description]" := VStr "Front";
           "doorbot[settings][chime_settings][duration]" := VBool true ]}
        (fresh_params (VStr "t0k3n"))
        (API_URI +:+ format DOORBELLS_ENDPOINT (VInt 12)) connected.
Proof.
  assert (Hwall : stonewalls (always 500)) by (by apply stonewalls_always).
  destruct (setters_report_success_unchecked (always 500) digital (VBool true)
              connected (fresh_params (VStr "t0k3n")) (VInt 12)
              eq_refl settled_connected Hwall eq_refl)
    as (W1 & W2 & W3 & W4 & W5).
  assert (Hchime : CHIME_VOL_MIN ≤ int_of (VBool true) ≤ CHIME_VOL_MAX)
    by (cbn; lia).
  assert (Hbell : DOORBELL_VOL_MIN ≤ int_of (VBool true) ≤ DOORBELL_VOL_MAX)
    by (cbn; lia).
  repeat apply conj.
  - exact (W1 eq_refl Hchime).
  - exact (W2 eq_refl Hbell).
  - exact (W3 eq_refl).
  - exact (W4 (VInt 1) eq_refl eq_refl eq_refl).
  - exact (W5 (VInt 1) eq_refl eq_refl eq_refl Hbell).
Defined.

Lemma setters_refuse_before_sending_witness :
  RingChime.volume_setter welcoming digital (VInt 99) connected
  = (Return (digital, VBool false), connected)
  ∧ (digital = digital ∧ connected = connected ∧ VBool false = VBool false)
  ∧ RingDoorBell.existing_doorbell_type_duration_setter welcoming digital
      (VInt 99) connected
    = (Return (digital, VBool false), connected)
  ∧ (digital = digital ∧ connected = connected
     ∧ (VBool false = VBool false ∨ VBool false = VNone)).
Proof.
  assert (Hb : VBool false ≠ VBool true) by discriminate.
  destruct (setters_refuse_before_sending welcoming digital (VInt 99) connected
              digital (VBool false) connected Hb)
    as (W1 & _ & _ & _ & W5).
  assert (H1 : RingChime.volume_setter welcoming digital (VInt 99) connected
               = (Return (digital, VBool false), connected))
    by reflexivity.
  assert (H5 : RingDoorBell.existing_doorbell_type_duration_setter welcoming
                 digital (VInt 99) connected
               = (Return (digital, VBool false), connected))
    by reflexivity.
  exact (conj H1 (conj (W1 H1) (conj H5 (W5 H5)))).
Defined.

Lemma token_in_sync_through_the_rest_witness :
  consistent (RingDoorBell.live_streaming_json welcoming digital connected).2
  ∧ consistent (RingDoorBell.last_recording_id chronicle digital connected).2.
Proof.
  destruct (token_in_sync_through_the_rest welcoming)
    as (_ & _ & _ & _ & _ & _ & W7).
  destruct (token_in_sync_through_the_rest chronicle)
    as (_ & _ & _ & _ & _ & W6 & _).
  split.
  - exact (W7 digital connected consistent_connected).
  - exact (W6 digital connected consistent_connected).
Defined.

Lemma steady_chronicle :
  steady chronicle (Response 200 (Some (VList [ring_event; motion_event]))).
Proof. by intros h [|] Hl. Defined.

Lemma steady_garbled :
  steady garbled (Response 200 (Some (VList [ring_event; undated_event]))).
Proof. by intros h [|] Hl. Defined.

Lemma timestamped_ring_event : timestamped ring_event.
Proof. by eexists _, _. Defined.

Lemma timestamped_motion_event : timestamped motion_event.
Proof. by eexists _, _. Defined.

Lemma convertible_ring_event tz : convertible tz ring_event.
Proof. eexists _, _. repeat split; reflexivity. Defined.

Lemma convertible_motion_event tz : convertible tz motion_event.
Proof. eexists _, _. repeat split; reflexivity. Defined.

Lemma steady_primeval :
  steady primeval (Response 200 (Some (VList [ring_event; primeval_event]))).
Proof. by intros h [|] Hl. Defined.

Lemma zone_known (timezone : option string) :
  timezone = Some "America/New_York" ∨ timezone = None →
  ∀ tz, timezone = Some tz → tz ≠ "" → timezone_ok tz = true.
Proof. by intros [->| ->] tz [= <-]. Defined.

Lemma history_converts_every_timestamp_witness :
  (RingDoorBell.history chronicle digital 30 (Some "America/New_York")
     connected).1
  = Return (Ring.Val (VList [
      VDict [("id", VInt 901); ("kind", VStr "ding");
             ("created_at",
              VDateTime "2021-03-05T10:15:00.000Z" "America/New_York")];
      VDict [("id", VInt 900); ("kind", VStr "motion");
             ("created_at",
              VDateTime "2021-03-05T09:01:30.000Z" "America/New_York")]]))
  ∧ (RingDoorBell.history chronicle digital 30 None connected).1
    = Return (Ring.Val (VList [
        VDict [("id", VInt 901); ("kind", VStr "ding");
               ("created_at", VDateTime "2021-03-05T10:15:00.000Z" "UTC")];
        VDict [("id", VInt 900); ("kind", VStr "motion");
               ("created_at", VDateTime "2021-03-05T09:01:30.000Z" "UTC")]])).
Proof.
  assert (Hall : ∀ tz, Forall (convertible tz) [ring_event; motion_event]).
  { intros tz. repeat constructor;
      [apply convertible_ring_event|apply convertible_motion_event]. }
  split.
  - destruct (history_converts_every_timestamp chronicle digital 30
                (Some "America/New_York") connected
                (fresh_params (VStr "t0k3n")) _ _ (VInt 12)
                eq_refl settled_connected steady_chronicle (or_introl eq_refl)
                eq_refl (Hall _) eq_refl (zone_known _ (or_introl eq_refl)))
      as [W _].
    rewrite W. reflexivity.
  - destruct (history_converts_every_timestamp chronicle digital 30 None
                connected (fresh_params (VStr "t0k3n")) _ _ (VInt 12)
                eq_refl settled_connected steady_chronicle (or_introl eq_refl)
                eq_refl (Hall _) eq_refl (zone_known _ (or_intror eq_refl)))
      as [W _].
    rewrite W. reflexivity.
Defined.

Lemma history_stops_at_a_bad_timestamp_witness :
  (RingDoorBell.history garbled digital 30 None connected).1
  = Raise ValueError
  ∧ (RingDoorBell.history primeval digital 30 (Some "America/New_York")
       connected).1
    = Raise OverflowError
  ∧ is_return (RingDoorBell.history primeval digital 30 None connected).1
    = true.
Proof.
  assert (Hgood : ∀ tz, Forall (convertible tz) [ring_event]).
  { intros tz. repeat constructor. apply convertible_ring_event. }
  repeat apply conj.
  - destruct (history_stops_at_a_bad_timestamp garbled digital 30 None
                connected (fresh_params (VStr "t0k3n")) _ [ring_event]
                undated_event [] (VInt 12) ValueError
                eq_refl settled_connected steady_garbled (or_introl eq_refl)
                eq_refl (Hgood _) eq_refl eq_refl
                (zone_known _ (or_intror eq_refl)))
      as [W _].
    rewrite W. reflexivity.
  - destruct (history_stops_at_a_bad_timestamp primeval digital 30
                (Some "America/New_York") connected
                (fresh_params (VStr "t0k3n")) _ [ring_event]
                primeval_event [] (VInt 12) OverflowError
                eq_refl settled_connected steady_primeval (or_introl eq_refl)
                eq_refl (Hgood _) eq_refl eq_refl
                (zone_known _ (or_introl eq_refl)))
      as [W _].
    rewrite W. reflexivity.
  - vm_compute. reflexivity.
Defined.

Lemma last_recording_id_is_the_first_entry_witness :
  (RingDoorBell.last_recording_id chronicle digital connected).1
  = Return (VInt 901).
Proof.
  assert (Hall : Forall timestamped [ring_event; motion_event]).
  { repeat constructor;
      [exact timestamped_ring_event|exact timestamped_motion_event]. }
  rewrite (last_recording_id_is_the_first_entry chronicle digital connected
             (fresh_params (VStr "t0k3n")) _ _ (VInt 12)
             eq_refl settled_connected steady_chronicle (or_introl eq_refl)
             eq_refl Hall eq_refl).
  reflexivity.
Defined.

Lemma steady_always code : steady (always code) (Response code None).
Proof. by intros h rq Hl. Defined.

Lemma live_streaming_outcomes_witness :
  (RingDoorBell.live_streaming_json (always 500) digital connected).1
  = Raise AttributeError
  ∧ (RingDoorBell.live_streaming_json welcoming digital connected).1
    = Return VNone
  ∧ (RingDoorBell.live_streaming_json (always 204) digital connected).1
    = Raise ValueError.
Proof.
  assert (Hwall : stonewalls (always 500)) by (by apply stonewalls_always).
  repeat apply conj.
  - destruct (live_streaming_outcomes (always 500) digital connected
                (fresh_params (VStr "t0k3n")) (VInt 12)
                eq_refl settled_connected eq_refl) as (W & _ & _).
    by rewrite (W Hwall).
  - destruct (live_streaming_outcomes welcoming digital connected
                (fresh_params (VStr "t0k3n")) (VInt 12)
                eq_refl settled_connected eq_refl) as (_ & W & _).
    by rewrite (W _ steady_welcoming eq_refl).
  - destruct (live_streaming_outcomes (always 204) digital connected
                (fresh_params (VStr "t0k3n")) (VInt 12)
                eq_refl settled_connected eq_refl) as (_ & _ & W).
    by rewrite (W _ (steady_always 204) eq_refl).
Defined.

Lemma battery_life_never_exceeds_100_witness :
  RingDoorBell.battery_life digital = Return (VInt 100)
  ∧ ∃ raw m, py_get (RingGeneric._attrs digital) "battery_life" = Return raw
             ∧ py_int raw = Return m
             ∧ VInt 100 = VInt (Z.min m 100)
             ∧ int_of (VInt 100) ≤ 100.
Proof.
  assert (Hb : RingDoorBell.battery_life digital = Return (VInt 100))
    by reflexivity.
  exact (conj Hb (battery_life_never_exceeds_100 digital (VInt 100) Hb)).
Defined.

Lemma unset_descriptor_raises_everywhere_witness :
  RingGeneric._attrs nameless = VNone
  ∧ RingDoorBell.battery_life nameless = Raise AttributeError
  ∧ RingChime.linked_tree welcoming nameless connected
    = (Raise AttributeError, connected)
  ∧ RingChime.volume_setter welcoming nameless (VInt 5) connected
    = (Raise AttributeError, connected)
  ∧ RingDoorBell.existing_doorbell_type_enabled_setter welcoming nameless
      (VInt 5) connected
    = (Raise AttributeError, connected).
Proof.
  assert (Hnone : RingGeneric._attrs nameless = VNone) by reflexivity.
  assert (Hchime : CHIME_VOL_MIN ≤ int_of (VInt 5) ≤ CHIME_VOL_MAX)
    by (cbn; lia).
  destruct (unset_descriptor_raises_everywhere welcoming nameless (VInt 5) 30
              None connected Hnone)
    as ((_ & _ & _ & W1 & _) & (W2 & _) & W3 & _ & _ & W4).
  exact (conj Hnone (conj W1 (conj W2 (conj (W3 eq_refl Hchime) W4)))).
Defined.
End MoreExamples.
